(** * Resume generator: content selection, optimization and orchestration

    A shallow embedding of the decision logic of
    [scripts/step1_relevance_filter.py], [scripts/step2_llm_optimize.py],
    [scripts/step4_generate_cover_letter.py] and [scripts/resume_pipeline.py],
    followed by the properties the specification states about them.

    Layout: the Python value model ([Py]), one module of definitions per
    script, then the lemmas and theorems. *)

From Stdlib Require Import String Ascii ZArith NArith List Bool Lia.
Import ListNotations.

Set Implicit Arguments.
Set Warnings "-register-all".

(* ================================================================== *)
(** * Python values *)
(* ================================================================== *)

Module Py.

(** A Python [str] is a sequence of Unicode code points. *)
Definition codepoint := N.
Definition str := list codepoint.

(** ASCII literals of the source, as code points. *)
Definition lit (s : string) : str := map N_of_ascii (list_ascii_of_string s).

Fixpoint str_eqb (s t : str) : bool :=
  match s, t with
  | [], [] => true
  | c :: s', d :: t' => N.eqb c d && str_eqb s' t'
  | _, _ => false
  end.

(** [len(l)] as a Python integer. *)
Definition len {A : Type} (l : list A) : Z := Z.of_nat (length l).

(** [l[:k]]: a negative bound counts from the end of the list. *)
Definition slice_to {A : Type} (k : Z) (l : list A) : list A :=
  firstn (Z.to_nat (if (k <? 0)%Z then (len l + k)%Z else k)) l.

(** [l[k:]] for a bound [0 <= k], the only form the sources use. *)
Definition slice_from {A : Type} (k : nat) (l : list A) : list A := skipn k l.

(** A Python [float] as [json.loads] builds it: the shared [NaN] constant,
    an infinity, or the finite value [m * 2^e]. *)
Inductive pyfloat : Type :=
| FNaN
| FInf (negative : bool)
| FFinite (m e : Z).

(** The values [json.loads] returns.  A dict is an association list in
    insertion order whose keys are distinct. *)
Inductive json : Type :=
| JNull
| JBool (b : bool)
| JInt (n : Z)
| JFloat (f : pyfloat)
| JStr (s : str)
| JList (l : list json)
| JDict (d : list (str * json)).

Definition dict := list (str * json).

(** [key in d] and [d.get(key)]. *)
Fixpoint dict_get {V : Type} (key : str) (d : list (str * V)) : option V :=
  match d with
  | [] => None
  | (k, v) :: d' => if str_eqb k key then Some v else dict_get key d'
  end.

Definition dict_has {V : Type} (key : str) (d : list (str * V)) : bool :=
  match dict_get key d with Some _ => true | None => false end.

(** [d.get(key, default)]. *)
Definition dict_get_default {V : Type} (key : str) (default : V)
    (d : list (str * V)) : V :=
  match dict_get key d with Some v => v | None => default end.

(** [d[key] = v]: an existing key keeps its position. *)
Fixpoint dict_set {V : Type} (key : str) (v : V) (d : list (str * V))
    : list (str * V) :=
  match d with
  | [] => [(key, v)]
  | (k, w) :: d' =>
      if str_eqb k key then (k, v) :: d' else (k, w) :: dict_set key v d'
  end.

(** Numbers compare by value across [bool], [int] and [float]. *)
Inductive pynum : Type :=
| NumInt (z : Z)
| NumFloat (f : pyfloat).

Definition number_of (v : json) : option pynum :=
  match v with
  | JBool b => Some (NumInt (if b then 1 else 0)%Z)
  | JInt z => Some (NumInt z)
  | JFloat f => Some (NumFloat f)
  | _ => None
  end.

(** [m1 * 2^e1 == m2 * 2^e2], computed over the integers. *)
Definition dyadic_eqb (m1 e1 m2 e2 : Z) : bool :=
  let e := Z.min e1 e2 in
  (m1 * 2 ^ (e1 - e) =? m2 * 2 ^ (e2 - e))%Z.

(** [NaN] is one object of the json module, and the comparisons of list
    membership and of container contents test identity before equality, so
    it compares equal to itself here. *)
Definition float_eqb (f g : pyfloat) : bool :=
  match f, g with
  | FNaN, FNaN => true
  | FInf a, FInf b => Bool.eqb a b
  | FFinite m1 e1, FFinite m2 e2 => dyadic_eqb m1 e1 m2 e2
  | _, _ => false
  end.

Definition num_eqb (x y : pynum) : bool :=
  match x, y with
  | NumInt a, NumInt b => (a =? b)%Z
  | NumInt a, NumFloat (FFinite m e) => dyadic_eqb a 0 m e
  | NumFloat (FFinite m e), NumInt b => dyadic_eqb m e b 0
  | NumFloat f, NumFloat g => float_eqb f g
  | _, _ => false
  end.

(** Python's [a == b] on decoded JSON. *)
Fixpoint py_eq (a b : json) {struct a} : bool :=
  match a, b with
  | JNull, JNull => true
  | JStr s, JStr t => str_eqb s t
  | JList la, JList lb =>
      (fix all2 (xs ys : list json) {struct xs} : bool :=
         match xs, ys with
         | [], [] => true
         | x :: xs', y :: ys' => py_eq x y && all2 xs' ys'
         | _, _ => false
         end) la lb
  | JDict da, JDict db =>
      Nat.eqb (length da) (length db) &&
      forallb (fun kv => match dict_get (fst kv) db with
                         | Some w => py_eq (snd kv) w
                         | None => false
                         end) da
  | _, _ =>
      match number_of a, number_of b with
      | Some x, Some y => num_eqb x y
      | _, _ => false
      end
  end.

(** Decoded JSON has no repeated key in any object. *)
Fixpoint distinct_keys (keys : list str) : bool :=
  match keys with
  | [] => true
  | k :: keys' => negb (existsb (str_eqb k) keys') && distinct_keys keys'
  end.

Fixpoint well_formed (v : json) : bool :=
  match v with
  | JList l => forallb well_formed l
  | JDict d =>
      distinct_keys (map fst d) && forallb (fun kv => well_formed (snd kv)) d
  | _ => true
  end.

(** [x in l] and [x not in l] on a list: Python tests [e is x or e == x]
    for each element [e]; on well-formed values [==] is reflexive, so the
    identity test adds nothing. *)
Definition py_in (x : json) (l : list json) : bool :=
  existsb (fun e => py_eq e x) l.

Definition dict_in (x : dict) (l : list dict) : bool :=
  existsb (fun e => py_eq (JDict e) (JDict x)) l.

(** [isinstance(v, int)]: [bool] is a subclass of [int]. *)
Definition isinstance_int (v : json) : option Z :=
  match v with
  | JInt z => Some z
  | JBool b => Some (if b then 1 else 0)%Z
  | _ => None
  end.

Definition isinstance_list (v : json) : bool :=
  match v with JList _ => true | _ => false end.

Definition isinstance_str (v : json) : bool :=
  match v with JStr _ => true | _ => false end.

(** [for x in v] raises [TypeError] unless [v] is a list, a str or a dict. *)
Definition iterable (v : json) : bool :=
  match v with JList _ | JStr _ | JDict _ => true | _ => false end.

(** [', '.join(v)] needs an iterable of [str]; the keys of a decoded dict
    and the characters of a str are. *)
Definition joinable (v : json) : bool :=
  match v with
  | JList l => forallb isinstance_str l
  | JStr _ | JDict _ => true
  | _ => false
  end.

(** Truth value of [if v:]. *)
Definition truthy (v : json) : bool :=
  match v with
  | JNull => false
  | JBool b => b
  | JInt z => negb (z =? 0)%Z
  | JFloat (FFinite m _) => negb (m =? 0)%Z
  | JFloat _ => true
  | JStr s => negb (Nat.eqb (length s) 0)
  | JList l => negb (Nat.eqb (length l) 0)
  | JDict d => negb (Nat.eqb (length d) 0)
  end.

(** ** Calls to the text-generation service

    A function that may call the service is a tree: it returns, raises, or
    issues a request and continues with the reply. *)
Inductive prog (Q R A : Type) : Type :=
| Ret (a : A)
| Raise
| Call (q : Q) (k : R -> prog Q R A).

Arguments Ret {Q R A} a.
Arguments Raise {Q R A}.
Arguments Call {Q R A} q k.

Inductive outcome (A : Type) : Type :=
| Returned (a : A)
| Raised.

Arguments Returned {A} a.
Arguments Raised {A}.

Fixpoint run {Q R A : Type} (service : Q -> R) (p : prog Q R A) : outcome A :=
  match p with
  | Ret a => Returned a
  | Raise => Raised
  | Call q k => run service (k (service q))
  end.

(** The requests issued along the way, in order. *)
Fixpoint requests {Q R A : Type} (service : Q -> R) (p : prog Q R A) : list Q :=
  match p with
  | Ret _ | Raise => []
  | Call q k => q :: requests service (k (service q))
  end.

(** What the [try] blocks around a JSON-producing call can see: the call,
    reading its content or cleaning the text raised (any exception other
    than the decoder's); [json.loads] raised [JSONDecodeError] on the cleaned
    text; or [json.loads] returned a value. *)
Inductive reply : Type :=
| ServiceError
| BadJson
| Parsed (v : json).

End Py.

(* ================================================================== *)
(** * scripts/step1_relevance_filter.py *)
(* ================================================================== *)

Module Step1.
Import Py.

Local Open Scope Z_scope.

(** One request per prompt the script builds. *)
Inductive request : Type :=
| RankExperiences
| RankProjects
| FilterSkills (category : str).

(** [exp.get('priority') == p] *)
Definition priority_is (p : string) (exp : dict) : bool :=
  match dict_get (lit "priority") exp with
  | Some v => py_eq v (JStr (lit p))
  | None => false
  end.

(** ['priority' not in exp] *)
Definition priority_unset (exp : dict) : bool :=
  negb (dict_has (lit "priority") exp).

(** The summary loop of [llm_rank_experiences] iterates
    [exp.get('bullets', [])]; everything else it does is string formatting,
    which accepts any value. *)
Definition experience_summary_builds (exp : dict) : bool :=
  iterable (dict_get_default (lit "bullets") (JList []) exp).

(** The summary loop of [llm_rank_projects] also joins
    [proj.get('tech', [])]. *)
Definition project_summary_builds (proj : dict) : bool :=
  joinable (dict_get_default (lit "tech") (JList []) proj)
  && iterable (dict_get_default (lit "bullets") (JList []) proj).

Definition llm_rank_experiences (experiences : list dict) (max_count : Z)
    : prog request reply (list dict) :=
  if len experiences <=? max_count then Ret experiences else
  let high_priority := filter (priority_is "high") experiences in
  let medium_priority := filter (priority_is "medium") experiences in
  let low_priority := filter (priority_is "low") experiences in
  let no_priority := filter priority_unset experiences in
  let selected_experiences := high_priority in
  let remaining_slots := max_count - len selected_experiences in
  if remaining_slots <=? 0 then Ret (slice_to max_count selected_experiences) else
  let remaining_experiences := medium_priority ++ low_priority ++ no_priority in
  if Nat.eqb (length remaining_experiences) 0 then Ret selected_experiences else
  if len remaining_experiences <=? remaining_slots then
    Ret (selected_experiences ++ remaining_experiences) else
  (* the prompt is built outside the [try] *)
  if negb (forallb experience_summary_builds remaining_experiences) then Raise else
  Call RankExperiences (fun response =>
    match response with
    | Parsed (JList selected_indices) =>
        let llm_selected :=
          fold_left (fun llm_selected idx =>
            match isinstance_int idx with
            | Some i =>
                if (1 <=? i) && (i <=? len remaining_experiences) then
                  match nth_error remaining_experiences (Z.to_nat (i - 1)) with
                  | Some exp => llm_selected ++ [exp]
                  | None => llm_selected (* not reached: [i - 1] is in range *)
                  end
                else llm_selected
            | None => llm_selected
            end) (slice_to remaining_slots selected_indices) [] in
        let llm_selected :=
          if len llm_selected <? remaining_slots then
            let remaining :=
              filter (fun exp => negb (dict_in exp llm_selected))
                     remaining_experiences in
            llm_selected ++ slice_to (remaining_slots - len llm_selected) remaining
          else llm_selected in
        let final_selection := selected_experiences ++ llm_selected in
        Ret (slice_to max_count final_selection)
    | Parsed _ | BadJson | ServiceError =>
        let fallback_selection :=
          selected_experiences ++ slice_to remaining_slots remaining_experiences in
        Ret (slice_to max_count fallback_selection)
    end).

Definition llm_rank_projects (projects : list dict) (max_count : Z)
    : prog request reply (list dict) :=
  if len projects <=? max_count then Ret projects else
  let high_priority := filter (priority_is "high") projects in
  let medium_priority := filter (priority_is "medium") projects in
  let low_priority := filter (priority_is "low") projects in
  let no_priority := filter priority_unset projects in
  let selected_projects := high_priority in
  let remaining_slots := max_count - len selected_projects in
  if remaining_slots <=? 0 then Ret (slice_to max_count selected_projects) else
  let remaining_projects := medium_priority ++ low_priority ++ no_priority in
  if Nat.eqb (length remaining_projects) 0 then Ret selected_projects else
  if len remaining_projects <=? remaining_slots then
    Ret (selected_projects ++ remaining_projects) else
  if negb (forallb project_summary_builds remaining_projects) then Raise else
  Call RankProjects (fun response =>
    match response with
    | Parsed (JList selected_indices) =>
        let llm_selected :=
          fold_left (fun llm_selected idx =>
            match isinstance_int idx with
            | Some i =>
                if (1 <=? i) && (i <=? len remaining_projects) then
                  match nth_error remaining_projects (Z.to_nat (i - 1)) with
                  | Some proj => llm_selected ++ [proj]
                  | None => llm_selected (* not reached: [i - 1] is in range *)
                  end
                else llm_selected
            | None => llm_selected
            end) (slice_to remaining_slots selected_indices) [] in
        let llm_selected :=
          if len llm_selected <? remaining_slots then
            let remaining :=
              filter (fun proj => negb (dict_in proj llm_selected))
                     remaining_projects in
            llm_selected ++ slice_to (remaining_slots - len llm_selected) remaining
          else llm_selected in
        let final_selection := selected_projects ++ llm_selected in
        Ret (slice_to max_count final_selection)
    | Parsed _ | BadJson | ServiceError =>
        let fallback_selection :=
          selected_projects ++ slice_to remaining_slots remaining_projects in
        Ret (slice_to max_count fallback_selection)
    end).

Definition categories : list str :=
  [lit "languages"; lit "technologies"; lit "concepts"].

(** The body of the [for category in ...] loop of [llm_filter_skills], with
    [filtered_skills] as the loop state. *)
Fixpoint filter_categories (cats : list str) (skills : dict)
    (max_per_category : Z) (filtered_skills : dict)
    : prog request reply dict :=
  match cats with
  | [] => Ret filtered_skills
  | category :: rest =>
      match dict_get category skills with
      | Some (JList skill_list) =>
          if len skill_list <=? max_per_category then
            filter_categories rest skills max_per_category
              (dict_set category (JList skill_list) filtered_skills)
          else
          (* [', '.join(skill_list)] in the prompt, outside the [try] *)
          if negb (joinable (JList skill_list)) then Raise else
          Call (FilterSkills category) (fun response =>
            let chosen :=
              match response with
              | Parsed (JList selected_skills) =>
                  let valid_skills :=
                    filter (fun skill => py_in skill skill_list) selected_skills in
                  let valid_skills :=
                    if len valid_skills <? max_per_category then
                      let remaining :=
                        filter (fun skill => negb (py_in skill valid_skills))
                               skill_list in
                      valid_skills
                        ++ slice_to (max_per_category - len valid_skills) remaining
                    else valid_skills in
                  slice_to max_per_category valid_skills
              | Parsed _ | BadJson | ServiceError =>
                  slice_to max_per_category skill_list
              end in
            filter_categories rest skills max_per_category
              (dict_set category (JList chosen) filtered_skills))
      | _ => filter_categories rest skills max_per_category filtered_skills
      end
  end.

Definition llm_filter_skills (skills : dict) (max_per_category : Z)
    : prog request reply dict :=
  filter_categories categories skills max_per_category [].

(** The selection blocks of [main]: [dry_run] is [args.dry_run] and
    [client_is_none] is [client is None]. *)
Definition main_experiences (dry_run client_is_none : bool)
    (experiences : list dict) (max_experiences : Z)
    : prog request reply (list dict) :=
  if dry_run || client_is_none then Ret (slice_to max_experiences experiences)
  else llm_rank_experiences experiences max_experiences.

Definition main_projects (dry_run client_is_none : bool)
    (projects : list dict) (max_projects : Z)
    : prog request reply (list dict) :=
  if dry_run || client_is_none then Ret (slice_to max_projects projects)
  else llm_rank_projects projects max_projects.

Definition main_skills (dry_run client_is_none : bool)
    (skills : dict) (max_skills_per_category : Z)
    : prog request reply dict :=
  if dry_run || client_is_none then
    Ret (fold_left (fun filtered_skills category =>
           match dict_get category skills with
           | Some (JList skill_list) =>
               dict_set category
                 (JList (slice_to max_skills_per_category skill_list))
                 filtered_skills
           | _ => filtered_skills
           end) categories [])
  else llm_filter_skills skills max_skills_per_category.

End Step1.

(* ================================================================== *)
(** * scripts/step2_llm_optimize.py *)
(* ================================================================== *)

Module Step2.
Import Py.

(** Whitespace in the sense of [str.strip()] and [str.isspace()]. *)
Definition is_space (c : codepoint) : bool :=
  ((9 <=? c) && (c <=? 13) || (28 <=? c) && (c <=? 32)
   || (c =? 133) || (c =? 160) || (c =? 5760)
   || (8192 <=? c) && (c <=? 8202)
   || (c =? 8232) || (c =? 8233) || (c =? 8239) || (c =? 8287)
   || (c =? 12288))%N.

Fixpoint lstrip (s : str) : str :=
  match s with
  | c :: s' => if is_space c then lstrip s' else s
  | [] => []
  end.

Definition rstrip (s : str) : str := rev (lstrip (rev s)).

(** [s.strip()] *)
Definition strip (s : str) : str := rstrip (lstrip s).

(** [s.split(sep)] for a one-character separator. *)
Fixpoint split (sep : codepoint) (s : str) : list str :=
  match s with
  | [] => [[]]
  | c :: s' =>
      if N.eqb c sep then [] :: split sep s'
      else match split sep s' with
           | w :: ws => (c :: w) :: ws
           | [] => [[c]] (* not reached: [split] never returns [[]] *)
           end
  end.

(** [s.startswith(c)] for a one-character prefix. *)
Definition startswith (c : codepoint) (s : str) : bool :=
  match s with
  | d :: _ => N.eqb d c
  | [] => false
  end.

Definition newline : codepoint := 10%N.
Definition bullet_dot : codepoint := 8226%N.   (* U+2022 *)
Definition hyphen : codepoint := 45%N.
Definition asterisk : codepoint := 42%N.

(** What shapes the prompt; the reply does not depend on the model's view of
    it. *)
Record request : Type := {
  req_bullets : list str;
  req_job_description : str;
  req_context : str;
  req_concise : bool;
  req_priority : option str
}.

(** The [try] block sees either an exception or the message content. *)
Inductive reply : Type :=
| ServiceError
| Content (text : str).

Definition optimize_bullet_points (bullets : list str)
    (job_description context : str) (concise : bool) (priority : option str)
    : prog request reply (list str) :=
  Call {| req_bullets := bullets; req_job_description := job_description;
          req_context := context; req_concise := concise;
          req_priority := priority |}
    (fun response =>
       match response with
       | Content text =>
           let optimized_text := strip text in
           let optimized_bullets :=
             fold_left (fun optimized_bullets line =>
               let line := strip line in
               if negb (Nat.eqb (length line) 0)
                  && (startswith bullet_dot line || startswith hyphen line
                      || startswith asterisk line)
               then
                 let bullet := strip (slice_from 1 line) in
                 if negb (Nat.eqb (length bullet) 0)
                 then optimized_bullets ++ [bullet]
                 else optimized_bullets
               else optimized_bullets)
               (split newline optimized_text) [] in
           if negb (Nat.eqb (length optimized_bullets) (length bullets))
           then Ret bullets
           else Ret optimized_bullets
       | ServiceError => Ret bullets
       end).

End Step2.

(* ================================================================== *)
(** * scripts/step4_generate_cover_letter.py *)
(* ================================================================== *)

Module Step4.
Import Py.

(** [sep.join(l)] *)
Fixpoint join (sep : str) (l : list str) : str :=
  match l with
  | [] => []
  | [s] => s
  | s :: l' => s ++ sep ++ join sep l'
  end.

Fixpoint is_prefix (p s : str) : bool :=
  match p, s with
  | [], _ => true
  | c :: p', d :: s' => N.eqb c d && is_prefix p' s'
  | _ :: _, [] => false
  end.

(** [p in s] on strings. *)
Fixpoint contains (p s : str) : bool :=
  is_prefix p s || match s with
                   | [] => false
                   | _ :: s' => contains p s'
                   end.

(** [v[:k]] is defined on lists and strings only. *)
Definition sliceable (v : json) : bool :=
  match v with JList _ | JStr _ => true | _ => false end.

(** The loops that build [resume_summary]: each of the first two entries
    must be a dict whose bullets can be sliced. *)
Definition entries_build (v : json) : bool :=
  if truthy v then
    match v with
    | JList l =>
        forallb (fun e =>
          match e with
          | JDict d => sliceable (dict_get_default (lit "bullets") (JList []) d)
          | _ => false
          end) (slice_to 2 l)
    | _ => false
    end
  else true.

Definition summary_builds (resume_data : dict) : bool :=
  match dict_get_default (lit "personal_info") (JDict []) resume_data with
  | JDict _ => true
  | _ => false
  end
  && entries_build (dict_get_default (lit "experience") (JList []) resume_data)
  && entries_build (dict_get_default (lit "projects") (JList []) resume_data).

Definition required_fields : list str :=
  [lit "intro"; lit "body_paragraphs"; lit "closing"; lit "company_name";
   lit "recipient_name"].

(** [field not in cover_letter_data]; [None] when the test itself raises
    [TypeError]. *)
Definition field_missing (field : str) (cover_letter_data : json)
    : option bool :=
  match cover_letter_data with
  | JDict d => Some (negb (dict_has field d))
  | JList l => Some (negb (py_in (JStr field) l))
  | JStr s => Some (negb (contains field s))
  | _ => None
  end.

(** How the validation loop ends. *)
Inductive validation : Type :=
| AllPresent
| MissingField      (* [ValueError], handled by the inner [except] *)
| TypeFailure.      (* [TypeError], handled by the outer [except] *)

Fixpoint validate (fields : list str) (cover_letter_data : json) : validation :=
  match fields with
  | [] => AllPresent
  | field :: rest =>
      match field_missing field cover_letter_data with
      | Some true => MissingField
      | Some false => validate rest cover_letter_data
      | None => TypeFailure
      end
  end.

(** [list(v)] where the result is joined afterwards: [None] on [TypeError]. *)
Definition to_list (v : json) : option (list json) :=
  match v with
  | JList l => Some l
  | JStr s => Some (map (fun c => JStr [c]) s)
  | JDict d => Some (map (fun kv => JStr (fst kv)) d)
  | _ => None
  end.

Fixpoint all_str (l : list json) : option (list str) :=
  match l with
  | [] => Some []
  | JStr s :: l' =>
      match all_str l' with Some r => Some (s :: r) | None => None end
  | _ :: _ => None
  end.

Section Synthesizer.

(** Python's [format(v)], which the f-strings apply to interpolated values. *)
Variable py_format : json -> str.

(** The first body paragraph of the validation fallback. *)
Definition background_paragraph (skills : json) : option str :=
  match skills with
  | JDict sk =>
      match dict_get (lit "technologies") sk with
      | Some technologies =>
          if truthy technologies then
            match to_list technologies with
            | Some l =>
                match all_str (slice_to 3 l) with
                | Some names =>
                    Some (lit "With my background in " ++ join (lit ", ") names
                          ++ lit ", I am confident I would be a valuable addition to your team.")
                | None => None
                end
            | None => None
            end
          else
            Some (lit "With my background in software development, I am confident I would be a valuable addition to your team.")
      | None =>
          Some (lit "With my background in software development, I am confident I would be a valuable addition to your team.")
      end
  | _ => None
  end.

(** The second body paragraph of the validation fallback. *)
Definition role_paragraph (experiences : json) : option str :=
  let paragraph (role : json) :=
    lit "In my recent role as " ++ py_format role
    ++ lit ", I have developed skills that directly align with your requirements." in
  if truthy experiences then
    match experiences with
    | JList (JDict first :: _) =>
        Some (paragraph
                (dict_get_default (lit "role") (JStr (lit "Software Engineer")) first))
    | _ => None
    end
  else Some (paragraph (JStr (lit "Software Engineer"))).

(** [company_name or "Hiring Manager"] *)
Definition or_hiring_manager (company_name : str) : str :=
  match company_name with
  | [] => lit "Hiring Manager"
  | _ :: _ => company_name
  end.

(** The draft of the outer [except Exception]. *)
Definition exception_fallback (company_name : str) : json :=
  JDict
    [(lit "intro",
      JStr (lit "I am writing to express my interest in the position at your company."));
     (lit "body_paragraphs",
      JList
        [JStr (lit "My experience and skills align well with the requirements outlined in your job description.");
         JStr (lit "I am excited about the opportunity to contribute to your team and would welcome the chance to discuss my qualifications further.")]);
     (lit "closing",
      JStr (lit "Thank you for considering my application. I look forward to hearing from you."));
     (lit "company_name", JStr (or_hiring_manager company_name));
     (lit "recipient_name", JStr (lit "Hiring Manager"))].

(** The draft of the inner [except (json.JSONDecodeError, ValueError)];
    [None] when building it raises, which the outer [except] handles. *)
Definition validation_fallback (skills experiences : json) (company_name : str)
    : option json :=
  match background_paragraph skills, role_paragraph experiences with
  | Some background, Some role =>
      Some (JDict
        [(lit "intro",
          JStr (lit "I am writing to express my strong interest in the position described in your job posting."));
         (lit "body_paragraphs", JList [JStr background; JStr role]);
         (lit "closing",
          JStr (lit "I would welcome the opportunity to discuss how my experience and enthusiasm can contribute to your team's success."));
         (lit "company_name", JStr (or_hiring_manager company_name));
         (lit "recipient_name", JStr (lit "Hiring Manager"))])
  | _, _ => None
  end.

Definition generate_cover_letter_content (resume_data : dict)
    (company_name : option str) : prog unit reply json :=
  let experiences := dict_get_default (lit "experience") (JList []) resume_data in
  let skills := dict_get_default (lit "skills") (JDict []) resume_data in
  if negb (summary_builds resume_data) then Raise else
  let company_name :=
    match company_name with
    | Some (c :: n) => c :: n
    | Some [] | None => lit "the company"
    end in
  let on_invalid :=
    match validation_fallback skills experiences company_name with
    | Some draft => draft
    | None => exception_fallback company_name
    end in
  Call tt (fun response =>
    match response with
    | Parsed cover_letter_data =>
        match validate required_fields cover_letter_data with
        | AllPresent =>
            match cover_letter_data with
            | JDict d =>
                match dict_get (lit "body_paragraphs") d with
                | Some (JList _) => Ret cover_letter_data
                | Some body =>
                    Ret (JDict (dict_set (lit "body_paragraphs") (JList [body]) d))
                | None => Ret (exception_fallback company_name) (* not reached *)
                end
            | _ => Ret (exception_fallback company_name)
            end
        | MissingField => Ret on_invalid
        | TypeFailure => Ret (exception_fallback company_name)
        end
    | BadJson => Ret on_invalid
    | ServiceError => Ret (exception_fallback company_name)
    end).

End Synthesizer.

End Step4.

(* ================================================================== *)
(** * scripts/resume_pipeline.py *)
(* ================================================================== *)

Module Pipeline.
Import Py.

Local Open Scope Z_scope.

(** The entries ["1"] .. ["4"] of [steps_to_run]. *)
Inductive stage : Type := Stage1 | Stage2 | Stage3 | Stage4.

Definition stage_eqb (s t : stage) : bool :=
  match s, t with
  | Stage1, Stage1 | Stage2, Stage2 | Stage3, Stage3 | Stage4, Stage4 => true
  | _, _ => false
  end.

(** The [choices] of [--step]. *)
Inductive step_choice : Type :=
| Single (s : stage)          (* "1", "2", "3", "4" *)
| Range_1_2 | Range_2_3 | Range_3_4 | Range_1_3 | Range_1_4
| All.

Record arguments : Type := {
  job_description : str;
  step : step_choice;
  source_dir : str;
  output_dir : str;
  final_output : option str;
  api_key : option str;
  dry_run : bool;
  max_experiences : Z;
  max_projects : Z;
  concise : bool;
  generate_cover_letter : bool;
  company_name : option str
}.

Definition steps_to_run (args : arguments) : list stage :=
  match step args with
  | All =>
      [Stage1; Stage2; Stage3]
        ++ (if generate_cover_letter args then [Stage4] else [])
  | Range_1_4 => [Stage1; Stage2; Stage3; Stage4]
  | Range_1_3 => [Stage1; Stage2; Stage3]
  | Range_1_2 => [Stage1; Stage2]
  | Range_2_3 => [Stage2; Stage3]
  | Range_3_4 => [Stage3; Stage4]
  | Single s => [s]
  end.

(** [s in steps_to_run] *)
Definition requested (s : stage) (steps : list stage) : bool :=
  existsb (stage_eqb s) steps.

(** The two artifact patterns [main] globs for. *)
Inductive artifact : Type := Step1Filtered | Step2Optimized.

(** Where a stage reads from: the file this invocation names for an earlier
    stage, or a file found on disk. *)
Inductive input : Type :=
| NoInput
| ThisRun (a : artifact)
| OnDisk (path : str).

(** One call of [run_step]. *)
Record event : Type := {
  ev_stage : stage;
  ev_input : input;
  ev_returncode : Z
}.

Definition ev_ok (e : event) : bool := ev_returncode e =? 0.

(** Lexicographic order on paths and [sorted(files)[-1]]. *)
Fixpoint str_leb (s t : str) : bool :=
  match s, t with
  | [], _ => true
  | _ :: _, [] => false
  | c :: s', d :: t' => (c <? d)%N || (N.eqb c d && str_leb s' t')
  end.

Definition sorted_last (files : list str) : option str :=
  fold_left (fun best f =>
    match best with
    | None => Some f
    | Some b => if str_leb b f then Some f else Some b
    end) files None.

Section Orchestrator.

(** The file system and the child processes, as far as [main] observes
    them. *)
Variable world : Type.
Variable exists_job_description : arguments -> world -> bool.
Variable glob : arguments -> artifact -> world -> list str.
Variable subprocess_run : stage -> arguments -> input -> world -> Z * world.

Record state : Type := { st_world : world; st_log : list event }.

(** Statements of [main] either fall through with a value or [return]. *)
Inductive flow (A : Type) : Type :=
| Next (a : A) (s : state)
| Exit (code : Z) (s : state).

Arguments Next {A}.
Arguments Exit {A}.

Definition M (A : Type) : Type := state -> flow A.

Definition ret {A : Type} (a : A) : M A := fun s => Next a s.

Definition exit_with {A : Type} (code : Z) : M A := fun s => Exit code s.

Definition bind {A B : Type} (m : M A) (f : A -> M B) : M B :=
  fun s => match m s with
           | Next a s' => f a s'
           | Exit code s' => Exit code s'
           end.

Notation "x <- m ;; f" := (bind m (fun x => f))
  (at level 61, m at next level, right associativity).

(** [subprocess.run(cmd, check=True)] inside [try]: [CalledProcessError] on
    a non-zero return code. *)
Definition run_step (script : stage) (args : arguments) (inp : input) : M bool :=
  fun s =>
    let (returncode, w) := subprocess_run script args inp (st_world s) in
    Next (returncode =? 0)
         {| st_world := w;
            st_log := st_log s
                      ++ [{| ev_stage := script; ev_input := inp;
                             ev_returncode := returncode |}] |}.

(** [list(output_dir.glob(pattern))] *)
Definition existing_files (args : arguments) (a : artifact) : M (list str) :=
  fun s => Next (glob args a (st_world s)) s.

Definition main_body (args : arguments) : M Z :=
  let steps_to_run := steps_to_run args in
  let success := true in
  (* Step 1 *)
  success <-
    (if requested Stage1 steps_to_run then
       success <- run_step Stage1 args NoInput ;;
       if negb success then exit_with 1 else ret success
     else ret success) ;;
  (* Step 2 *)
  success <-
    (if requested Stage2 steps_to_run && success then
       step2_input <-
         (if requested Stage1 steps_to_run then ret (ThisRun Step1Filtered)
          else
            files <- existing_files args Step1Filtered ;;
            match sorted_last files with
            | Some f => ret (OnDisk f)
            | None => exit_with 1
            end) ;;
       success <- run_step Stage2 args step2_input ;;
       if negb success then exit_with 1 else ret success
     else ret success) ;;
  (* Step 3 *)
  success <-
    (if requested Stage3 steps_to_run && success then
       step3_input <-
         (if requested Stage2 steps_to_run then ret (ThisRun Step2Optimized)
          else
            files <- existing_files args Step2Optimized ;;
            match sorted_last files with
            | Some f => ret (OnDisk f)
            | None => exit_with 1
            end) ;;
       success <- run_step Stage3 args step3_input ;;
       if negb success then exit_with 1 else ret success
     else ret success) ;;
  (* Step 4 *)
  success <-
    (if requested Stage4 steps_to_run && success then
       step4_input <-
         (if requested Stage2 steps_to_run then ret (ThisRun Step2Optimized)
          else
            files <- existing_files args Step2Optimized ;;
            match sorted_last files with
            | Some f => ret (OnDisk f)
            | None => exit_with 1
            end) ;;
       success <- run_step Stage4 args step4_input ;;
       if negb success then exit_with 1 else ret success
     else ret success) ;;
  ret (if success then 0 else 1).

(** [main]: the exit code, the calls of [run_step] in order, and the world
    left behind. *)
Definition main (args : arguments) (w : world) : Z * list event * world :=
  if negb (exists_job_description args w) then (1, [], w) else
  match main_body args {| st_world := w; st_log := [] |} with
  | Next code s | Exit code s => (code, st_log s, st_world s)
  end.

(** The artifact a stage reads, if any. *)
Definition precondition (s : stage) : option artifact :=
  match s with
  | Stage1 => None
  | Stage2 => Some Step1Filtered
  | Stage3 | Stage4 => Some Step2Optimized
  end.

Definition producer (a : artifact) : stage :=
  match a with Step1Filtered => Stage1 | Step2Optimized => Stage2 end.

(** A stage's precondition artifact is missing: its producer is not part of
    this invocation and no file on disk matches. *)
Definition artifact_missing (args : arguments) (s : stage) (w : world) : bool :=
  match precondition s with
  | None => false
  | Some a =>
      negb (requested (producer a) (steps_to_run args))
      && Nat.eqb (length (glob args a w)) 0
  end.

End Orchestrator.

End Pipeline.

(* ================================================================== *)
(** * Auxiliary definitions for the statements *)
(* ================================================================== *)

(** ** Selection: names for the parts of the two ranking functions *)

Module Selection.
Import Py Step1.

Local Open Scope Z_scope.

(** The [high_priority] list and the ranking pool
    [medium_priority + low_priority + no_priority]. *)
Definition high (items : list dict) : list dict :=
  filter (priority_is "high") items.

Definition pool (items : list dict) : list dict :=
  filter (priority_is "medium") items
    ++ filter (priority_is "low") items
    ++ filter priority_unset items.

(** One iteration of the index loop. *)
Definition pick (remaining llm_selected : list dict) (idx : json) : list dict :=
  match isinstance_int idx with
  | Some i =>
      if (1 <=? i) && (i <=? len remaining) then
        match nth_error remaining (Z.to_nat (i - 1)) with
        | Some x => llm_selected ++ [x]
        | None => llm_selected
        end
      else llm_selected
  | None => llm_selected
  end.

(** [llm_selected] after the index loop, and after the fill step. *)
Definition picks (remaining : list dict) (remaining_slots : Z)
    (selected_indices : list json) : list dict :=
  fold_left (pick remaining) (slice_to remaining_slots selected_indices) [].

Definition fill (remaining : list dict) (remaining_slots : Z)
    (llm_selected : list dict) : list dict :=
  if len llm_selected <? remaining_slots then
    llm_selected
      ++ slice_to (remaining_slots - len llm_selected)
           (filter (fun x => negb (dict_in x llm_selected)) remaining)
  else llm_selected.

(** The common shape of [llm_rank_experiences] and [llm_rank_projects]. *)
Definition rank (summary_builds : dict -> bool) (q : request)
    (items : list dict) (max_count : Z) : prog request reply (list dict) :=
  if len items <=? max_count then Ret items else
  let remaining_slots := max_count - len (high items) in
  if remaining_slots <=? 0 then Ret (slice_to max_count (high items)) else
  if Nat.eqb (length (pool items)) 0 then Ret (high items) else
  if len (pool items) <=? remaining_slots then Ret (high items ++ pool items) else
  if negb (forallb summary_builds (pool items)) then Raise else
  Call q (fun response =>
    match response with
    | Parsed (JList selected_indices) =>
        Ret (slice_to max_count
               (high items
                  ++ fill (pool items) remaining_slots
                       (picks (pool items) remaining_slots selected_indices)))
    | Parsed _ | BadJson | ServiceError =>
        Ret (slice_to max_count
               (high items ++ slice_to remaining_slots (pool items)))
    end).

(** The ranking step is reached: the input is over budget, the high items
    leave room, and the pool does not fit in the room left. *)
Definition ranking_reached (items : list dict) (max_count : Z) : Prop :=
  max_count < len items
  /\ len (high items) < max_count
  /\ max_count - len (high items) < len (pool items).

(** A reply on which ranking is abandoned. *)
Definition ranking_unavailable (r : reply) : bool :=
  match r with
  | ServiceError | BadJson => true
  | Parsed v => negb (isinstance_list v)
  end.

(** *** The ranking step as the specification words it

    "Drop any index outside [1, len(pool)]; map surviving indices to pool
    items in the order given"; then the padding rule. *)
Definition surviving (pool : list dict) (response : list json) : list dict :=
  flat_map (fun v =>
    match v with
    | JInt i =>
        if (1 <=? i) && (i <=? len pool) then
          match nth_error pool (Z.to_nat (i - 1)) with
          | Some x => [x]
          | None => []
          end
        else []
    | _ => []
    end) response.

Definition padding (pool selected : list dict) (slots : nat) : list dict :=
  firstn (slots - length selected)
         (filter (fun x => negb (dict_in x selected)) pool).

Definition stated_ranking (pool : list dict) (response : list json)
    (slots : nat) : list dict :=
  surviving pool response ++ padding pool (surviving pool response) slots.

Definition is_bool (v : json) : bool :=
  match v with JBool _ => true | _ => false end.

(** The priority is one of the legal values, or absent. *)
Definition legal_priority (x : dict) : bool :=
  priority_is "high" x || priority_is "medium" x || priority_is "low" x
  || priority_unset x.

(** No two entries of the list compare equal under [==]. *)
Fixpoint pairwise_distinct (l : list dict) : bool :=
  match l with
  | [] => true
  | x :: l' =>
      forallb (fun y => negb (py_eq (JDict x) (JDict y))
                        && negb (py_eq (JDict y) (JDict x))) l'
      && pairwise_distinct l'
  end.

(** *** Sample inputs *)

Definition entry (company : string) : dict :=
  [(lit "company", JStr (lit company))].

Definition entry_with (company priority : string) : dict :=
  [(lit "company", JStr (lit company)); (lit "priority", JStr (lit priority))].

Definition always (r : reply) : request -> reply := fun _ => r.

(** Five entries, two of them high, two medium, one without priority. *)
Definition five_entries : list dict :=
  [entry_with "Initech" "medium"; entry_with "Globex" "high";
   entry "Hooli"; entry_with "Umbrella" "high"; entry_with "Acme" "medium"].

(** Three entries without priority. *)
Definition three_entries : list dict :=
  [entry "Initech"; entry "Globex"; entry "Hooli"].

(** Three equal entries. *)
Definition repeated_entries : list dict :=
  [entry "Initech"; entry "Initech"; entry "Initech"].

(** The high-priority invariant for a selection [sel] out of [items]. *)
Definition high_priority_kept (items : list dict) (max_count : Z)
    (sel : list dict) : Prop :=
  (max_count < len (high items) ->
     sel = slice_to max_count (high items)
     /\ (0 <= max_count -> sel = firstn (Z.to_nat max_count) (high items)))
  /\ (len (high items) <= max_count ->
      forall x, In x items -> priority_is "high" x = true -> In x sel).

(** *** Skills *)

(** The validated part of a reply and what the fill step adds to it. *)
Definition valid_skills (skill_list selected_skills : list json) : list json :=
  filter (fun skill => py_in skill skill_list) selected_skills.


(** The value stored for one category. *)
Definition chosen_skills (service : request -> reply) (max_per_category : Z)
    (category : str) (skill_list : list json) : list json :=
  if len skill_list <=? max_per_category then skill_list else
  match service (FilterSkills category) with
  | Parsed (JList selected_skills) =>
      let valid := valid_skills skill_list selected_skills in
      slice_to max_per_category
        (if len valid <? max_per_category then
           valid
             ++ slice_to (max_per_category - len valid)
                  (filter (fun skill => negb (py_in skill valid)) skill_list)
         else valid)
  | _ => slice_to max_per_category skill_list
  end.

(** The prompt for a category can be built: the list fits the budget, so no
    prompt is needed, or it holds strings only. *)
Definition skill_prompt_builds (skills : dict) (max_per_category : Z)
    (category : str) : bool :=
  match dict_get category skills with
  | Some (JList skill_list) =>
      (len skill_list <=? max_per_category) || forallb isinstance_str skill_list
  | _ => true
  end.

(** The loop of [llm_filter_skills], category by category. *)
Definition store_category (service : request -> reply) (skills : dict)
    (max_per_category : Z) (filtered_skills : dict) (category : str) : dict :=
  match dict_get category skills with
  | Some (JList skill_list) =>
      dict_set category
        (JList (chosen_skills service max_per_category category skill_list))
        filtered_skills
  | _ => filtered_skills
  end.

Definition sample_skills : dict :=
  [(lit "languages",
    JList [JStr (lit "Python"); JStr (lit "Go"); JStr (lit "Rust")]);
   (lit "technologies", JList [JStr (lit "Docker")]);
   (lit "concepts", JStr (lit "testing"))].

End Selection.

(** ** Bullets: the parsing loop of [optimize_bullet_points] *)

Module Bullets.
Import Py Step2.

(** One iteration of the loop over the lines of the reply. *)
Definition keep_line (optimized_bullets : list str) (line : str) : list str :=
  let line := strip line in
  if negb (Nat.eqb (length line) 0)
     && (startswith bullet_dot line || startswith hyphen line
         || startswith asterisk line)
  then
    let bullet := strip (slice_from 1 line) in
    if negb (Nat.eqb (length bullet) 0)
    then optimized_bullets ++ [bullet]
    else optimized_bullets
  else optimized_bullets.

(** [optimized_bullets] after the loop. *)
Definition parsed_bullets (text : str) : list str :=
  fold_left keep_line (split newline (strip text)) [].

Definition request_for (bullets : list str) (job_description context : str)
    (concise : bool) (priority : option str) : request :=
  {| req_bullets := bullets; req_job_description := job_description;
     req_context := context; req_concise := concise;
     req_priority := priority |}.

Definition three_bullets : list str :=
  [lit "Built a billing service"; lit "Cut build time by half";
   lit "Mentored two interns"].

(** A reply of two bullet lines. *)
Definition two_lines : str :=
  lit "- Built a payments service" ++ [newline]
  ++ lit "* Halved the build time".

(** A reply of three bullet lines around a line of chatter. *)
Definition three_lines : str :=
  lit "Here you go:" ++ [newline]
  ++ [bullet_dot] ++ lit " Built a payments service" ++ [newline]
  ++ lit "  - Halved the build time " ++ [newline]
  ++ lit "* Coached two interns" ++ [newline].

End Bullets.

(** ** Drafts: what counts as a complete cover-letter draft *)

Module Drafts.
Import Py Step4.

Definition nonempty_str (v : json) : bool :=
  match v with JStr (_ :: _) => true | _ => false end.

(** A non-empty string, or a non-empty list of non-empty strings. *)
Definition nonempty_value (v : json) : bool :=
  match v with
  | JStr (_ :: _) => true
  | JList (x :: l) => forallb nonempty_str (x :: l)
  | _ => false
  end.

(** The five fields of a draft, as the specification names them. *)
Definition five_fields : list str :=
  [lit "intro"; lit "body_paragraphs"; lit "closing"; lit "company_name";
   lit "recipient_name"].

(** All five fields are present and none is empty. *)
Definition complete_draft (draft : json) : bool :=
  match draft with
  | JDict d =>
      forallb (fun field =>
        match dict_get field d with
        | Some v => nonempty_value v
        | None => false
        end) five_fields
  | _ => false
  end.

(** [company_name] after [if not company_name: company_name = "the company"]. *)
Definition effective_company (company_name : option str) : str :=
  match company_name with
  | Some (c :: n) => c :: n
  | Some [] | None => lit "the company"
  end.

(** The draft returned when validation rejects the reply: the one built
    from the resume, or the exception draft when building it raises. *)
Definition on_invalid (py_format : json -> str) (resume_data : dict)
    (company_name : option str) : json :=
  match validation_fallback py_format
          (dict_get_default (lit "skills") (JDict []) resume_data)
          (dict_get_default (lit "experience") (JList []) resume_data)
          (effective_company company_name) with
  | Some draft => draft
  | None => exception_fallback (effective_company company_name)
  end.

(** All five fields are keys of the decoded object. *)
Definition has_five_fields (d : dict) : bool :=
  forallb (fun field => dict_has field d) five_fields.

(** A reply the synthesizer accepts. *)
Definition accepted (r : reply) : bool :=
  match r with
  | Parsed (JDict d) => has_five_fields d
  | _ => false
  end.

(** [format] on the values the samples interpolate. *)
Definition format_str (v : json) : str :=
  match v with
  | JStr s => s
  | _ => lit "None"
  end.

Definition sample_resume : dict :=
  [(lit "personal_info", JDict [(lit "name", JStr (lit "Ada"))]);
   (lit "experience",
    JList [JDict [(lit "role", JStr (lit "Data Engineer"));
                  (lit "company", JStr (lit "Initech"));
                  (lit "bullets", JList [JStr (lit "Built pipelines")])]]);
   (lit "skills",
    JDict [(lit "technologies",
            JList [JStr (lit "Spark"); JStr (lit "Airflow")])])].

(** A reply that is valid JSON but has no [closing]. *)
Definition draft_without_closing : json :=
  JDict [(lit "intro", JStr (lit "Dear team,"));
         (lit "body_paragraphs", JList [JStr (lit "I build pipelines.")]);
         (lit "company_name", JStr (lit "Initech"));
         (lit "recipient_name", JStr (lit "Hiring Manager"))].

(** A reply with all five fields whose body is a single string. *)
Definition draft_with_string_body : json :=
  JDict [(lit "intro", JStr (lit "Dear team,"));
         (lit "body_paragraphs", JStr (lit "I build pipelines."));
         (lit "closing", JStr (lit "Regards"));
         (lit "company_name", JStr (lit "Initech"));
         (lit "recipient_name", JStr (lit "Hiring Manager"))].

End Drafts.

(** ** Stages: the orchestrator as a first-failure state machine *)

Module Stages.
Import Py Pipeline.

Local Open Scope Z_scope.

Section Machine.

Variable world : Type.
Variable glob : arguments -> artifact -> world -> list str.
Variable subprocess_run : stage -> arguments -> input -> world -> Z * world.

(** The input of a stage: the preceding stage's output when that stage is
    part of the invocation, else the last matching file on disk; [None] when
    the precondition artifact is missing. *)
Definition resolve_input (args : arguments) (s : stage) (w : world)
    : option input :=
  match precondition s with
  | None => Some NoInput
  | Some a =>
      if requested (producer a) (steps_to_run args) then Some (ThisRun a)
      else match sorted_last (glob args a w) with
           | Some f => Some (OnDisk f)
           | None => None
           end
  end.

(** "The orchestrator halts immediately on first failure; no stage is
    attempted after a failed predecessor": the requested stages in order,
    exit code 1 at the first missing artifact or non-zero return code,
    exit code 0 at the end. *)
Fixpoint run_stages (args : arguments) (steps : list stage) (w : world)
    (log : list event) : Z * list event * world :=
  match steps with
  | [] => (0, log, w)
  | s :: rest =>
      match resolve_input args s w with
      | None => (1, log, w)
      | Some inp =>
          let (returncode, w') := subprocess_run s args inp w in
          let log' := log ++ [{| ev_stage := s; ev_input := inp;
                                 ev_returncode := returncode |}] in
          if returncode =? 0 then run_stages args rest w' log'
          else (1, log', w')
      end
  end.

(** How an invocation ended: [attempted] are the calls of [run_step] in
    order, [pending] the requested stages that were not attempted. *)
Inductive halted (args : arguments) (w : world)
    : Z -> list event -> list stage -> Prop :=
| AllCompleted (attempted : list event) :
    forallb ev_ok attempted = true ->
    halted args w 0 attempted []
| StageFailed (succeeded : list event) (failed : event) (pending : list stage) :
    forallb ev_ok succeeded = true ->
    ev_ok failed = false ->
    halted args w 1 (succeeded ++ [failed]) pending
| ArtifactMissing (attempted : list event) (s : stage) (pending : list stage) :
    forallb ev_ok attempted = true ->
    artifact_missing glob args s w = true ->
    halted args w 1 attempted (s :: pending).

End Machine.

(** A world for the samples: the return code of each stage and the files on
    disk. *)
Record sample_world : Type := {
  sw_returncode : stage -> Z;
  sw_step1_files : list str;
  sw_step2_files : list str
}.

Definition sample_glob (_ : arguments) (a : artifact) (w : sample_world)
    : list str :=
  match a with
  | Step1Filtered => sw_step1_files w
  | Step2Optimized => sw_step2_files w
  end.

Definition sample_run (s : stage) (_ : arguments) (_ : input)
    (w : sample_world) : Z * sample_world :=
  (sw_returncode w s, w).

Definition sample_args (choice : step_choice) : arguments :=
  {| job_description := lit "job.txt"; step := choice;
     source_dir := lit "about-me"; output_dir := lit "intermediate-outputs";
     final_output := None; api_key := None; dry_run := false;
     max_experiences := 3; max_projects := 2; concise := false;
     generate_cover_letter := false; company_name := None |}.

(** Stage 2 exits with code 2; nothing is on disk. *)
Definition step2_fails : sample_world :=
  {| sw_returncode := fun s => match s with Stage2 => 2 | _ => 0 end;
     sw_step1_files := []; sw_step2_files := [] |}.

End Stages.

(** ** More names for the selection functions *)

Module SelectionMore.
Import Py Step1 Selection.

Local Open Scope Z_scope.

(** A category of [skills] holds a list that exceeds the budget, so
    [llm_filter_skills] asks the service about it. *)
Definition over_budget (skills : dict) (max_per_category : Z)
    (category : str) : bool :=
  match dict_get category skills with
  | Some (JList skill_list) => negb (len skill_list <=? max_per_category)
  | _ => false
  end.

(** An index of the reply that names a pool item. *)
Definition names_item (remaining : list dict) (i : Z) : Prop :=
  1 <= i <= len remaining.

(** A list of skills with two categories over a budget of one. *)
Definition wide_skills : dict :=
  [(lit "languages", JList [JStr (lit "Python"); JStr (lit "Go")]);
   (lit "concepts", JList [JStr (lit "CI"); JStr (lit "TDD"); JStr (lit "DDD")])].

End SelectionMore.

(** ** The shape of a parsed bullet *)

Module BulletShape.
Import Py Step2.

(** Not empty, no whitespace at either end, no newline character (U+000A)
    inside. *)
Definition tidy (s : str) : bool :=
  match s with
  | [] => false
  | c :: _ =>
      negb (is_space c) && negb (is_space (last s c))
      && negb (existsb (N.eqb newline) s)
  end.

End BulletShape.

(* ================================================================== *)
(** * Sequencing calls to the service *)
(* ================================================================== *)

Module Effects.
Import Py.

(** Run [p], then [f] on its result; an exception in [p] skips [f]. *)
Fixpoint bind {Q R A B : Type} (p : prog Q R A) (f : A -> prog Q R B)
    : prog Q R B :=
  match p with
  | Ret a => f a
  | Raise => Raise
  | Call q k => Call q (fun r => bind (k r) f)
  end.

(** [out = []; for x in l: out.append(f(x))] *)
Fixpoint for_each {Q R A B : Type} (f : A -> prog Q R B) (l : list A)
    : prog Q R (list B) :=
  match l with
  | [] => Ret []
  | x :: l' =>
      bind (f x) (fun y => bind (for_each f l') (fun ys => Ret (y :: ys)))
  end.

(** A service whose reply may depend on how many calls came before: the
    [n]-th call with request [q] is answered [service n q].  The result
    comes with the number of the next call. *)
Fixpoint run_numbered {Q R A : Type} (service : nat -> Q -> R) (n : nat)
    (p : prog Q R A) : outcome A * nat :=
  match p with
  | Ret a => (Returned a, n)
  | Raise => (Raised, n)
  | Call q k => run_numbered service (S n) (k (service n q))
  end.

(** The outcome of a whole run, and the number of calls it made. *)
Definition result {Q R A : Type} (service : nat -> Q -> R) (p : prog Q R A)
    : outcome A :=
  fst (run_numbered service 0 p).

Definition calls {Q R A : Type} (service : nat -> Q -> R) (p : prog Q R A)
    : nat :=
  snd (run_numbered service 0 p).

End Effects.

(* ================================================================== *)
(** * scripts/step2_llm_optimize.py: entries, resume and [main] *)
(* ================================================================== *)

Module Step2Content.
Import Py Step2 Bullets Effects.

Local Open Scope Z_scope.

(** [', '.join(v)]; [None] when it raises [TypeError]. *)
Definition joined (v : json) : option str :=
  match Step4.to_list v with
  | Some l =>
      match Step4.all_str l with
      | Some names => Some (Step4.join (lit ", ") names)
      | None => None
      end
  | None => None
  end.

(** [setup_openai_client]: [true] when a client is built, [false] when it
    raises [ValueError].  [env_key] is [os.getenv('OPENAI_API_KEY')]. *)
Definition setup_openai_client (api_key env_key : option str) : bool :=
  match api_key with
  | Some (_ :: _) => true
  | _ => match env_key with
         | Some (_ :: _) => true
         | _ => false
         end
  end.

Section Optimizer.

(** Python's [format(v)], which the f-strings apply to interpolated values. *)
Variable py_format : json -> str.

(** [optimize_bullet_points] on the list an entry holds under ['bullets'],
    whose items need not be strings; [priority] is
    [entry.get('priority')]. *)
Definition optimize_bullet_points_any (bullets : list json)
    (job_description context : str) (concise : bool) (priority : json)
    : prog request reply (list json) :=
  Call {| req_bullets := map py_format bullets;
          req_job_description := job_description;
          req_context := context; req_concise := concise;
          req_priority :=
            if truthy priority then Some (py_format priority) else None |}
    (fun response =>
       match response with
       | Content text =>
           let optimized_bullets := parsed_bullets text in
           if negb (Nat.eqb (length optimized_bullets) (length bullets))
           then Ret bullets
           else Ret (map JStr optimized_bullets)
       | ServiceError => Ret bullets
       end).

Definition optimize_experience_entry (experience : dict)
    (job_description : str) (concise : bool) : prog request reply dict :=
  let optimized_exp := experience in
  match dict_get (lit "bullets") experience with
  | Some (JList bullets) =>
      let context :=
        lit "Experience at "
        ++ py_format (dict_get_default (lit "company") (JStr (lit "Unknown"))
                        experience)
        ++ lit " as "
        ++ py_format (dict_get_default (lit "role") (JStr (lit "Unknown"))
                        experience) in
      let priority := dict_get_default (lit "priority") JNull experience in
      bind (optimize_bullet_points_any bullets job_description context concise
              priority)
        (fun optimized_bullets =>
           Ret (dict_set (lit "bullets") (JList optimized_bullets) optimized_exp))
  | _ => Ret optimized_exp
  end.

Definition optimize_project_entry (project : dict)
    (job_description : str) (concise : bool) : prog request reply dict :=
  let optimized_proj := project in
  match dict_get (lit "bullets") project with
  | Some (JList bullets) =>
      (* the join is not inside any [try] *)
      match joined (dict_get_default (lit "tech") (JList []) project) with
      | None => Raise
      | Some tech =>
          let context :=
            lit "Project: "
            ++ py_format (dict_get_default (lit "name") (JStr (lit "Unknown"))
                            project)
            ++ lit " using " ++ tech in
          let priority := dict_get_default (lit "priority") JNull project in
          bind (optimize_bullet_points_any bullets job_description context
                  concise priority)
            (fun optimized_bullets =>
               Ret (dict_set (lit "bullets") (JList optimized_bullets)
                      optimized_proj))
      end
  | _ => Ret optimized_proj
  end.

(** The loops call [exp.get] on every item before anything else, so an item
    that is not a dict raises. *)
Definition optimize_resume_content (resume_data : dict)
    (job_description : str) (concise : bool) : prog request reply dict :=
  let optimized_resume := resume_data in
  bind
    match dict_get (lit "experience") resume_data with
    | Some (JList experience) =>
        bind (for_each (fun exp =>
                match exp with
                | JDict e =>
                    bind (optimize_experience_entry e job_description concise)
                         (fun optimized_exp => Ret (JDict optimized_exp))
                | _ => Raise
                end) experience)
          (fun optimized_experiences =>
             Ret (dict_set (lit "experience") (JList optimized_experiences)
                    optimized_resume))
    | _ => Ret optimized_resume
    end
    (fun optimized_resume =>
       match dict_get (lit "projects") resume_data with
       | Some (JList projects) =>
           bind (for_each (fun proj =>
                   match proj with
                   | JDict p =>
                       bind (optimize_project_entry p job_description concise)
                            (fun optimized_proj => Ret (JDict optimized_proj))
                   | _ => Raise
                   end) projects)
             (fun optimized_projects =>
                Ret (dict_set (lit "projects") (JList optimized_projects)
                       optimized_resume))
       | _ => Ret optimized_resume
       end).

(** What [main] reads: the two files ([None] when a path does not exist),
    the flags and the key sources. *)
Record inputs : Type := {
  filtered_resume : option dict;
  job_description : option str;
  api_key : option str;
  env_key : option str;
  dry_run : bool;
  concise : bool
}.

(** [main]: the exit code and the resume it saved, if any. *)
Definition main (args : inputs) : prog request reply (Z * option dict) :=
  match filtered_resume args with
  | None => Ret (1, None)
  | Some resume_data =>
      match job_description args with
      | None => Ret (1, None)
      | Some job_description =>
          if dry_run args then Ret (0, Some resume_data)
          else if negb (setup_openai_client (api_key args) (env_key args))
          then Ret (1, None)
          else
            bind (optimize_resume_content resume_data job_description
                    (concise args))
              (fun optimized_resume => Ret (0, Some optimized_resume))
      end
  end.

End Optimizer.

(** *** Relations between an entry and its optimized copy *)

(** Same keys in the same order, the same value under every key but
    ['bullets'], and under ['bullets'] a list of the same length whenever
    the entry held a list there. *)
Definition entry_kept (before after : dict) : Prop :=
  map fst after = map fst before
  /\ (forall key, key <> lit "bullets" ->
                  dict_get key after = dict_get key before)
  /\ match dict_get (lit "bullets") before with
     | Some (JList bullets) =>
         exists optimized,
           dict_get (lit "bullets") after = Some (JList optimized)
           /\ length optimized = length bullets
     | other => dict_get (lit "bullets") after = other
     end.

Definition item_kept (before after : json) : Prop :=
  match before, after with
  | JDict b, JDict a => entry_kept b a
  | _, _ => False
  end.

(** An entry whose bullets the optimizer sends to the service. *)
Definition has_bullet_list (v : json) : bool :=
  match v with
  | JDict d =>
      match dict_get (lit "bullets") d with
      | Some (JList _) => true
      | _ => false
      end
  | _ => false
  end.

(** The calls one entry costs. *)
Definition cost (v : json) : nat := if has_bullet_list v then 1 else 0.

(** The list stored under [key], or the empty list. *)
Definition section_items (key : string) (resume_data : dict) : list json :=
  match dict_get (lit key) resume_data with
  | Some (JList l) => l
  | _ => []
  end.

(** Every experience is a dict, and every project is a dict whose [tech]
    can be joined when it has a bullet list: the conditions under which
    [optimize_resume_content] raises nothing. *)
Definition is_dict (v : json) : bool :=
  match v with JDict _ => true | _ => false end.

Definition project_ok (v : json) : bool :=
  match v with
  | JDict p =>
      negb (has_bullet_list v)
      || match joined (dict_get_default (lit "tech") (JList []) p) with
         | Some _ => true
         | None => false
         end
  | _ => false
  end.

Definition content_ok (resume_data : dict) : bool :=
  forallb is_dict (section_items "experience" resume_data)
  && forallb project_ok (section_items "projects" resume_data).

(** One of the two blocks of [optimize_resume_content]: the list under
    [key] of [resume_data] goes through [optimize], and the result is stored
    under [key] of [optimized_resume]. *)
Definition block (key : string) (optimize : json -> prog request reply json)
    (resume_data optimized_resume : dict) : prog request reply dict :=
  match dict_get (lit key) resume_data with
  | Some (JList items) =>
      bind (for_each optimize items)
        (fun optimized =>
           Ret (dict_set (lit key) (JList optimized) optimized_resume))
  | _ => Ret optimized_resume
  end.

(** A section of the optimized resume against the section it came from. *)
Definition section_kept (key : string) (before after : dict) : Prop :=
  match dict_get (lit key) before with
  | Some (JList items) =>
      exists items',
        dict_get (lit key) after = Some (JList items')
        /\ Forall2 item_kept items items'
  | other => dict_get (lit key) after = other
  end.

(** The optimized resume against the resume it came from: the same keys in
    the same order, every section but the experiences and the projects
    untouched, and those two kept item by item. *)
Definition resume_kept (before after : dict) : Prop :=
  map fst after = map fst before
  /\ (forall key, key <> lit "experience" -> key <> lit "projects" ->
                  dict_get key after = dict_get key before)
  /\ section_kept "experience" before after
  /\ section_kept "projects" before after.

(** The bullet lists of a resume, one call each. *)
Definition bullet_lists (resume_data : dict) : nat :=
  list_sum (map cost (section_items "experience" resume_data))
  + list_sum (map cost (section_items "projects" resume_data)).

(** *** Sample inputs *)

Definition failing : nat -> request -> reply := fun _ _ => ServiceError.

Definition sample_experience : dict :=
  [(lit "company", JStr (lit "Initech"));
   (lit "bullets", JList [JStr (lit "Built pipelines"); JStr (lit "Led a team")]);
   (lit "priority", JStr (lit "high"))].

Definition sample_project : dict :=
  [(lit "name", JStr (lit "Parser"));
   (lit "tech", JList [JStr (lit "OCaml")]);
   (lit "bullets", JList [JStr (lit "Wrote a parser")])].

Definition sample_content : dict :=
  [(lit "personal_info", JDict [(lit "name", JStr (lit "Ada"))]);
   (lit "experience", JList [JDict sample_experience]);
   (lit "projects", JList [JDict sample_project]);
   (lit "skills", JDict [(lit "languages", JList [JStr (lit "OCaml")])])].

(** A reply of two bullet lines to every call. *)
Definition two_bullets : nat -> request -> reply :=
  fun _ _ => Content (lit "- Built data pipelines" ++ [newline]
                      ++ lit "- Led a team of five").

(** A resume whose only experience is a string. *)
Definition broken_content : dict :=
  [(lit "experience", JList [JStr (lit "Initech, 2019")])].

End Step2Content.

(* ================================================================== *)
(** * scripts/step4_generate_cover_letter.py: rendering and [main] *)
(* ================================================================== *)

Module Step4Render.
Import Py Step4 Effects.

Local Open Scope Z_scope.

(** [template_data] of [render_cover_letter_latex]. *)
Definition template_data (cover_letter_data personal_info : dict) : dict :=
  [(lit "date", JStr (lit "Today"));
   (lit "name",
    dict_get_default (lit "name") (JStr (lit "Your Name")) personal_info);
   (lit "recipient_name",
    dict_get_default (lit "recipient_name") (JStr (lit "Hiring Manager"))
      cover_letter_data);
   (lit "company_name",
    dict_get_default (lit "company_name") (JStr (lit "Company Name"))
      cover_letter_data);
   (lit "intro", dict_get_default (lit "intro") (JStr []) cover_letter_data);
   (lit "body_paragraphs",
    dict_get_default (lit "body_paragraphs") (JList []) cover_letter_data);
   (lit "closing", dict_get_default (lit "closing") (JStr []) cover_letter_data)].

(** [render_cover_letter_latex]: everything happens inside one [try], and
    any exception gives [False].  [latex] stands for reading the template,
    rendering it and compiling the result: [true] when [pdflatex] exits
    with 0. *)
Definition render_cover_letter_latex (latex : dict -> bool)
    (cover_letter_data personal_info : json) : bool :=
  match cover_letter_data, personal_info with
  | JDict d, JDict p => latex (template_data d p)
  | _, _ => false
  end.

(** The draft [main] uses in a dry run. *)
Definition dry_run_draft (company_name : option str) : json :=
  JDict
    [(lit "intro",
      JStr (lit "I am writing to express my interest in the position at your company."));
     (lit "body_paragraphs",
      JList
        [JStr (lit "My experience and skills align well with the requirements outlined in your job description.");
         JStr (lit "I am excited about the opportunity to contribute to your team.")]);
     (lit "closing",
      JStr (lit "Thank you for considering my application. I look forward to hearing from you."));
     (lit "company_name",
      JStr match company_name with
           | Some (c :: n) => c :: n
           | _ => lit "Company Name"
           end);
     (lit "recipient_name", JStr (lit "Hiring Manager"))].

Record inputs : Type := {
  optimized_resume : option dict;
  job_description : option str;
  template_exists : bool;
  company_name : option str;
  api_key : option str;
  env_key : option str;
  dry_run : bool
}.

Section Main.

Variable py_format : json -> str.
Variable latex : dict -> bool.

(** [main]: the exit code, and the draft handed to the renderer, if any. *)
Definition main (args : inputs) : prog unit reply (Z * option json) :=
  match optimized_resume args with
  | None => Ret (1, None)
  | Some resume_data =>
      match job_description args with
      | None => Ret (1, None)
      | Some _ =>
          if negb (template_exists args) then Ret (1, None) else
          let finish (cover_letter_data : json) :=
            let personal_info :=
              dict_get_default (lit "personal_info") (JDict []) resume_data in
            let success :=
              render_cover_letter_latex latex cover_letter_data personal_info in
            Ret (if success then 0 else 1, Some cover_letter_data) in
          if dry_run args then finish (dry_run_draft (company_name args))
          else if negb (Step2Content.setup_openai_client (api_key args)
                          (env_key args))
          then Ret (1, None)
          else
            bind (generate_cover_letter_content py_format resume_data
                    (company_name args))
                 finish
      end
  end.

End Main.

(** A draft that holds [intro], [body_paragraphs], [closing],
    [company_name] and [recipient_name], and whose body is a list. *)
Definition well_shaped (draft : json) : Prop :=
  exists d paragraphs,
    draft = JDict d
    /\ Drafts.has_five_fields d = true
    /\ dict_get (lit "body_paragraphs") d = Some (JList paragraphs).

(** *** Sample inputs *)

Definition dry_inputs : inputs :=
  {| optimized_resume := Some Drafts.sample_resume;
     job_description := Some (lit "job");
     template_exists := true;
     company_name := Some (lit "Initech");
     api_key := None; env_key := None;
     dry_run := true |}.

(** A real run with a key at hand. *)
Definition real_inputs : inputs :=
  {| optimized_resume := Some Drafts.sample_resume;
     job_description := Some (lit "job");
     template_exists := true;
     company_name := Some (lit "Initech");
     api_key := Some (lit "sk-test"); env_key := None;
     dry_run := false |}.


(** Every reply is valid JSON but has no [closing]. *)
Definition without_closing : nat -> unit -> reply :=
  fun _ _ => Parsed Drafts.draft_without_closing.

Definition compiles : dict -> bool := fun _ => true.

End Step4Render.

(* ================================================================== *)
(** * [scripts/build_resume.py] *)
(* ================================================================== *)

Module BuildResume.
Import Py.

Definition chr (c : ascii) : codepoint := N_of_ascii c.

(** [text.replace(char, replacement)] for a [char] of one character: every
    occurrence is replaced, from left to right. *)
Definition replace (char : codepoint) (replacement : str) (text : str) : str :=
  flat_map (fun c => if N.eqb c char then replacement else [c]) text.

Definition replacements : list (codepoint * str) :=
  [(chr "\", lit "\textbackslash{}");
   (chr "$", lit "\$");
   (chr "%", lit "\%");
   (chr "&", lit "\&");
   (chr "#", lit "\#");
   (chr "_", lit "\_");
   (chr "{", lit "\{");
   (chr "}", lit "\}");
   (chr "^", lit "\textasciicircum{}");
   (chr "~", lit "\textasciitilde{}")].

(** The loop of [handle_latex_chars] over [replacements]. *)
Definition escape (text : str) : str :=
  fold_left (fun text r => replace (fst r) (snd r) text) replacements text.

Definition handle_latex_chars (text : json) : json :=
  match text with
  | JStr s => JStr (escape s)
  | _ => text
  end.

Definition handle_list (items : json) : json :=
  match items with
  | JList l => JList (map handle_latex_chars l)
  | _ => items
  end.

(** [v or default], [v] the result of a [get]. *)
Definition or_else (v : option json) (default : json) : json :=
  match v with
  | Some x => if truthy x then x else default
  | None => default
  end.

(** [if isinstance(d.get(source), list):
       d[target] = ", ".join(d[source]) if d[source] else ""];
    [None] when [join] raises [TypeError]. *)
Definition set_display (source target : string) (d : dict) : option dict :=
  match dict_get (lit source) d with
  | Some (JList l) =>
      if truthy (JList l) then
        match Step4.all_str l with
        | Some names =>
            Some (dict_set (lit target)
                    (JStr (Step4.join (lit ", ") names)) d)
        | None => None
        end
      else Some (dict_set (lit target) (JStr []) d)
  | _ => Some d
  end.

(** [if isinstance(d.get("bullets"), list):
       d["bullets"] = handle_list(d["bullets"])]. *)
Definition escape_bullets (d : dict) : dict :=
  match dict_get (lit "bullets") d with
  | Some (JList l) => dict_set (lit "bullets") (handle_list (JList l)) d
  | _ => d
  end.

(** The bodies of the three loops. *)
Definition project_body (p : dict) : option dict :=
  match set_display "tech" "tech_display" p with
  | Some p => Some (escape_bullets p)
  | None => None
  end.

Definition experience_body (e : dict) : option dict := Some (escape_bullets e).

Definition education_body (e : dict) : option dict :=
  set_display "relevant_coursework" "coursework_display" e.

(** [for p in items: body(p)], where every body starts with [p.get(...)]:
    [None] when an item has no [get] or its body raises. *)
Fixpoint for_items (body : dict -> option dict) (items : list json)
    : option (list json) :=
  match items with
  | [] => Some []
  | JDict d :: rest =>
      match body d with
      | Some d' =>
          match for_items body rest with
          | Some rest' => Some (JDict d' :: rest')
          | None => None
          end
      | None => None
      end
  | _ :: _ => None
  end.

(** The loop over a section.  A str is iterated by characters and a dict by
    keys, neither of which has a [get]; a number, a bool and [None] cannot
    be iterated. *)
Definition for_section (body : dict -> option dict) (section : json)
    : option json :=
  match section with
  | JList items =>
      match for_items body items with
      | Some items' => Some (JList items')
      | None => None
      end
  | JStr [] | JDict [] => Some section
  | _ => None
  end.

(** [join_display_fields]; [None] when it raises.  [payload] is what
    [json.load] returned, so that the copy made by
    [json.loads(json.dumps(payload))] is equal to it. *)
Definition join_display_fields (payload : dict) : option dict :=
  let data := payload in
  (* skills *)
  match or_else (dict_get (lit "skills") data) (JDict []) with
  | JDict skills =>
      match set_display "languages" "languages_display" skills with
      | None => None
      | Some skills =>
      match set_display "technologies" "technologies_display" skills with
      | None => None
      | Some skills =>
      match set_display "concepts" "concepts_display" skills with
      | None => None
      | Some skills =>
      let data := dict_set (lit "skills") (JDict skills) data in
      (* projects *)
      match for_section project_body
              (or_else (dict_get (lit "projects") data) (JList [])) with
      | None => None
      | Some projects =>
      let data := dict_set (lit "projects") projects data in
      (* experience *)
      match for_section experience_body
              (or_else (dict_get (lit "experience") data) (JList [])) with
      | None => None
      | Some experience =>
      let data := dict_set (lit "experience") experience data in
      (* education *)
      match for_section education_body
              (or_else (dict_get (lit "education") data) (JList [])) with
      | None => None
      | Some education =>
      Some (dict_set (lit "education") education data)
      end end end end end end
  | _ => None
  end.

End BuildResume.

(** ** Names for the statements about [build_resume.py] *)

Module Escaping.
Import Py BuildResume.

(** What the ten replacements together make of one character.  The braces
    of the first replacement meet the seventh and the eighth; those of the
    last two come after them. *)
Definition escape_char (c : codepoint) : str :=
  if N.eqb c (chr "\") then lit "\textbackslash\{\}"
  else if N.eqb c (chr "$") then lit "\$"
  else if N.eqb c (chr "%") then lit "\%"
  else if N.eqb c (chr "&") then lit "\&"
  else if N.eqb c (chr "#") then lit "\#"
  else if N.eqb c (chr "_") then lit "\_"
  else if N.eqb c (chr "{") then lit "\{"
  else if N.eqb c (chr "}") then lit "\}"
  else if N.eqb c (chr "^") then lit "\textasciicircum{}"
  else if N.eqb c (chr "~") then lit "\textasciitilde{}"
  else [c].

(** One of the ten characters [handle_latex_chars] replaces. *)
Definition special (c : codepoint) : bool :=
  existsb (fun r => N.eqb c (fst r)) replacements.

(** The characters that are active in LaTeX text wherever they stand. *)
Definition active (c : codepoint) : bool :=
  existsb (N.eqb c) [chr "$"; chr "%"; chr "&"; chr "#"; chr "_"].

(** In [s], read after the character [prev], every active character stands
    right after a backslash, and there is no circumflex and no tilde. *)
Fixpoint guarded (prev : option codepoint) (s : str) : bool :=
  match s with
  | [] => true
  | c :: s' =>
      (if active c
       then match prev with
            | Some p => N.eqb p (chr "\")
            | None => false
            end
       else negb (N.eqb c (chr "^") || N.eqb c (chr "~")))
      && guarded (Some c) s'
  end.

(** An entry against the entry it came from: the same keys in the same
    order, the same value under every key but ['bullets'], and under
    ['bullets'] each string escaped and everything else as it was. *)
Definition entry_escaped (before after : json) : Prop :=
  exists d d',
    before = JDict d /\ after = JDict d'
    /\ map fst d' = map fst d
    /\ (forall key, key <> lit "bullets" -> dict_get key d' = dict_get key d)
    /\ match dict_get (lit "bullets") d with
       | Some (JList l) =>
           dict_get (lit "bullets") d'
           = Some (JList (map handle_latex_chars l))
       | other => dict_get (lit "bullets") d' = other
       end.

(** A list of strings, or no list at all, under [key]. *)
Definition strings_or_none (key : string) (d : dict) : bool :=
  match dict_get (lit key) d with
  | Some (JList l) => forallb isinstance_str l
  | _ => true
  end.

(** A section is missing or falsy, or a list of dicts that pass [item_ok]. *)
Definition section_ok (item_ok : dict -> bool) (key : string)
    (payload : dict) : bool :=
  match or_else (dict_get (lit key) payload) (JList []) with
  | JList items =>
      forallb (fun v => match v with
                        | JDict d => item_ok d
                        | _ => false
                        end) items
  | _ => false
  end.

(** The payloads [join_display_fields] accepts. *)
Definition payload_ok (payload : dict) : bool :=
  match or_else (dict_get (lit "skills") payload) (JDict []) with
  | JDict skills =>
      strings_or_none "languages" skills
      && strings_or_none "technologies" skills
      && strings_or_none "concepts" skills
  | _ => false
  end
  && section_ok (strings_or_none "tech") "projects" payload
  && section_ok (fun _ => true) "experience" payload
  && section_ok (strings_or_none "relevant_coursework") "education" payload.

(** *** Sample inputs *)

Definition sample_payload : dict :=
  [(lit "personal_info", JDict [(lit "name", JStr (lit "R&D_Ada"))]);
   (lit "experience",
    JList [JDict [(lit "company", JStr (lit "AT&T"));
                  (lit "bullets",
                   JList [JStr (lit "Cut costs by 30%"); JInt 7])]]);
   (lit "skills", JDict [(lit "languages", JList [JStr (lit "C#")])])].

Definition numeric_skill : dict :=
  [(lit "skills", JDict [(lit "languages", JList [JInt 3])])].

End Escaping.

(* ================================================================== *)
(** * [scripts/combine_json.py] *)
(* ================================================================== *)

Module CombineJson.
Import Py.

(** A file of the [about-me] directory: absent, holding text that
    [json.load] rejects, or holding the value [json.load] returns. *)
Inductive file : Type :=
| Missing
| Malformed
| Loaded (data : json).

Definition json_files : list (string * string) :=
  [("personal_info.json", "personal_info");
   ("education.json", "education");
   ("experience.json", "experience");
   ("projects.json", "projects");
   ("skills.json", "skills")]%string.

Definition array_keys : list str :=
  [lit "education"; lit "experience"; lit "projects"].

(** The value stored under [key] for a file that holds [data]. *)
Definition section (key : str) (data : json) : json :=
  match match data with JDict d => dict_get key d | _ => None end with
  | Some v => v
  | None =>
      if existsb (str_eqb key) array_keys
      then (if isinstance_list data then data else JList [data])
      else data
  end.

(** [main]: the dict written to [optimized_resume.json]; [None] when
    [load_json] raises. *)
Definition main (about_me : string -> file) : option dict :=
  fold_left (fun combined fk =>
    match combined with
    | None => None
    | Some combined =>
        match about_me (fst fk) with
        | Missing => Some combined
        | Malformed => None
        | Loaded data =>
            Some (dict_set (lit (snd fk)) (section (lit (snd fk)) data)
                    combined)
        end
    end) json_files (Some []).

(** A dict that holds [key]: the shape in which [projects.json] and
    [experience.json] nest their list. *)
Definition wraps (key : str) (data : json) : bool :=
  match data with
  | JDict d => dict_has key d
  | _ => false
  end.

Definition present (f : file) : bool :=
  match f with Missing => false | _ => true end.

Definition malformed (f : file) : bool :=
  match f with Malformed => true | _ => false end.

(** *** Sample inputs *)

Definition sample_about_me (name : string) : file :=
  if String.eqb name "experience.json"
  then Loaded (JDict [(lit "company", JStr (lit "Initech"))])
  else if String.eqb name "skills.json"
  then Loaded (JDict [(lit "skills", JDict [(lit "languages", JList [])])])
  else Missing.

End CombineJson.

(** ** More names for the orchestrator *)

Module StageOrder.
Import Py Pipeline.

Definition stage_number (s : stage) : nat :=
  match s with Stage1 => 1 | Stage2 => 2 | Stage3 => 3 | Stage4 => 4 end.

(** Strictly ascending stage numbers. *)
Fixpoint ascending (steps : list stage) : bool :=
  match steps with
  | s :: ((t :: _) as rest) =>
      Nat.ltb (stage_number s) (stage_number t) && ascending rest
  | _ => true
  end.

(** [f] is a greatest element of [files] in the order of [sorted]. *)
Definition latest (files : list str) (f : str) : Prop :=
  In f files /\ forall g, In g files -> str_leb g f = true.

(** Where the input of a call of [run_step] comes from: stage 1 reads no
    artifact; a later stage reads the artifact this invocation produces when
    its producer is part of the invocation, and a file on disk otherwise. *)
Definition source_of_input (args : arguments) (e : event) : Prop :=
  match precondition (ev_stage e) with
  | None => ev_input e = NoInput
  | Some a =>
      if requested (producer a) (steps_to_run args)
      then ev_input e = ThisRun a
      else exists f, ev_input e = OnDisk f
  end.

(** *** Sample inputs *)

(** Every stage exits with 0; two filtered resumes are on disk, the later
    one listed first. *)
Definition two_filtered : Stages.sample_world :=
  {| Stages.sw_returncode := fun _ => 0%Z;
     Stages.sw_step1_files :=
       [lit "out/step1_filtered_resume_20240102_090000.json";
        lit "out/step1_filtered_resume_20240101_090000.json"];
     Stages.sw_step2_files := [] |}.

End StageOrder.

(* ================================================================== *)
(** * Facts about the value model *)
(* ================================================================== *)

Module PyFacts.
Import Py.

Local Open Scope Z_scope.

Lemma len_nonneg {A : Type} (l : list A) : 0 <= len l.
Proof. unfold len. lia. Qed.

Lemma len_app {A : Type} (l l' : list A) : len (l ++ l') = len l + len l'.
Proof. unfold len. rewrite length_app. lia. Qed.

Lemma slice_to_nonneg {A : Type} (k : Z) (l : list A) :
  0 <= k -> slice_to k l = firstn (Z.to_nat k) l.
Proof.
  intros Hk. unfold slice_to.
  destruct (k <? 0) eqn:E; [apply Z.ltb_lt in E; lia | reflexivity].
Qed.

Lemma slice_to_all {A : Type} (k : Z) (l : list A) :
  len l <= k -> slice_to k l = l.
Proof.
  intros Hk. pose proof (len_nonneg l).
  rewrite slice_to_nonneg by lia.
  apply firstn_all2. unfold len in Hk. lia.
Qed.

Lemma len_slice_to {A : Type} (k : Z) (l : list A) :
  0 <= k -> len (slice_to k l) = Z.min k (len l).
Proof.
  intros Hk. rewrite slice_to_nonneg by exact Hk.
  unfold len. rewrite length_firstn. lia.
Qed.

Lemma In_firstn {A : Type} (n : nat) (l : list A) (x : A) :
  In x (firstn n l) -> In x l.
Proof.
  revert l. induction n as [|n IH]; intros [|y l]; simpl; try tauto.
  intros [H | H]; [now left | right; now apply IH].
Qed.

Lemma In_slice_to {A : Type} (k : Z) (l : list A) (x : A) :
  In x (slice_to k l) -> In x l.
Proof. unfold slice_to. apply In_firstn. Qed.

Lemma str_eqb_refl (s : str) : str_eqb s s = true.
Proof.
  induction s as [|c s IH]; simpl; [reflexivity|].
  now rewrite N.eqb_refl, IH.
Qed.

Lemma str_eqb_eq (s t : str) : str_eqb s t = true <-> s = t.
Proof.
  split.
  - revert t. induction s as [|c s IH]; intros [|d t]; simpl; try discriminate;
      [reflexivity|].
    intros H. apply andb_true_iff in H as [Hc Hs].
    apply N.eqb_eq in Hc. apply IH in Hs. now subst.
  - intros ->. apply str_eqb_refl.
Qed.

(** Only a string compares equal to a string. *)
Lemma py_eq_str (v : json) (s : str) : py_eq v (JStr s) = true -> v = JStr s.
Proof.
  destruct v as [| b | z | f | t | l | d]; simpl; try discriminate.
  intros H. apply str_eqb_eq in H. now subst.
Qed.


Lemma filter_length_mono {A : Type} (f g : A -> bool) (l : list A) :
  (forall x, In x l -> f x = true -> g x = true) ->
  (length (filter f l) <= length (filter g l))%nat.
Proof.
  induction l as [|x l IH]; intros H; simpl; [lia|].
  assert (IH' : (length (filter f l) <= length (filter g l))%nat).
  { apply IH. intros y Hy. apply H. now right. }
  destruct (f x) eqn:Ef.
  - rewrite (H x (or_introl eq_refl) Ef). simpl. lia.
  - destruct (g x); simpl; lia.
Qed.

Lemma filter_length_split {A : Type} (f : A -> bool) (l : list A) :
  (length (filter f l) + length (filter (fun x => negb (f x)) l) = length l)%nat.
Proof.
  induction l as [|x l IH]; simpl; [reflexivity|].
  destruct (f x); simpl; lia.
Qed.

Lemma str_eqb_sym (s t : str) : str_eqb s t = str_eqb t s.
Proof.
  destruct (str_eqb s t) eqn:E.
  - apply str_eqb_eq in E. subst. symmetry. apply str_eqb_refl.
  - destruct (str_eqb t s) eqn:E'; [|reflexivity].
    apply str_eqb_eq in E'. subst. now rewrite str_eqb_refl in E.
Qed.

Lemma dict_get_set {V : Type} (key k : str) (v : V) (d : list (str * V)) :
  dict_get k (dict_set key v d)
  = if str_eqb key k then Some v else dict_get k d.
Proof.
  induction d as [|[k0 w] d IH]; simpl; [reflexivity|].
  destruct (str_eqb k0 key) eqn:E0; simpl.
  - apply str_eqb_eq in E0. subst k0. now destruct (str_eqb key k).
  - rewrite IH. destruct (str_eqb k0 k) eqn:E1; [|reflexivity].
    apply str_eqb_eq in E1. subst k0. now rewrite str_eqb_sym, E0.
Qed.

(** ** [==] is reflexive on decoded JSON *)

Lemma json_nested_ind (P : json -> Prop) :
  P JNull ->
  (forall b, P (JBool b)) ->
  (forall n, P (JInt n)) ->
  (forall f, P (JFloat f)) ->
  (forall s, P (JStr s)) ->
  (forall l, Forall P l -> P (JList l)) ->
  (forall d, Forall (fun kv => P (snd kv)) d -> P (JDict d)) ->
  forall v, P v.
Proof.
  intros HNull HBool HInt HFloat HStr HList HDict.
  fix IH 1. intros [| b | n | f | s | l | d].
  - exact HNull.
  - apply HBool.
  - apply HInt.
  - apply HFloat.
  - apply HStr.
  - apply HList. induction l as [|x l IHl]; constructor; [apply IH | exact IHl].
  - apply HDict. induction d as [|[k x] d IHd]; constructor;
      [apply IH | exact IHd].
Qed.

Lemma dyadic_eqb_refl (m e : Z) : dyadic_eqb m e m e = true.
Proof. unfold dyadic_eqb. apply Z.eqb_refl. Qed.

Lemma float_eqb_refl (f : pyfloat) : float_eqb f f = true.
Proof.
  destruct f as [| b | m e]; simpl;
    [reflexivity | now destruct b | apply dyadic_eqb_refl].
Qed.

Lemma dict_get_In {V : Type} (d : list (str * V)) (k : str) (v : V) :
  distinct_keys (map fst d) = true -> In (k, v) d -> dict_get k d = Some v.
Proof.
  induction d as [|[k0 v0] d IH]; intros Hd Hin; [destruct Hin|].
  simpl in Hd. apply andb_true_iff in Hd as [Hk0 Hd].
  destruct Hin as [Heq | Hin]; simpl.
  - injection Heq as -> ->. now rewrite str_eqb_refl.
  - destruct (str_eqb k0 k) eqn:E; [|now apply IH].
    apply str_eqb_eq in E. subst k0.
    apply negb_true_iff in Hk0.
    assert (Hex : existsb (str_eqb k) (map fst d) = true).
    { apply existsb_exists. exists k. split; [|apply str_eqb_refl].
      change k with (fst (k, v)). now apply in_map. }
    congruence.
Qed.

Lemma py_eq_refl (v : json) : well_formed v = true -> py_eq v v = true.
Proof.
  induction v as [| b | n | f | s | l IHl | d IHd] using json_nested_ind;
    intros Hwf.
  - reflexivity.
  - now destruct b.
  - apply Z.eqb_refl.
  - destruct f as [| b | m e];
      [exact (float_eqb_refl FNaN) | exact (float_eqb_refl (FInf b))
      | exact (float_eqb_refl (FFinite m e))].
  - apply str_eqb_refl.
  - cbn [well_formed] in Hwf. cbn [py_eq].
    induction IHl as [|x l Hx _ IH]; [reflexivity|].
    cbn [forallb] in Hwf. apply andb_true_iff in Hwf as [Hwx Hwl].
    now rewrite (Hx Hwx), (IH Hwl).
  - cbn [well_formed] in Hwf. apply andb_true_iff in Hwf as [Hkeys Hvals].
    cbn [py_eq]. rewrite Nat.eqb_refl. cbn [andb].
    apply forallb_forall. intros [k x] Hin. cbn [fst snd].
    rewrite (dict_get_In d k x Hkeys Hin).
    rewrite Forall_forall in IHd. apply (IHd (k, x) Hin).
    rewrite forallb_forall in Hvals. apply (Hvals (k, x) Hin).
Qed.

(** A list holds each of its well-formed members in the sense of [in]. *)
Lemma dict_in_member (x : dict) (l : list dict) :
  well_formed (JDict x) = true -> In x l -> dict_in x l = true.
Proof.
  intros Hwf Hin. unfold dict_in. apply existsb_exists.
  exists x. split; [exact Hin | now apply py_eq_refl].
Qed.

(** ** The model on sample values *)

Example slice_to_negative : slice_to (-1) [1; 2; 3] = [1; 2].
Proof. reflexivity. Qed.

Example slice_to_long : slice_to 5 [1; 2; 3] = [1; 2; 3].
Proof. reflexivity. Qed.

(** [True == 1 == 1.0], and [1.5 != 1]. *)
Example numbers_compare_by_value :
  py_eq (JBool true) (JInt 1) = true
  /\ py_eq (JInt 1) (JFloat (FFinite 2 (-1))) = true
  /\ py_eq (JFloat (FFinite 3 (-1))) (JInt 1) = false
  /\ py_eq (JStr (lit "1")) (JInt 1) = false.
Proof. repeat split. Qed.

(** Dicts compare without regard to insertion order. *)
Example dicts_compare_unordered :
  py_eq (JDict [(lit "a", JInt 1); (lit "b", JNull)])
        (JDict [(lit "b", JNull); (lit "a", JFloat (FFinite 1 0))]) = true.
Proof. reflexivity. Qed.

End PyFacts.

(* ================================================================== *)
(** * Properties of the relevance filter *)
(* ================================================================== *)

Module Step1Facts.
Import Py Step1 Selection PyFacts.

Local Open Scope Z_scope.

(** Both functions are the common shape, each with its own prompt. *)
Lemma llm_rank_experiences_shape (items : list dict) (max_count : Z) :
  llm_rank_experiences items max_count
  = rank experience_summary_builds RankExperiences items max_count.
Proof. reflexivity. Qed.

Lemma llm_rank_projects_shape (items : list dict) (max_count : Z) :
  llm_rank_projects items max_count
  = rank project_summary_builds RankProjects items max_count.
Proof. reflexivity. Qed.

(** ** The index loop and the fill step *)

Lemma pick_length (remaining acc : list dict) (idx : json) :
  (length (pick remaining acc idx) <= S (length acc))%nat.
Proof.
  unfold pick.
  destruct (isinstance_int idx) as [i|]; [|lia].
  destruct ((1 <=? i) && (i <=? len remaining)); [|lia].
  destruct (nth_error remaining (Z.to_nat (i - 1))); [|lia].
  rewrite length_app. simpl. lia.
Qed.

Lemma fold_pick_length (remaining : list dict) (l : list json) (acc : list dict) :
  (length (fold_left (pick remaining) l acc) <= length acc + length l)%nat.
Proof.
  revert acc. induction l as [|idx l IH]; intros acc; simpl; [lia|].
  specialize (IH (pick remaining acc idx)).
  pose proof (pick_length remaining acc idx). lia.
Qed.

Lemma picks_length (remaining : list dict) (slots : Z) (response : list json) :
  0 <= slots -> len (picks remaining slots response) <= slots.
Proof.
  intros Hs. unfold picks.
  pose proof (fold_pick_length remaining (slice_to slots response) []) as H.
  pose proof (len_slice_to response Hs) as Hl.
  unfold len in *. simpl in H. lia.
Qed.

Lemma fold_pick_In (remaining : list dict) (l : list json) (acc : list dict) (x : dict) :
  In x (fold_left (pick remaining) l acc) -> In x acc \/ In x remaining.
Proof.
  revert acc. induction l as [|idx l IH]; intros acc; simpl; [tauto|].
  intros H. apply IH in H as [H | H]; [|now right].
  unfold pick in H.
  destruct (isinstance_int idx) as [i|]; [|now left].
  destruct ((1 <=? i) && (i <=? len remaining)); [|now left].
  destruct (nth_error remaining (Z.to_nat (i - 1))) as [y|] eqn:E; [|now left].
  apply in_app_or in H as [H | [<- | []]]; [now left|].
  right. eapply nth_error_In. exact E.
Qed.

Lemma picks_In (remaining : list dict) (slots : Z) (response : list json) (x : dict) :
  In x (picks remaining slots response) -> In x remaining.
Proof.
  intros H. apply fold_pick_In in H as [[] | H]. exact H.
Qed.

Lemma fill_length (remaining : list dict) (slots : Z) (sel : list dict) :
  len sel <= slots -> len (fill remaining slots sel) <= slots.
Proof.
  intros H. unfold fill.
  destruct (len sel <? slots) eqn:E; [|exact H].
  apply Z.ltb_lt in E.
  rewrite len_app, len_slice_to by lia. lia.
Qed.

(** ** What the common shape returns *)

Lemma high_In (items : list dict) (x : dict) :
  In x items -> priority_is "high" x = true -> In x (high items).
Proof. intros Hx Hp. apply filter_In. now split. Qed.

(** Whatever the ranking step appends, the final slice keeps the high items
    and at most [remaining_slots] others. *)
Lemma final_slice (items extra : list dict) (max_count : Z) :
  len extra <= max_count - len (high items) ->
  slice_to max_count (high items ++ extra) = high items ++ extra.
Proof.
  intros H. apply slice_to_all. rewrite len_app. lia.
Qed.

Lemma answer_length (remaining : list dict) (slots : Z) (response : list json) :
  0 <= slots ->
  len (fill remaining slots (picks remaining slots response)) <= slots.
Proof.
  intros Hs. apply fill_length. now apply picks_length.
Qed.

(** The outcome of the common shape, path by path. *)
Lemma run_rank (b : dict -> bool) (q : request) (items : list dict)
    (max_count : Z) (service : request -> reply) :
  max_count < len items ->
  let slots := max_count - len (high items) in
  run service (rank b q items max_count)
  = if slots <=? 0 then Returned (slice_to max_count (high items))
    else if len (pool items) <=? slots then Returned (high items ++ pool items)
    else if negb (forallb b (pool items)) then Raised
    else match service q with
         | Parsed (JList response) =>
             Returned (high items
                         ++ fill (pool items) slots (picks (pool items) slots response))
         | _ => Returned (high items ++ firstn (Z.to_nat slots) (pool items))
         end.
Proof.
  intros Hover slots. unfold rank. fold slots.
  destruct (len items <=? max_count) eqn:E1; [apply Z.leb_le in E1; lia|].
  destruct (slots <=? 0) eqn:E2; [reflexivity|].
  apply Z.leb_gt in E2.
  destruct (Nat.eqb (length (pool items)) 0) eqn:E3.
  { apply Nat.eqb_eq in E3.
    assert (Hl : len (pool items) = 0) by (unfold len; lia).
    destruct (len (pool items) <=? slots) eqn:E4; [|apply Z.leb_gt in E4; lia].
    destruct (pool items); [|discriminate]. now rewrite app_nil_r. }
  destruct (len (pool items) <=? slots) eqn:E4; [reflexivity|].
  apply Z.leb_gt in E4.
  destruct (negb (forallb b (pool items))); [reflexivity|].
  simpl. destruct (service q) as [| | v].
  - rewrite final_slice by (rewrite len_slice_to; lia).
    now rewrite slice_to_nonneg by lia.
  - rewrite final_slice by (rewrite len_slice_to; lia).
    now rewrite slice_to_nonneg by lia.
  - destruct v;
      try (rewrite final_slice by (rewrite len_slice_to; lia);
           now rewrite slice_to_nonneg by lia).
    simpl. rewrite final_slice; [reflexivity|].
    apply answer_length. lia.
Qed.

(** ** The fast path *)

Lemma rank_small (b : dict -> bool) (q : request) (items : list dict)
    (max_count : Z) :
  len items <= max_count -> rank b q items max_count = Ret items.
Proof.
  intros H. unfold rank.
  destruct (len items <=? max_count) eqn:E; [reflexivity|].
  apply Z.leb_gt in E. lia.
Qed.

(** C6: a list that fits the budget is returned as it is, in input order,
    by both ranking functions, and no request is sent to the service. *)
Theorem small_input_returned_unchanged (items : list dict) (max_count : Z) :
  len items <= max_count ->
  llm_rank_experiences items max_count = Ret items
  /\ llm_rank_projects items max_count = Ret items
  /\ forall service : request -> reply,
       requests service (llm_rank_experiences items max_count) = []
       /\ requests service (llm_rank_projects items max_count) = [].
Proof.
  intros H.
  rewrite llm_rank_experiences_shape, llm_rank_projects_shape.
  rewrite !rank_small by exact H.
  repeat split.
Qed.

Lemma small_input_returned_unchanged_witness :
  len three_entries <= 10
  /\ llm_rank_experiences three_entries 10 = Ret three_entries
  /\ llm_rank_projects three_entries 10 = Ret three_entries.
Proof.
  assert (H : len three_entries <= 10) by (vm_compute; discriminate).
  split; [exact H|].
  destruct (small_input_returned_unchanged three_entries H) as (He & Hp & _).
  split; [exact He | exact Hp].
Defined.

(** ** High priority *)

Lemma rank_high_priority_kept (b : dict -> bool) (q : request)
    (items : list dict) (max_count : Z) (service : request -> reply)
    (sel : list dict) :
  max_count < len items ->
  run service (rank b q items max_count) = Returned sel ->
  high_priority_kept items max_count sel.
Proof.
  intros Hover Hrun. rewrite run_rank in Hrun by exact Hover.
  assert (Hin : forall extra, len (high items) < max_count ->
                sel = high items ++ extra ->
                high_priority_kept items max_count sel).
  { intros extra Hroom ->. split.
    - intros Hmany. lia.
    - intros _ x Hx Hp. apply in_or_app. left. now apply high_In. }
  destruct (max_count - len (high items) <=? 0) eqn:E.
  - apply Z.leb_le in E. injection Hrun as <-. split.
    + intros _. split; [reflexivity|].
      intros H0. now apply slice_to_nonneg.
    + intros Hfew x Hx Hp. rewrite slice_to_all by exact Hfew.
      now apply high_In.
  - apply Z.leb_gt in E.
    destruct (len (pool items) <=? max_count - len (high items)).
    { injection Hrun as <-. apply (Hin (pool items)); [lia | reflexivity]. }
    destruct (negb (forallb b (pool items))); [discriminate|].
    destruct (service q) as [| | v]; try destruct v;
      injection Hrun as <-; (eapply Hin; [lia | reflexivity]).
Qed.

Lemma rank_returns (b : dict -> bool) (q : request) (items : list dict)
    (max_count : Z) (service : request -> reply) :
  forallb b (pool items) = true ->
  exists sel, run service (rank b q items max_count) = Returned sel.
Proof.
  intros Hb.
  destruct (Z_le_gt_dec (len items) max_count) as [Hsmall | Hover].
  { rewrite rank_small by exact Hsmall. now eexists. }
  rewrite run_rank by lia. rewrite Hb. simpl.
  destruct (max_count - len (high items) <=? 0); [now eexists|].
  destruct (len (pool items) <=? max_count - len (high items)); [now eexists|].
  destruct (service q) as [| | v]; try destruct v; now eexists.
Qed.

(** C1: when the list is over budget, every selection returned by
    [llm_rank_experiences] and [llm_rank_projects], whatever the service
    replies, contains every high-priority item; when the high-priority items
    alone exceed [max_count], the result is the first [max_count] of them in
    input order.  A selection is returned whenever the prompt can be
    built. *)
Theorem high_priority_invariant (items : list dict) (max_count : Z)
    (service : request -> reply) :
  max_count < len items ->
  (forall sel, run service (llm_rank_experiences items max_count) = Returned sel ->
               high_priority_kept items max_count sel)
  /\ (forall sel, run service (llm_rank_projects items max_count) = Returned sel ->
                  high_priority_kept items max_count sel)
  /\ (forallb experience_summary_builds (pool items) = true ->
      exists sel, run service (llm_rank_experiences items max_count) = Returned sel)
  /\ (forallb project_summary_builds (pool items) = true ->
      exists sel, run service (llm_rank_projects items max_count) = Returned sel).
Proof.
  intros Hover.
  rewrite llm_rank_experiences_shape, llm_rank_projects_shape.
  split; [|split; [|split]].
  - intros sel. now apply rank_high_priority_kept.
  - intros sel. now apply rank_high_priority_kept.
  - apply rank_returns.
  - apply rank_returns.
Qed.

Lemma high_priority_invariant_witness :
  3 < len five_entries
  /\ high_priority_kept five_entries 3
       [entry_with "Globex" "high"; entry_with "Umbrella" "high";
        entry_with "Acme" "medium"].
Proof.
  assert (H : 3 < len five_entries) by reflexivity.
  split; [exact H|].
  destruct (high_priority_invariant five_entries
              (always (Parsed (JList [JInt 2]))) H) as (He & _).
  apply He. reflexivity.
Defined.

(** ** Fallback *)

Lemma rank_fallback (b : dict -> bool) (q : request) (items : list dict)
    (max_count : Z) (service : request -> reply) :
  ranking_reached items max_count ->
  ranking_unavailable (service q) = true ->
  forallb b (pool items) = true ->
  run service (rank b q items max_count)
  = Returned (high items
                ++ firstn (Z.to_nat (max_count - len (high items))) (pool items)).
Proof.
  intros (Hover & Hroom & Hpool) Hbad Hb.
  rewrite run_rank by exact Hover. rewrite Hb. simpl.
  destruct (max_count - len (high items) <=? 0) eqn:E1;
    [apply Z.leb_le in E1; lia|].
  destruct (len (pool items) <=? max_count - len (high items)) eqn:E2;
    [apply Z.leb_le in E2; lia|].
  destruct (service q) as [| | v]; try reflexivity.
  destruct v; try reflexivity. discriminate Hbad.
Qed.

(** C3: once the ranking step is reached, a reply that is not parseable
    JSON, a reply that parses to something other than a list, and a service
    call that raises all make both functions return the high-priority items
    followed by the first [remaining_slots] pool items in pool order; nothing
    is raised. *)
Theorem ranking_fallback (items : list dict) (max_count : Z)
    (service : request -> reply) :
  ranking_reached items max_count ->
  (ranking_unavailable (service RankExperiences) = true ->
   forallb experience_summary_builds (pool items) = true ->
   run service (llm_rank_experiences items max_count)
   = Returned (high items
                 ++ firstn (Z.to_nat (max_count - len (high items))) (pool items)))
  /\ (ranking_unavailable (service RankProjects) = true ->
      forallb project_summary_builds (pool items) = true ->
      run service (llm_rank_projects items max_count)
      = Returned (high items
                    ++ firstn (Z.to_nat (max_count - len (high items))) (pool items))).
Proof.
  intros Hreach.
  rewrite llm_rank_experiences_shape, llm_rank_projects_shape.
  split; intros Hbad Hb; now apply rank_fallback.
Qed.

Lemma ranking_fallback_witness :
  ranking_reached five_entries 3
  /\ run (always (Parsed (JStr (lit "none")))) (llm_rank_experiences five_entries 3)
     = Returned [entry_with "Globex" "high"; entry_with "Umbrella" "high";
                 entry_with "Initech" "medium"]
  /\ run (always BadJson) (llm_rank_projects five_entries 3)
     = Returned [entry_with "Globex" "high"; entry_with "Umbrella" "high";
                 entry_with "Initech" "medium"].
Proof.
  assert (H : ranking_reached five_entries 3) by (repeat split).
  split; [exact H|].
  split.
  - apply (ranking_fallback (always (Parsed (JStr (lit "none")))) H); reflexivity.
  - apply (ranking_fallback (always BadJson) H); reflexivity.
Defined.

(** ** Slot bound *)

Lemma rank_length_le (b : dict -> bool) (q : request) (items : list dict)
    (max_count : Z) (service : request -> reply) (sel : list dict) :
  0 <= max_count ->
  run service (rank b q items max_count) = Returned sel ->
  len sel <= max_count.
Proof.
  intros H0 Hrun.
  destruct (Z_le_gt_dec (len items) max_count) as [Hsmall | Hover].
  { rewrite rank_small in Hrun by exact Hsmall. now injection Hrun as <-. }
  rewrite run_rank in Hrun by lia.
  destruct (max_count - len (high items) <=? 0) eqn:E1.
  { injection Hrun as <-. rewrite len_slice_to by exact H0. lia. }
  apply Z.leb_gt in E1.
  destruct (len (pool items) <=? max_count - len (high items)) eqn:E2.
  { apply Z.leb_le in E2. injection Hrun as <-. rewrite len_app. lia. }
  destruct (negb (forallb b (pool items))); [discriminate|].
  assert (Hfb : len (high items
                       ++ firstn (Z.to_nat (max_count - len (high items)))
                            (pool items)) <= max_count).
  { rewrite len_app. unfold len at 2. rewrite length_firstn. lia. }
  destruct (service q) as [| | v]; try destruct v;
    injection Hrun as <-; try exact Hfb.
  rewrite len_app.
  pose proof (@answer_length (pool items) (max_count - len (high items)) l).
  lia.
Qed.

(** With legal priorities the four groups partition the input. *)
Lemma legal_priority_one (x : dict) :
  legal_priority x = true ->
  ((if priority_is "high" x then 1 else 0)
   + (if priority_is "medium" x then 1 else 0)
   + (if priority_is "low" x then 1 else 0)
   + (if priority_unset x then 1 else 0) = 1)%nat.
Proof.
  unfold legal_priority, priority_unset, priority_is, dict_has.
  destruct (dict_get (lit "priority") x) as [v|]; [|reflexivity].
  simpl negb. rewrite orb_false_r. intros H.
  apply orb_true_iff in H as [H | H]; [apply orb_true_iff in H as [H | H]|];
    apply py_eq_str in H; subst v; reflexivity.
Qed.

Lemma filter_cons_length {A : Type} (f : A -> bool) (x : A) (l : list A) :
  length (filter f (x :: l))
  = ((if f x then 1 else 0) + length (filter f l))%nat.
Proof. simpl. now destruct (f x). Qed.

Lemma partition_length (items : list dict) :
  forallb legal_priority items = true ->
  len (high items) + len (pool items) = len items.
Proof.
  intros H. unfold len.
  enough (length (high items) + length (pool items) = length items)%nat by lia.
  unfold high, pool. rewrite !length_app.
  induction items as [|x l IH]; [reflexivity|].
  simpl in H. apply andb_true_iff in H as [Hx Hl].
  specialize (IH Hl). apply legal_priority_one in Hx.
  rewrite !filter_cons_length. simpl length. lia.
Qed.

Lemma pairwise_distinct_cons (a : dict) (l : list dict) :
  pairwise_distinct (a :: l) = true ->
  (forall y, In y l ->
     py_eq (JDict a) (JDict y) = false /\ py_eq (JDict y) (JDict a) = false)
  /\ pairwise_distinct l = true.
Proof.
  intros H.
  change (forallb (fun y => negb (py_eq (JDict a) (JDict y))
                            && negb (py_eq (JDict y) (JDict a))) l
          && pairwise_distinct l = true) in H.
  apply andb_true_iff in H as [Ha Hl]. split; [|exact Hl].
  intros y Hy. rewrite forallb_forall in Ha. specialize (Ha y Hy).
  apply andb_true_iff in Ha as [H1 H2].
  now rewrite negb_true_iff in H1, H2.
Qed.

(** Equal entries of a pairwise distinct list are the same entry. *)
Lemma pairwise_distinct_eq (l : list dict) (e x : dict) :
  pairwise_distinct l = true -> In e l -> In x l ->
  py_eq (JDict e) (JDict x) = true -> e = x.
Proof.
  induction l as [|a l IH]; intros Hd He Hx Heq; [destruct He|].
  apply pairwise_distinct_cons in Hd as [Ha Hl].
  destruct He as [-> | He], Hx as [-> | Hx]; try reflexivity.
  - apply Ha in Hx as [Hx _]. congruence.
  - apply Ha in He as [_ He]. congruence.
  - now apply IH.
Qed.

Lemma filter_drops_one {A : Type} (f : A -> bool) (l : list A) (a : A) :
  In a l -> f a = false -> (length (filter f l) < length l)%nat.
Proof.
  induction l as [|x l IH]; intros Hin Hf; [destruct Hin|].
  pose proof (filter_length_le f l). simpl.
  destruct Hin as [-> | Hin].
  - rewrite Hf. lia.
  - specialize (IH Hin Hf). destruct (f x); simpl; lia.
Qed.

(** In a pairwise distinct pool, a selection shadows at most as many pool
    entries as it has members. *)
Lemma shadowed_length (remaining : list dict) :
  pairwise_distinct remaining = true ->
  forall sel : list dict,
    (forall e x, In e sel -> In x remaining ->
                 py_eq (JDict e) (JDict x) = true -> e = x) ->
    (length (filter (fun x => dict_in x sel) remaining) <= length sel)%nat.
Proof.
  induction remaining as [|a l IH]; intros Hd sel Hrigid; [simpl; lia|].
  apply pairwise_distinct_cons in Hd as [Ha Hl].
  cbn [filter].
  destruct (dict_in a sel) eqn:Ein.
  - unfold dict_in in Ein. apply existsb_exists in Ein as (e & He & Heq).
    assert (e = a) by (apply Hrigid; [exact He | now left | exact Heq]).
    subst e.
    set (sel' := filter (fun e => negb (py_eq (JDict e) (JDict a))) sel).
    assert (Hshort : (length sel' < length sel)%nat).
    { apply filter_drops_one with (a := a); [exact He|]. now rewrite Heq. }
    assert (Hmono : (length (filter (fun x => dict_in x sel) l)
                     <= length (filter (fun x => dict_in x sel') l))%nat).
    { apply filter_length_mono. intros y Hy Hin.
      unfold dict_in in Hin. apply existsb_exists in Hin as (e & He' & Heq').
      assert (e = y) by (apply Hrigid; [exact He' | now right | exact Heq']).
      subst e. unfold dict_in. apply existsb_exists. exists y.
      split; [|exact Heq'].
      apply filter_In. split; [exact He'|].
      apply Ha in Hy as [_ Hy]. now rewrite Hy. }
    assert (IH' : (length (filter (fun x => dict_in x sel') l) <= length sel')%nat).
    { apply IH; [exact Hl|]. intros e x He' Hx.
      apply filter_In in He' as [He' _]. apply Hrigid; [exact He' | now right]. }
    cbn [length]. lia.
  - apply IH; [exact Hl|]. intros e x He Hx. apply Hrigid; [exact He | now right].
Qed.

(** The fill step reaches [remaining_slots] when the pool is larger than
    that and pairwise distinct. *)
Lemma fill_exact (remaining : list dict) (slots : Z) (sel : list dict) :
  pairwise_distinct remaining = true ->
  (forall e, In e sel -> In e remaining) ->
  len sel <= slots -> slots < len remaining ->
  len (fill remaining slots sel) = slots.
Proof.
  intros Hd Hsub Hle Hpool. unfold fill.
  destruct (len sel <? slots) eqn:E; [|apply Z.ltb_ge in E; lia].
  apply Z.ltb_lt in E.
  rewrite len_app, len_slice_to by lia.
  pose proof (filter_length_split (fun x => dict_in x sel) remaining) as Hsplit.
  assert (Hsh : (length (filter (fun x => dict_in x sel) remaining)
                 <= length sel)%nat).
  { apply shadowed_length; [exact Hd|]. intros e x He Hx.
    apply pairwise_distinct_eq with (l := remaining); auto. }
  unfold len in *. lia.
Qed.

Lemma rank_length_eq (b : dict -> bool) (q : request) (items : list dict)
    (max_count : Z) (service : request -> reply) (sel : list dict) :
  0 <= max_count -> max_count <= len items ->
  forallb legal_priority items = true ->
  pairwise_distinct (pool items) = true ->
  run service (rank b q items max_count) = Returned sel ->
  len sel = max_count.
Proof.
  intros H0 Hlen Hlegal Hd Hrun.
  destruct (Z_le_gt_dec (len items) max_count) as [Hsmall | Hover].
  { rewrite rank_small in Hrun by exact Hsmall. injection Hrun as <-. lia. }
  pose proof (partition_length items Hlegal) as Hpart.
  rewrite run_rank in Hrun by lia.
  destruct (max_count - len (high items) <=? 0) eqn:E1.
  { apply Z.leb_le in E1. injection Hrun as <-.
    rewrite len_slice_to by exact H0. lia. }
  apply Z.leb_gt in E1.
  destruct (len (pool items) <=? max_count - len (high items)) eqn:E2;
    [apply Z.leb_le in E2; lia|].
  apply Z.leb_gt in E2.
  destruct (negb (forallb b (pool items))); [discriminate|].
  assert (Hfb : len (high items
                       ++ firstn (Z.to_nat (max_count - len (high items)))
                            (pool items)) = max_count).
  { rewrite len_app. unfold len at 2. rewrite length_firstn.
    unfold len in *. lia. }
  destruct (service q) as [| | v]; try destruct v;
    injection Hrun as <-; try exact Hfb.
  rewrite len_app.
  rewrite fill_exact; try lia; try exact Hd.
  - intros e. apply picks_In.
  - apply picks_length. lia.
Qed.

(** C5: the code departs from the claim on the equality.  Three equal
    entries, [n = 2] and a reply that names one index: the fill step keeps
    only the pool entries that differ from every selected one, finds none,
    and one entry is returned where two were due.  On the same input the
    two [except] paths return two entries. *)
Theorem fill_step_skips_equal_entries :
  2 <= len repeated_entries
  /\ run (always (Parsed (JList [JInt 1])))
         (llm_rank_experiences repeated_entries 2)
     = Returned [entry "Initech"]
  /\ run (always (Parsed (JList [JInt 1])))
         (llm_rank_projects repeated_entries 2)
     = Returned [entry "Initech"]
  /\ run (always BadJson) (llm_rank_experiences repeated_entries 2)
     = Returned [entry "Initech"; entry "Initech"]
  /\ run (always (Parsed (JStr (lit "1"))))
         (llm_rank_experiences repeated_entries 2)
     = Returned [entry "Initech"; entry "Initech"]
  /\ run (always ServiceError) (llm_rank_experiences repeated_entries 2)
     = Returned [entry "Initech"; entry "Initech"].
Proof.
  split; [vm_compute; discriminate|].
  repeat split.
Qed.

(** ** The ranking step on a list reply *)

Lemma fold_pick_surviving (remaining : list dict) (l : list json)
    (acc : list dict) :
  existsb is_bool l = false ->
  fold_left (pick remaining) l acc = acc ++ surviving remaining l.
Proof.
  revert acc. induction l as [|idx l IH]; intros acc Hb.
  - simpl. now rewrite app_nil_r.
  - cbn [existsb] in Hb. apply orb_false_iff in Hb as [Hidx Hl].
    cbn [fold_left surviving flat_map]. rewrite IH by exact Hl.
    fold (surviving remaining l).
    destruct idx as [| b | i | f | s | l' | d]; try discriminate Hidx;
      unfold pick; cbn [isinstance_int]; try reflexivity.
    destruct ((1 <=? i) && (i <=? len remaining)); [|reflexivity].
    destruct (nth_error remaining (Z.to_nat (i - 1))); [|reflexivity].
    now rewrite <- app_assoc.
Qed.

Lemma fill_padding (remaining : list dict) (slots : Z) (sel : list dict) :
  0 <= slots ->
  fill remaining slots sel = sel ++ padding remaining sel (Z.to_nat slots).
Proof.
  intros Hs. unfold fill, padding.
  destruct (len sel <? slots) eqn:E.
  - apply Z.ltb_lt in E. rewrite slice_to_nonneg by lia.
    do 2 f_equal. unfold len. lia.
  - apply Z.ltb_ge in E.
    replace (Z.to_nat slots - length sel)%nat with 0%nat
      by (unfold len in E; lia).
    now rewrite app_nil_r.
Qed.

Lemma rank_on_list (b : dict -> bool) (q : request) (items : list dict)
    (max_count : Z) (service : request -> reply) (response : list json) :
  ranking_reached items max_count ->
  existsb is_bool (slice_to (max_count - len (high items)) response) = false ->
  service q = Parsed (JList response) ->
  forallb b (pool items) = true ->
  run service (rank b q items max_count)
  = Returned (high items
                ++ stated_ranking (pool items)
                     (slice_to (max_count - len (high items)) response)
                     (Z.to_nat (max_count - len (high items)))).
Proof.
  intros (Hover & Hroom & Hpool) Hnb Hq Hb.
  rewrite run_rank by exact Hover. rewrite Hb, Hq. simpl negb. cbv iota.
  destruct (max_count - len (high items) <=? 0) eqn:E1;
    [apply Z.leb_le in E1; lia|].
  destruct (len (pool items) <=? max_count - len (high items)) eqn:E2;
    [apply Z.leb_le in E2; lia|].
  rewrite fill_padding by lia.
  unfold picks. rewrite fold_pick_surviving by exact Hnb.
  reflexivity.
Qed.

(** C4: the code departs from the claim.  With two slots and the reply
    [[99, 3, 2]] the claim drops 99 and selects pool items 3 and 2; the code
    cuts the reply to [[99, 3]] before it validates, selects item 3 and
    fills with item 1.  [llm_filter_skills] validates the whole reply
    before it cuts: with a budget of 2 the reply [["Cobol", "Rust", "Go"]]
    gives Rust and Go.  With the reply [[true, 3]] the claim drops [true];
    the code reads it as index 1. *)
Theorem ranking_cuts_reply_before_validating :
  run (always (Parsed (JList [JInt 99; JInt 3; JInt 2])))
      (llm_rank_experiences three_entries 2)
  = Returned [entry "Hooli"; entry "Initech"]
  /\ run (always (Parsed (JList [JInt 99; JInt 3; JInt 2])))
         (llm_rank_projects three_entries 2)
     = Returned [entry "Hooli"; entry "Initech"]
  /\ high three_entries
       ++ stated_ranking (pool three_entries) [JInt 99; JInt 3; JInt 2] 2
     = [entry "Hooli"; entry "Globex"]
  /\ run (always (Parsed (JList [JStr (lit "Cobol"); JStr (lit "Rust");
                                 JStr (lit "Go")])))
         (llm_filter_skills sample_skills 2)
     = Returned [(lit "languages", JList [JStr (lit "Rust"); JStr (lit "Go")]);
                 (lit "technologies", JList [JStr (lit "Docker")])]
  /\ run (always (Parsed (JList [JBool true; JInt 3])))
         (llm_rank_experiences three_entries 2)
     = Returned [entry "Initech"; entry "Hooli"]
  /\ high three_entries
       ++ stated_ranking (pool three_entries) [JBool true; JInt 3] 2
     = [entry "Hooli"; entry "Initech"].
Proof. repeat split. Qed.

(** A float is not an [int]: the reply [[1.0, 2]] selects item 2 only, and
    the fill step adds item 1. *)
Example float_index_dropped :
  run (always (Parsed (JList [JFloat (FFinite 1 0); JInt 2])))
      (llm_rank_projects three_entries 2)
  = Returned [entry "Globex"; entry "Initech"].
Proof. reflexivity. Qed.

(** ** Dry run *)

Lemma dry_run_skills_get (skills : dict) (max_count : Z) (dry_run none : bool)
    (category : str) :
  dry_run || none = true ->
  In category categories ->
  exists out,
    main_skills dry_run none skills max_count = Ret out
    /\ dict_get category out
       = match dict_get category skills with
         | Some (JList skill_list) => Some (JList (slice_to max_count skill_list))
         | _ => None
         end.
Proof.
  intros Hdry Hin. unfold main_skills. rewrite Hdry.
  eexists. split; [reflexivity|].
  unfold categories in *. cbn [fold_left].
  assert (Hstep : forall c acc,
            dict_get category
              match dict_get c skills with
              | Some (JList skill_list) =>
                  dict_set c (JList (slice_to max_count skill_list)) acc
              | _ => acc
              end
            = if str_eqb c category
              then match dict_get category skills with
                   | Some (JList skill_list) =>
                       Some (JList (slice_to max_count skill_list))
                   | _ => dict_get category acc
                   end
              else dict_get category acc).
  { intros c acc. destruct (str_eqb c category) eqn:E.
    - apply str_eqb_eq in E. subst c.
      destruct (dict_get category skills) as [[]|]; try reflexivity.
      now rewrite dict_get_set, str_eqb_refl.
    - destruct (dict_get c skills) as [[]|]; try reflexivity.
      now rewrite dict_get_set, E. }
  rewrite !Hstep.
  destruct Hin as [<- | [<- | [<- | []]]]; cbn [str_eqb lit]; simpl;
    destruct (dict_get _ skills) as [[]|]; reflexivity.
Qed.

(** C10: in a dry run, or without a client, step 1 keeps the plain prefix
    [items[:max_count]] of the experiences, of the projects and of each of
    the skill categories languages, technologies and concepts that holds a
    list, whatever the priorities; it stores nothing for a category that
    holds no list.  For the five sample entries and [max_count = 3], the
    high-priority entry in fourth position is absent from the dry-run
    output, while the fallback of a real run keeps it. *)
Theorem dry_run_ignores_priority :
  (forall (dry_run client_is_none : bool) (items : list dict) (skills : dict)
          (max_count : Z),
     dry_run || client_is_none = true ->
     main_experiences dry_run client_is_none items max_count
     = Ret (slice_to max_count items)
     /\ main_projects dry_run client_is_none items max_count
        = Ret (slice_to max_count items)
     /\ exists out,
          main_skills dry_run client_is_none skills max_count = Ret out
          /\ forall category,
               In category [lit "languages"; lit "technologies";
                            lit "concepts"] ->
               dict_get category out
               = match dict_get category skills with
                 | Some (JList skill_list) =>
                     Some (JList (slice_to max_count skill_list))
                 | _ => None
                 end)
  /\ exists (items : list dict) (max_count : Z) (x : dict),
       max_count < len items
       /\ priority_is "high" x = true
       /\ In x (skipn (Z.to_nat max_count) items)
       /\ (exists sel, main_experiences true false items max_count = Ret sel
                       /\ ~ In x sel)
       /\ (exists sel, run (always ServiceError)
                           (main_experiences false false items max_count)
                       = Returned sel
                       /\ In x sel).
Proof.
  split.
  - intros dry_run none items skills max_count Hdry.
    unfold main_experiences, main_projects. rewrite Hdry.
    split; [reflexivity|]. split; [reflexivity|].
    assert (Hout : exists out,
               main_skills dry_run none skills max_count = Ret out)
      by (unfold main_skills; rewrite Hdry; eauto).
    destruct Hout as (out & Hout). exists out. split; [exact Hout|].
    intros category Hin.
    destruct (@dry_run_skills_get skills max_count dry_run none category Hdry)
      as (out' & Hout' & Hget).
    + destruct Hin as [<- | [<- | [<- | []]]]; cbn; tauto.
    + rewrite Hout in Hout'. injection Hout' as <-. exact Hget.
  - exists five_entries, 3, (entry_with "Umbrella" "high").
    split; [reflexivity|]. split; [reflexivity|].
    split; [simpl; tauto|]. split.
    + eexists. split; [reflexivity|].
      vm_compute. intros [H | [H | [H | []]]]; discriminate H.
    + eexists. split; [reflexivity|]. vm_compute. tauto.
Qed.

Lemma dry_run_ignores_priority_witness :
  true || false = true
  /\ main_experiences true false five_entries 3
     = Ret [entry_with "Initech" "medium"; entry_with "Globex" "high";
            entry "Hooli"]
  /\ main_projects true false five_entries 3
     = Ret [entry_with "Initech" "medium"; entry_with "Globex" "high";
            entry "Hooli"]
  /\ exists out,
       main_skills true false sample_skills 2 = Ret out
       /\ dict_get (lit "languages") out
          = Some (JList [JStr (lit "Python"); JStr (lit "Go")])
       /\ dict_get (lit "technologies") out
          = Some (JList [JStr (lit "Docker")])
       /\ dict_get (lit "concepts") out = None.
Proof.
  assert (H : true || false = true) by reflexivity.
  split; [exact H|].
  destruct dry_run_ignores_priority as [Hall _].
  destruct (Hall true false five_entries sample_skills 3 H) as (He & Hp & _).
  split; [exact He|]. split; [exact Hp|].
  destruct (Hall true false five_entries sample_skills 2 H)
    as (_ & _ & out & Hout & Hget).
  exists out. split; [exact Hout|].
  split; [|split].
  - apply (Hget (lit "languages")). cbn. tauto.
  - apply (Hget (lit "technologies")). cbn. tauto.
  - apply (Hget (lit "concepts")). cbn. tauto.
Defined.

(** ** Skills *)

(** The loop stores one value per category, or raises when a prompt cannot
    be built. *)
Lemma run_filter_categories (service : request -> reply) (skills : dict)
    (max_count : Z) (cats : list str) (acc : dict) :
  run service (filter_categories cats skills max_count acc)
  = if forallb (skill_prompt_builds skills max_count) cats
    then Returned (fold_left (store_category service skills max_count) cats acc)
    else Raised.
Proof.
  revert acc. induction cats as [|category rest IH]; intros acc; [reflexivity|].
  cbn [filter_categories forallb fold_left].
  unfold skill_prompt_builds at 1, store_category at 2, chosen_skills.
  destruct (dict_get category skills) as [v|]; [|apply IH].
  destruct v as [| | | | | skill_list |]; try apply IH.
  destruct (len skill_list <=? max_count) eqn:E; [apply IH|].
  cbn [joinable orb].
  destruct (forallb isinstance_str skill_list); [|reflexivity].
  cbn [negb run andb]. rewrite IH.
  destruct (service (FilterSkills category)) as [| | []]; reflexivity.
Qed.

Lemma dict_get_store (service : request -> reply) (skills : dict)
    (max_count : Z) (acc : dict) (c category : str) :
  dict_get category (store_category service skills max_count acc c)
  = if str_eqb c category
    then match dict_get category skills with
         | Some (JList skill_list) =>
             Some (JList (chosen_skills service max_count category skill_list))
         | _ => dict_get category acc
         end
    else dict_get category acc.
Proof.
  unfold store_category. destruct (str_eqb c category) eqn:E.
  - apply str_eqb_eq in E. subst c.
    destruct (dict_get category skills) as [[]|]; try reflexivity.
    now rewrite dict_get_set, str_eqb_refl.
  - destruct (dict_get c skills) as [[]|]; try reflexivity.
    now rewrite dict_get_set, E.
Qed.

Lemma dict_get_stored (service : request -> reply) (skills : dict)
    (max_count : Z) (cats : list str) (acc : dict) (category : str) :
  dict_get category (fold_left (store_category service skills max_count) cats acc)
  = if existsb (fun c => str_eqb c category) cats
    then match dict_get category skills with
         | Some (JList skill_list) =>
             Some (JList (chosen_skills service max_count category skill_list))
         | _ => dict_get category acc
         end
    else dict_get category acc.
Proof.
  revert acc. induction cats as [|c rest IH]; intros acc; [reflexivity|].
  cbn [fold_left existsb]. rewrite IH, dict_get_store.
  destruct (str_eqb c category), (existsb (fun c0 => str_eqb c0 category) rest);
    cbn [orb]; try reflexivity.
  destruct (dict_get category skills) as [[]|]; reflexivity.
Qed.


Lemma chosen_skills_length (service : request -> reply) (max_count : Z)
    (category : str) (skill_list : list json) :
  0 <= max_count ->
  len (chosen_skills service max_count category skill_list) <= max_count.
Proof.
  intros H0. unfold chosen_skills.
  destruct (len skill_list <=? max_count) eqn:E; [now apply Z.leb_le|].
  destruct (service (FilterSkills category)) as [| | v];
    try (rewrite len_slice_to by exact H0; lia).
  destruct v; rewrite len_slice_to by exact H0; lia.
Qed.




End Step1Facts.

(* ================================================================== *)
(** * Properties of the bullet optimizer *)
(* ================================================================== *)

Module Step2Facts.
Import Py Step2 Bullets.

Example split_keeps_empty_lines :
  split newline (lit "a" ++ [newline; newline] ++ lit "b" ++ [newline])
  = [lit "a"; []; lit "b"; []].
Proof. reflexivity. Qed.

(** [strip] removes blanks, tabs and no-break spaces at both ends only. *)
Example strip_both_ends :
  strip ([160; 9] ++ lit " a b " ++ [13; 10])%N = lit "a b".
Proof. reflexivity. Qed.

(** A line that holds a marker and nothing else yields no bullet. *)
Example bare_marker_skipped :
  parsed_bullets (lit "-  " ++ [newline] ++ lit "- kept") = [lit "kept"].
Proof. reflexivity. Qed.

(** The function calls the service once and either takes every parsed
    bullet or none. *)
Lemma run_optimize_bullet_points (bullets : list str)
    (job_description context : str) (concise : bool) (priority : option str)
    (service : request -> reply) :
  run service
      (optimize_bullet_points bullets job_description context concise priority)
  = Returned
      match service (request_for bullets job_description context concise priority) with
      | Content text =>
          if Nat.eqb (length (parsed_bullets text)) (length bullets)
          then parsed_bullets text
          else bullets
      | ServiceError => bullets
      end.
Proof.
  unfold optimize_bullet_points, request_for. cbn [run].
  destruct (service _) as [|text]; [reflexivity|].
  fold (parsed_bullets text).
  change (fold_left _ (split newline (strip text)) [])
    with (parsed_bullets text).
  now destruct (Nat.eqb (length (parsed_bullets text)) (length bullets)).
Qed.

(** C2: whatever text the service answers, and when the call raises,
    [optimize_bullet_points] returns a list of exactly [len(bullets)]
    strings.  When the number of parsed bullets differs from
    [len(bullets)], and when the call raises, the list returned is [bullets]
    itself; otherwise it is the whole parsed list. *)
Theorem bullet_count_preserved (bullets : list str)
    (job_description context : str) (concise : bool) (priority : option str)
    (service : request -> reply) :
  exists out : list str,
    run service
        (optimize_bullet_points bullets job_description context concise priority)
    = Returned out
    /\ length out = length bullets
    /\ match service (request_for bullets job_description context concise priority) with
       | Content text =>
           if Nat.eqb (length (parsed_bullets text)) (length bullets)
           then out = parsed_bullets text
           else out = bullets
       | ServiceError => out = bullets
       end.
Proof.
  rewrite run_optimize_bullet_points.
  eexists. split; [reflexivity|].
  destruct (service _) as [|text]; [now split|].
  destruct (Nat.eqb (length (parsed_bullets text)) (length bullets)) eqn:E.
  - apply Nat.eqb_eq in E. now split.
  - now split.
Qed.

(** Three bullets and a reply of two bullet lines: the originals come
    back. *)
Example two_lines_rejected :
  run (fun _ => Content two_lines)
      (optimize_bullet_points three_bullets (lit "job") (lit "context") false None)
  = Returned three_bullets.
Proof. reflexivity. Qed.

(** Three bullets and a reply of three bullet lines: the markers and the
    surrounding blanks are stripped, the chatter line is ignored. *)
Example three_lines_accepted :
  run (fun _ => Content three_lines)
      (optimize_bullet_points three_bullets (lit "job") (lit "context") true None)
  = Returned [lit "Built a payments service"; lit "Halved the build time";
              lit "Coached two interns"].
Proof. reflexivity. Qed.

End Step2Facts.

(* ================================================================== *)
(** * Properties of the cover-letter synthesizer *)
(* ================================================================== *)

Module Step4Facts.
Import Py Step4 Drafts PyFacts.

(** On a decoded object the validation loop only tests keys. *)
Lemma validate_dict (d : dict) :
  validate required_fields (JDict d)
  = if has_five_fields d then AllPresent else MissingField.
Proof.
  unfold has_five_fields, five_fields, required_fields.
  cbn [validate field_missing forallb].
  repeat match goal with
         | |- context [dict_has ?f d] => destruct (dict_has f d); cbn [negb andb]
         end; reflexivity.
Qed.

Lemma has_required_body (d : dict) :
  has_five_fields d = true ->
  exists body, dict_get (lit "body_paragraphs") d = Some body.
Proof.
  unfold has_five_fields, five_fields, required_fields. cbn [forallb].
  intros H. apply andb_true_iff in H as [_ H].
  apply andb_true_iff in H as [H _]. unfold dict_has in H.
  destruct (dict_get (lit "body_paragraphs") d) as [body|]; [|discriminate].
  now exists body.
Qed.

Lemma effective_company_nonempty (company_name : option str) :
  exists c n, effective_company company_name = c :: n.
Proof.
  destruct company_name as [[|c n]|]; cbn; eauto.
Qed.

Lemma exception_fallback_complete (company_name : option str) :
  complete_draft (exception_fallback (effective_company company_name)) = true.
Proof.
  destruct (effective_company_nonempty company_name) as (c & n & ->).
  reflexivity.
Qed.

Section Synthesizer.

Variable py_format : json -> str.

Lemma background_paragraph_nonempty (skills : json) (p : str) :
  background_paragraph skills = Some p -> exists c n, p = c :: n.
Proof.
  unfold background_paragraph.
  destruct skills as [| | | | | |sk]; try discriminate.
  destruct (dict_get (lit "technologies") sk) as [technologies|].
  - destruct (truthy technologies).
    + destruct (to_list technologies) as [l|]; [|discriminate].
      destruct (all_str (slice_to 3 l)) as [names|]; [|discriminate].
      intros H. injection H as <-. cbn. eauto.
    + intros H. injection H as <-. cbn. eauto.
  - intros H. injection H as <-. cbn. eauto.
Qed.

Lemma role_paragraph_nonempty (experiences : json) (p : str) :
  role_paragraph py_format experiences = Some p -> exists c n, p = c :: n.
Proof.
  unfold role_paragraph.
  destruct (truthy experiences).
  - destruct experiences as [| | | | | l |]; try discriminate.
    destruct l as [|[| | | | | | first] l]; try discriminate.
    intros H. injection H as <-. cbn. eauto.
  - intros H. injection H as <-. cbn. eauto.
Qed.

Lemma validation_fallback_complete (skills experiences : json)
    (company_name : option str) (draft : json) :
  validation_fallback py_format skills experiences
    (effective_company company_name) = Some draft ->
  complete_draft draft = true.
Proof.
  unfold validation_fallback.
  destruct (background_paragraph skills) as [background|] eqn:Eb;
    [|discriminate].
  destruct (role_paragraph py_format experiences) as [role|] eqn:Er;
    [|discriminate].
  apply background_paragraph_nonempty in Eb as (c1 & n1 & ->).
  apply role_paragraph_nonempty in Er as (c2 & n2 & ->).
  destruct (effective_company_nonempty company_name) as (c & n & ->).
  intros H. injection H as <-. reflexivity.
Qed.

Lemma on_invalid_complete (resume_data : dict) (company_name : option str) :
  complete_draft (on_invalid py_format resume_data company_name) = true.
Proof.
  unfold on_invalid.
  destruct (validation_fallback _ _ _ _) as [draft|] eqn:E.
  - eapply validation_fallback_complete. exact E.
  - apply exception_fallback_complete.
Qed.

(** The outcome of [generate_cover_letter_content], reply by reply. *)
Lemma run_generate (resume_data : dict) (company_name : option str)
    (service : unit -> reply) :
  summary_builds resume_data = true ->
  run service (generate_cover_letter_content py_format resume_data company_name)
  = Returned
      match service tt with
      | ServiceError => exception_fallback (effective_company company_name)
      | BadJson => on_invalid py_format resume_data company_name
      | Parsed (JDict d) =>
          if has_five_fields d then
            match dict_get (lit "body_paragraphs") d with
            | Some body =>
                JDict (if isinstance_list body then d
                       else dict_set (lit "body_paragraphs") (JList [body]) d)
            | None => exception_fallback (effective_company company_name)
            end
          else on_invalid py_format resume_data company_name
      | Parsed v =>
          match validate required_fields v with
          | MissingField => on_invalid py_format resume_data company_name
          | _ => exception_fallback (effective_company company_name)
          end
      end.
Proof.
  intros Hb. unfold generate_cover_letter_content. rewrite Hb.
  cbn [negb run]. fold (effective_company company_name).
  fold (on_invalid py_format resume_data company_name).
  destruct (service tt) as [| | v]; try reflexivity.
  destruct v as [| | | | | |d];
    try (destruct (validate required_fields _); reflexivity).
  rewrite validate_dict.
  destruct (has_five_fields d); [|reflexivity].
  destruct (dict_get (lit "body_paragraphs") d) as [body|]; [|reflexivity].
  destruct body; reflexivity.
Qed.

(** C8: when the reply lacks one of the five fields [intro],
    [body_paragraphs], [closing], [company_name] and [recipient_name], when
    it is not parseable JSON, and when the service call raises,
    [generate_cover_letter_content] returns a fallback draft in which all
    five fields are present and non-empty: the draft of the exception
    handler after a service exception, the draft built from the resume after
    a validation failure (the exception draft when that one cannot be
    built).  When all five fields are present the decoded object is
    returned, with a [body_paragraphs] that is not a list wrapped into a
    one-element list. *)
Theorem fallback_draft_complete (resume_data : dict) (company_name : option str)
    (service : unit -> reply) :
  summary_builds resume_data = true ->
  exists draft : json,
    run service (generate_cover_letter_content py_format resume_data company_name)
    = Returned draft
    /\ (accepted (service tt) = false ->
        complete_draft draft = true
        /\ (draft = exception_fallback (effective_company company_name)
            \/ draft = on_invalid py_format resume_data company_name))
    /\ (service tt = ServiceError ->
        draft = exception_fallback (effective_company company_name))
    /\ (service tt = BadJson
        \/ (exists d, service tt = Parsed (JDict d)
                      /\ has_five_fields d = false) ->
        draft = on_invalid py_format resume_data company_name)
    /\ (forall d, service tt = Parsed (JDict d) ->
                  has_five_fields d = true ->
        exists body,
          dict_get (lit "body_paragraphs") d = Some body
          /\ draft
             = JDict (if isinstance_list body then d
                      else dict_set (lit "body_paragraphs") (JList [body]) d)).
Proof.
  intros Hb. rewrite run_generate by exact Hb.
  eexists. split; [reflexivity|].
  pose proof (exception_fallback_complete company_name) as Hexc.
  pose proof (on_invalid_complete resume_data company_name) as Hinv.
  split; [|split; [|split]].
  - intros Hrej. destruct (service tt) as [| | v]; [tauto | tauto |].
    destruct v as [| | | | | |d];
      try (destruct (validate required_fields _); tauto).
    cbn [accepted] in Hrej. rewrite Hrej. tauto.
  - now intros ->.
  - intros [-> | (d & -> & ->)]; reflexivity.
  - intros d -> Hall. rewrite Hall.
    destruct (has_required_body d Hall) as (body & Hbody).
    exists body. now rewrite Hbody.
Qed.

End Synthesizer.

Lemma fallback_draft_complete_witness :
  summary_builds sample_resume = true
  /\ accepted (Parsed draft_without_closing) = false
  /\ run (fun _ => Parsed draft_without_closing)
         (generate_cover_letter_content format_str sample_resume None)
     = Returned (on_invalid format_str sample_resume None)
  /\ complete_draft (on_invalid format_str sample_resume None) = true.
Proof.
  assert (H : summary_builds sample_resume = true) by reflexivity.
  assert (Hrej : accepted (Parsed draft_without_closing) = false)
    by reflexivity.
  split; [exact H|]. split; [exact Hrej|].
  destruct (fallback_draft_complete format_str sample_resume None
              (fun _ => Parsed draft_without_closing) H)
    as (draft & Hrun & Hfb & _ & Hinv & _).
  assert (Hd : draft = on_invalid format_str sample_resume None).
  { apply Hinv. right.
    destruct draft_without_closing as [| | | | | |d] eqn:E;
      try discriminate E.
    exists d. split; [reflexivity|]. exact Hrej. }
  subst draft. split; [exact Hrun|]. now apply Hfb.
Defined.

(** The reply without [closing] yields the draft built from the resume: its
    body names the first technologies and the first role. *)
Example missing_closing_falls_back :
  exists d,
    run (fun _ => Parsed draft_without_closing)
        (generate_cover_letter_content format_str sample_resume None)
    = Returned (JDict d)
    /\ dict_get (lit "body_paragraphs") d
       = Some (JList
           [JStr (lit "With my background in Spark, Airflow, I am confident I would be a valuable addition to your team.");
            JStr (lit "In my recent role as Data Engineer, I have developed skills that directly align with your requirements.")])
    /\ dict_get (lit "company_name") d = Some (JStr (lit "the company")).
Proof. eexists. repeat split. Qed.

(** A reply with all five fields and a string body: the body is wrapped. *)
Example string_body_wrapped :
  exists d,
    run (fun _ => Parsed draft_with_string_body)
        (generate_cover_letter_content format_str sample_resume None)
    = Returned (JDict d)
    /\ dict_get (lit "body_paragraphs") d
       = Some (JList [JStr (lit "I build pipelines.")])
    /\ dict_get (lit "closing") d = Some (JStr (lit "Regards")).
Proof. eexists. repeat split. Qed.

End Step4Facts.

(* ================================================================== *)
(** * Properties of the orchestrator *)
(* ================================================================== *)

Module PipelineFacts.
Import Py Pipeline Stages.

Local Open Scope Z_scope.

Lemma sorted_last_some (files : list str) (best : str) :
  exists f,
    fold_left (fun best f =>
      match best with
      | None => Some f
      | Some b => if str_leb b f then Some f else Some b
      end) files (Some best) = Some f.
Proof.
  revert best. induction files as [|x files IH]; intros best; simpl.
  - now exists best.
  - destruct (str_leb best x); apply IH.
Qed.

Lemma sorted_last_none (files : list str) :
  sorted_last files = None -> files = [].
Proof.
  destruct files as [|x files]; [reflexivity|].
  unfold sorted_last. simpl.
  destruct (sorted_last_some files x) as (f & ->). discriminate.
Qed.

Section Orchestrator.

Variable world : Type.
Variable exists_job_description : arguments -> world -> bool.
Variable glob : arguments -> artifact -> world -> list str.
Variable subprocess_run : stage -> arguments -> input -> world -> Z * world.

(** Resolve the next test or call on both sides at once. *)
Ltac walk :=
  repeat (cbn -[Z.eqb];
          match goal with
          | |- context [(?rc =? 0)] => destruct (rc =? 0)
          | |- context [sorted_last ?l] => destruct (sorted_last l)
          | |- context [subprocess_run ?s ?a ?i ?w] =>
              destruct (subprocess_run s a i w) as [? ?]
          end).

(** The four blocks of [main] are the first-failure state machine run over
    [steps_to_run]. *)
Lemma main_run_stages (args : arguments) (w : world) :
  exists_job_description args w = true ->
  main exists_job_description glob subprocess_run args w
  = run_stages glob subprocess_run args (steps_to_run args) w [].
Proof.
  intros He. unfold main. rewrite He. cbn [negb].
  unfold main_body, run_stages, resolve_input, bind, ret, exit_with, run_step,
    existing_files.
  destruct args as [jd choice sd od fo ak dr me mp co gcl cn].
  destruct choice as [[] | | | | | |]; try destruct gcl; walk; reflexivity.
Qed.

Lemma resolve_input_none (args : arguments) (s : stage) (w : world) :
  resolve_input glob args s w = None -> artifact_missing glob args s w = true.
Proof.
  unfold resolve_input, artifact_missing.
  destruct (precondition s) as [a|]; [|discriminate].
  destruct (requested (producer a) (steps_to_run args)); [discriminate|].
  destruct (sorted_last (glob args a w)) eqn:E; [discriminate|].
  apply sorted_last_none in E. now rewrite E.
Qed.

Lemma run_stages_halted (args : arguments) (steps : list stage) :
  forall (w : world) (log : list event) code attempted w',
    forallb ev_ok log = true ->
    run_stages glob subprocess_run args steps w log = (code, attempted, w') ->
    exists new pending,
      attempted = log ++ new
      /\ steps = map ev_stage new ++ pending
      /\ halted glob args w' code attempted pending.
Proof.
  induction steps as [|s rest IH]; intros w log code attempted w' Hok Hrun.
  - injection Hrun as <- <- <-. exists [], [].
    rewrite app_nil_r. repeat split. now constructor.
  - cbn [run_stages] in Hrun.
    destruct (resolve_input glob args s w) as [inp|] eqn:Einp.
    + destruct (subprocess_run s args inp w) as [rc w1].
      destruct (rc =? 0) eqn:Erc.
      * apply IH in Hrun as (new & pending & -> & -> & Hh).
        -- eexists (_ :: new), pending.
           split; [now rewrite <- app_assoc|]. split; [reflexivity | exact Hh].
        -- rewrite forallb_app, Hok. cbn. unfold ev_ok. cbn. now rewrite Erc.
      * injection Hrun as <- <- <-. eexists [_], rest.
        repeat split. now constructor.
    + injection Hrun as <- <- <-. exists [], (s :: rest).
      rewrite app_nil_r. repeat split.
      constructor; [exact Hok | now apply resolve_input_none].
Qed.

(** C9: for every requested stage sequence, [main] is the first-failure
    state machine.  The stages attempted are a prefix of the requested
    sequence, and the invocation ends in one of three ways: every requested
    stage completed and the exit code is 0; the last stage attempted exited
    non-zero, nothing was attempted after it and the exit code is 1; or the
    precondition artifact of the next requested stage is missing, that stage
    and the later ones were not attempted and the exit code is 1. *)
Theorem first_failure_halts (args : arguments) (w : world) :
  exists_job_description args w = true ->
  main exists_job_description glob subprocess_run args w
  = run_stages glob subprocess_run args (steps_to_run args) w []
  /\ exists code attempted pending w',
       main exists_job_description glob subprocess_run args w
       = (code, attempted, w')
       /\ steps_to_run args = map ev_stage attempted ++ pending
       /\ halted glob args w' code attempted pending.
Proof.
  intros He. split; [now apply main_run_stages|].
  rewrite main_run_stages by exact He.
  destruct (run_stages glob subprocess_run args (steps_to_run args) w [])
    as [[code attempted] w'] eqn:Hrun.
  apply run_stages_halted in Hrun as (new & pending & -> & Hsteps & Hh);
    [|reflexivity].
  exists code, new, pending, w'. repeat split; assumption.
Qed.

End Orchestrator.

Lemma first_failure_halts_witness :
  (fun (_ : arguments) (_ : sample_world) => true)
    (sample_args Range_1_3) step2_fails = true
  /\ main (fun _ _ => true) sample_glob sample_run
          (sample_args Range_1_3) step2_fails
     = run_stages sample_glob sample_run (sample_args Range_1_3)
         [Stage1; Stage2; Stage3] step2_fails [].
Proof.
  assert (H : (fun (_ : arguments) (_ : sample_world) => true)
                (sample_args Range_1_3) step2_fails = true) by reflexivity.
  split; [exact H|].
  apply (first_failure_halts (fun _ _ => true) sample_glob sample_run
           (sample_args Range_1_3) step2_fails H).
Defined.

(** Stages 1 to 3 requested, stage 2 exits with code 2: exit code 1, and
    stage 3 is not attempted. *)
Example stage2_failure_stops :
  main (fun _ _ => true) sample_glob sample_run
       (sample_args Range_1_3) step2_fails
  = (1,
     [{| ev_stage := Stage1; ev_input := NoInput; ev_returncode := 0 |};
      {| ev_stage := Stage2; ev_input := ThisRun Step1Filtered;
         ev_returncode := 2 |}],
     step2_fails).
Proof. reflexivity. Qed.

(** Stages 3 and 4 requested with no optimized resume on disk: exit code 1,
    and nothing is attempted. *)
Example missing_artifact_stops :
  main (fun _ _ => true) sample_glob sample_run
       (sample_args Range_3_4) step2_fails
  = (1, [], step2_fails).
Proof. reflexivity. Qed.

End PipelineFacts.

(* ================================================================== *)
(** * Further properties of the relevance filter *)
(* ================================================================== *)

Module Step1More.
Import Py Step1 Selection SelectionMore PyFacts Step1Facts.

Local Open Scope Z_scope.

(** ** Where the selected items come from *)

Lemma high_subset (items : list dict) (x : dict) :
  In x (high items) -> In x items.
Proof. intros H. apply filter_In in H. tauto. Qed.

Lemma pool_subset (items : list dict) (x : dict) :
  In x (pool items) -> In x items.
Proof.
  unfold pool. intros H.
  apply in_app_or in H as [H | H]; [|apply in_app_or in H as [H | H]];
    apply filter_In in H; tauto.
Qed.

Lemma pool_not_high (items : list dict) (x : dict) :
  In x (pool items) -> priority_is "high" x = false.
Proof.
  unfold pool. intros H.
  apply in_app_or in H as [H | H]; [|apply in_app_or in H as [H | H]];
    apply filter_In in H as [_ H]; revert H;
    unfold priority_is, priority_unset, dict_has;
    destruct (dict_get (lit "priority") x) as [v|]; try discriminate;
    try reflexivity; intros H; apply py_eq_str in H; subst v; reflexivity.
Qed.

Lemma fill_subset (remaining : list dict) (slots : Z) (sel : list dict) :
  (forall x, In x sel -> In x remaining) ->
  forall x, In x (fill remaining slots sel) -> In x remaining.
Proof.
  intros Hsel x. unfold fill.
  destruct (len sel <? slots); [|apply Hsel].
  intros H. apply in_app_or in H as [H | H]; [now apply Hsel|].
  apply In_slice_to in H. apply filter_In in H. tauto.
Qed.

(** What the common shape appends to the high items once the input is over
    budget and the high items fit. *)
Lemma rank_high_then_pool (b : dict -> bool) (q : request) (items : list dict)
    (max_count : Z) (service : request -> reply) (sel : list dict) :
  max_count < len items -> len (high items) <= max_count ->
  run service (rank b q items max_count) = Returned sel ->
  exists extra,
    sel = high items ++ extra
    /\ len extra <= max_count - len (high items)
    /\ forall x, In x extra -> In x (pool items).
Proof.
  intros Hover Hfit Hrun. rewrite run_rank in Hrun by exact Hover.
  destruct (max_count - len (high items) <=? 0) eqn:E1.
  { apply Z.leb_le in E1. injection Hrun as <-. exists [].
    rewrite app_nil_r, slice_to_all by lia.
    split; [reflexivity|].
    split; [change (len (@nil dict)) with 0; lia | intros x []]. }
  apply Z.leb_gt in E1.
  destruct (len (pool items) <=? max_count - len (high items)) eqn:E2.
  { apply Z.leb_le in E2. injection Hrun as <-. exists (pool items).
    repeat split; [exact E2 | tauto]. }
  destruct (negb (forallb b (pool items))); [discriminate|].
  assert (Hfb : exists extra,
             high items ++ firstn (Z.to_nat (max_count - len (high items)))
                                  (pool items)
             = high items ++ extra
             /\ len extra <= max_count - len (high items)
             /\ forall x, In x extra -> In x (pool items)).
  { eexists. split; [reflexivity|]. split.
    - unfold len in *. rewrite length_firstn. lia.
    - intros x. apply In_firstn. }
  destruct (service q) as [| | v]; try destruct v; injection Hrun as <-;
    try exact Hfb.
  eexists. split; [reflexivity|]. split.
  - apply answer_length. lia.
  - apply fill_subset. intros x. apply picks_In.
Qed.

Lemma rank_members (b : dict -> bool) (q : request) (items : list dict)
    (max_count : Z) (service : request -> reply) (sel : list dict) :
  run service (rank b q items max_count) = Returned sel ->
  forall x, In x sel -> In x items.
Proof.
  intros Hrun x Hx.
  destruct (Z_le_gt_dec (len items) max_count) as [Hsmall | Hover].
  { rewrite rank_small in Hrun by exact Hsmall. now injection Hrun as <-. }
  destruct (Z_le_gt_dec (len (high items)) max_count) as [Hfit | Hmany].
  - assert (Hover' : max_count < len items) by lia.
    destruct (rank_high_then_pool b q items service Hover' Hfit Hrun)
      as (extra & -> & _ & Hextra).
    apply in_app_or in Hx as [Hx | Hx];
      [now apply high_subset | now apply pool_subset, Hextra].
  - rewrite run_rank in Hrun by lia.
    destruct (max_count - len (high items) <=? 0) eqn:E;
      [|apply Z.leb_gt in E; lia].
    injection Hrun as <-. apply In_slice_to in Hx. now apply high_subset.
Qed.

(** X1: every item either ranking function returns is an item of its input,
    whatever the service replies. *)
Theorem selection_from_input (items : list dict) (max_count : Z)
    (service : request -> reply) (sel : list dict) :
  run service (llm_rank_experiences items max_count) = Returned sel
  \/ run service (llm_rank_projects items max_count) = Returned sel ->
  forall x, In x sel -> In x items.
Proof.
  rewrite llm_rank_experiences_shape, llm_rank_projects_shape.
  intros [H | H]; eapply rank_members; exact H.
Qed.

Lemma selection_from_input_witness :
  (run (always (Parsed (JList [JInt 3; JInt 3; JInt 3])))
       (llm_rank_experiences five_entries 3)
   = Returned [entry_with "Globex" "high"; entry_with "Umbrella" "high";
               entry "Hooli"]
   \/ run (always (Parsed (JList [JInt 3; JInt 3; JInt 3])))
          (llm_rank_projects five_entries 3)
      = Returned [entry_with "Globex" "high"; entry_with "Umbrella" "high";
                  entry "Hooli"])
  /\ In (entry "Hooli") five_entries.
Proof.
  assert (H : run (always (Parsed (JList [JInt 3; JInt 3; JInt 3])))
                  (llm_rank_experiences five_entries 3)
              = Returned [entry_with "Globex" "high";
                          entry_with "Umbrella" "high"; entry "Hooli"])
    by reflexivity.
  split; [left; exact H|].
  apply (selection_from_input five_entries 3
           (always (Parsed (JList [JInt 3; JInt 3; JInt 3]))) (or_introl H)).
  simpl. tauto.
Defined.

(** X2: when the input is over budget and the high items fit, the selection
    is the high items in input order followed by at most [remaining_slots]
    items of the pool, none of which is high. *)
Theorem high_items_lead (items : list dict) (max_count : Z)
    (service : request -> reply) (sel : list dict) :
  max_count < len items -> len (high items) <= max_count ->
  run service (llm_rank_experiences items max_count) = Returned sel
  \/ run service (llm_rank_projects items max_count) = Returned sel ->
  exists extra,
    sel = filter (priority_is "high") items ++ extra
    /\ len extra <= max_count - len (high items)
    /\ forall x, In x extra -> In x items /\ priority_is "high" x = false.
Proof.
  rewrite llm_rank_experiences_shape, llm_rank_projects_shape.
  intros Hover Hfit [H | H];
    destruct (rank_high_then_pool _ _ items service Hover Hfit H)
      as (extra & -> & Hlen & Hextra);
    exists extra; (split; [reflexivity|]); (split; [exact Hlen|]);
    intros x Hx; apply Hextra in Hx;
    (split; [now apply pool_subset | now apply pool_not_high with items]).
Qed.

Lemma high_items_lead_witness :
  3 < len five_entries /\ len (high five_entries) <= 3
  /\ exists extra,
       [entry_with "Globex" "high"; entry_with "Umbrella" "high";
        entry_with "Acme" "medium"]
       = filter (priority_is "high") five_entries ++ extra
       /\ len extra <= 3 - len (high five_entries).
Proof.
  assert (H1 : 3 < len five_entries) by reflexivity.
  assert (H2 : len (high five_entries) <= 3) by (vm_compute; discriminate).
  split; [exact H1|]. split; [exact H2|].
  destruct (high_items_lead five_entries (always (Parsed (JList [JInt 2])))
              (sel := [entry_with "Globex" "high"; entry_with "Umbrella" "high";
                       entry_with "Acme" "medium"]) H1 H2
              (or_introl eq_refl)) as (extra & Heq & Hlen & _).
  exists extra. split; [exact Heq | exact Hlen].
Defined.

(** ** How often the service is asked *)

Lemma requests_rank (b : dict -> bool) (q : request) (items : list dict)
    (max_count : Z) (service : request -> reply) :
  requests service (rank b q items max_count)
  = if (len items <=? max_count)
       || (max_count - len (high items) <=? 0)
       || (len (pool items) <=? max_count - len (high items))
       || negb (forallb b (pool items))
    then [] else [q].
Proof.
  unfold rank.
  destruct (len items <=? max_count); [reflexivity|].
  destruct (max_count - len (high items) <=? 0) eqn:E1; [reflexivity|].
  apply Z.leb_gt in E1.
  destruct (Nat.eqb (length (pool items)) 0) eqn:E2.
  { apply Nat.eqb_eq in E2.
    destruct (len (pool items) <=? max_count - len (high items)) eqn:E3;
      [reflexivity|].
    apply Z.leb_gt in E3. unfold len in *. lia. }
  destruct (len (pool items) <=? max_count - len (high items)); [reflexivity|].
  destruct (negb (forallb b (pool items))); [reflexivity|].
  cbn. destruct (service q) as [| | []]; reflexivity.
Qed.

(** X3: a ranking function asks the service at most once: not at all when
    the input fits the budget, when the high items fill it, or when the
    pool fits into the room they leave, and exactly once when the ranking
    step is reached and the prompt can be built. *)
Theorem service_asked_at_most_once (items : list dict) (max_count : Z)
    (service : request -> reply) :
  (len items <= max_count \/ max_count <= len (high items)
   \/ len (pool items) <= max_count - len (high items) ->
   requests service (llm_rank_experiences items max_count) = []
   /\ requests service (llm_rank_projects items max_count) = [])
  /\ (ranking_reached items max_count ->
      (forallb experience_summary_builds (pool items) = true ->
       requests service (llm_rank_experiences items max_count)
       = [RankExperiences])
      /\ (forallb project_summary_builds (pool items) = true ->
          requests service (llm_rank_projects items max_count)
          = [RankProjects])).
Proof.
  rewrite llm_rank_experiences_shape, llm_rank_projects_shape.
  rewrite !requests_rank. split.
  - intros H.
    assert (E : (len items <=? max_count)
                || (max_count - len (high items) <=? 0)
                || (len (pool items) <=? max_count - len (high items)) = true).
    { destruct H as [H | [H | H]].
      - apply Z.leb_le in H. now rewrite H.
      - assert (H' : max_count - len (high items) <= 0) by lia.
        apply Z.leb_le in H'. rewrite H'. now rewrite orb_true_r.
      - apply Z.leb_le in H. rewrite H. now rewrite orb_true_r. }
    rewrite E. now split.
  - intros (Hover & Hroom & Hpool).
    assert (E : (len items <=? max_count)
                || (max_count - len (high items) <=? 0)
                || (len (pool items) <=? max_count - len (high items)) = false).
    { repeat (apply orb_false_iff; split); apply Z.leb_gt; lia. }
    rewrite E. split; intros ->; reflexivity.
Qed.

Lemma service_asked_at_most_once_witness :
  (len three_entries <= 10
   /\ requests (always BadJson) (llm_rank_experiences three_entries 10) = [])
  /\ (ranking_reached five_entries 3
      /\ requests (always BadJson) (llm_rank_projects five_entries 3)
         = [RankProjects]).
Proof.
  assert (H1 : len three_entries <= 10) by (vm_compute; discriminate).
  assert (H2 : ranking_reached five_entries 3) by (repeat split).
  split.
  - split; [exact H1|].
    apply (service_asked_at_most_once three_entries 10 (always BadJson)).
    now left.
  - split; [exact H2|].
    apply (service_asked_at_most_once five_entries 3 (always BadJson));
      [exact H2 | reflexivity].
Defined.

(** ** A complete reply is followed *)

Lemma surviving_named (remaining : list dict) (indices : list Z) :
  Forall (names_item remaining) indices ->
  exists chosen,
    surviving remaining (map JInt indices) = chosen
    /\ Forall2 (fun i x => nth_error remaining (Z.to_nat (i - 1)) = Some x)
               indices chosen.
Proof.
  induction 1 as [|i indices Hi _ (chosen & Heq & Hall)].
  - exists []. split; [reflexivity | constructor].
  - unfold names_item in Hi.
    destruct (nth_error remaining (Z.to_nat (i - 1))) as [x|] eqn:E.
    + exists (x :: chosen). split; [|now constructor].
      cbn [map surviving flat_map].
      assert (Hr : (1 <=? i) && (i <=? len remaining) = true).
      { apply andb_true_iff. split; apply Z.leb_le; lia. }
      rewrite Hr, E. cbn [app]. f_equal. exact Heq.
    + apply nth_error_None in E. unfold len in Hi. lia.
Qed.

Lemma rank_follows_reply (b : dict -> bool) (q : request) (items : list dict)
    (max_count : Z) (service : request -> reply) (response : list json)
    (indices : list Z) :
  ranking_reached items max_count ->
  service q = Parsed (JList response) ->
  forallb b (pool items) = true ->
  slice_to (max_count - len (high items)) response = map JInt indices ->
  len indices = max_count - len (high items) ->
  Forall (names_item (pool items)) indices ->
  exists chosen,
    run service (rank b q items max_count) = Returned (high items ++ chosen)
    /\ Forall2 (fun i x => nth_error (pool items) (Z.to_nat (i - 1)) = Some x)
               indices chosen.
Proof.
  intros Hreach Hq Hb Hslice Hlen Hvalid.
  destruct (surviving_named Hvalid) as (chosen & Hsur & Hall).
  exists chosen. split; [|exact Hall].
  assert (Hnb : existsb is_bool
                  (slice_to (max_count - len (high items)) response) = false).
  { rewrite Hslice. clear. induction indices; [reflexivity | exact IHindices]. }
  rewrite rank_on_list with (response := response) by assumption.
  unfold stated_ranking, padding. rewrite Hslice, Hsur.
  apply Forall2_length in Hall.
  replace (Z.to_nat (max_count - len (high items)) - length chosen)%nat
    with 0%nat by (unfold len in *; lia).
  cbn [firstn]. now rewrite app_nil_r.
Qed.

(** X4: when the first [remaining_slots] elements of the reply are integers
    that each name a pool item, the selection is the high items followed by
    the named pool items, in the order of the reply; nothing is added and
    nothing is reordered. *)
Theorem complete_reply_followed (items : list dict) (max_count : Z)
    (service : request -> reply) (response : list json) (indices : list Z) :
  ranking_reached items max_count ->
  slice_to (max_count - len (high items)) response = map JInt indices ->
  len indices = max_count - len (high items) ->
  Forall (names_item (pool items)) indices ->
  (service RankExperiences = Parsed (JList response) ->
   forallb experience_summary_builds (pool items) = true ->
   exists chosen,
     run service (llm_rank_experiences items max_count)
     = Returned (high items ++ chosen)
     /\ Forall2 (fun i x => nth_error (pool items) (Z.to_nat (i - 1)) = Some x)
                indices chosen)
  /\ (service RankProjects = Parsed (JList response) ->
      forallb project_summary_builds (pool items) = true ->
      exists chosen,
        run service (llm_rank_projects items max_count)
        = Returned (high items ++ chosen)
        /\ Forall2 (fun i x => nth_error (pool items) (Z.to_nat (i - 1)) = Some x)
                   indices chosen).
Proof.
  intros Hreach Hslice Hlen Hvalid.
  rewrite llm_rank_experiences_shape, llm_rank_projects_shape.
  split; intros Hq Hb; eapply rank_follows_reply; eauto.
Qed.

Lemma complete_reply_followed_witness :
  ranking_reached three_entries 2
  /\ slice_to (2 - len (high three_entries)) [JInt 3; JInt 1; JInt 2]
     = map JInt [3; 1]
  /\ len [3; 1] = 2 - len (high three_entries)
  /\ Forall (names_item (pool three_entries)) [3; 1]
  /\ exists chosen,
       run (always (Parsed (JList [JInt 3; JInt 1; JInt 2])))
           (llm_rank_experiences three_entries 2)
       = Returned (high three_entries ++ chosen).
Proof.
  assert (H1 : ranking_reached three_entries 2) by (repeat split).
  assert (H2 : slice_to (2 - len (high three_entries))
                 [JInt 3; JInt 1; JInt 2] = map JInt [3; 1]) by reflexivity.
  assert (H3 : len [3; 1] = 2 - len (high three_entries)) by reflexivity.
  assert (H4 : Forall (names_item (pool three_entries)) [3; 1]).
  { repeat constructor; vm_compute; discriminate. }
  repeat (split; [assumption|]).
  destruct (complete_reply_followed
              (always (Parsed (JList [JInt 3; JInt 1; JInt 2])))
              [JInt 3; JInt 1; JInt 2] H1 H2 H3 H4) as [He _].
  destruct (He eq_refl eq_refl) as (chosen & Hrun & _).
  now exists chosen.
Defined.

(** ** Selecting twice *)

Lemma rank_again (b b' : dict -> bool) (q q' : request) (items : list dict)
    (max_count : Z) (service service' : request -> reply) (sel : list dict) :
  0 <= max_count ->
  run service (rank b q items max_count) = Returned sel ->
  rank b' q' sel max_count = Ret sel.
Proof.
  intros H0 Hrun. apply rank_small.
  eapply rank_length_le; eauto.
Qed.

(** X5: for a budget [0 <= max_count], a selection that a ranking function
    returned passes through the same function unchanged and without a
    request: selecting is idempotent. *)
Theorem selection_idempotent (items : list dict) (max_count : Z)
    (service : request -> reply) (sel : list dict) :
  0 <= max_count ->
  (run service (llm_rank_experiences items max_count) = Returned sel ->
   llm_rank_experiences sel max_count = Ret sel)
  /\ (run service (llm_rank_projects items max_count) = Returned sel ->
      llm_rank_projects sel max_count = Ret sel).
Proof.
  intros H0.
  rewrite !llm_rank_experiences_shape, !llm_rank_projects_shape.
  split; intros Hrun; eapply rank_again; eauto.
Qed.

Lemma selection_idempotent_witness :
  0 <= 3
  /\ llm_rank_experiences
       [entry_with "Globex" "high"; entry_with "Umbrella" "high";
        entry_with "Initech" "medium"] 3
     = Ret [entry_with "Globex" "high"; entry_with "Umbrella" "high";
            entry_with "Initech" "medium"].
Proof.
  assert (H0 : 0 <= 3) by lia.
  split; [exact H0|].
  destruct (selection_idempotent five_entries (always ServiceError)
              [entry_with "Globex" "high"; entry_with "Umbrella" "high";
               entry_with "Initech" "medium"] H0) as [He _].
  apply He. reflexivity.
Defined.

(** ** Skills: requests, fallback and filtering twice *)

Lemma requests_filter_categories (service : request -> reply) (skills : dict)
    (max_count : Z) (cats : list str) (acc : dict) :
  forallb (skill_prompt_builds skills max_count) cats = true ->
  requests service (filter_categories cats skills max_count acc)
  = map FilterSkills (filter (over_budget skills max_count) cats).
Proof.
  revert acc. induction cats as [|category rest IH]; intros acc Hb;
    [reflexivity|].
  cbn [forallb] in Hb. apply andb_true_iff in Hb as [Hc Hrest].
  cbn [filter_categories filter].
  unfold skill_prompt_builds in Hc. unfold over_budget at 1.
  destruct (dict_get category skills) as [v|]; [|now apply IH].
  destruct v as [| | | | | skill_list |]; try now apply IH.
  destruct (len skill_list <=? max_count); [now apply IH|].
  cbn [orb] in Hc. cbn [joinable]. rewrite Hc.
  cbn [negb requests map]. f_equal. now apply IH.
Qed.

(** X6: when the prompts can be built, [llm_filter_skills] asks the service
    once for each category whose list exceeds the budget, in the order
    languages, technologies, concepts, and for no other category. *)
Theorem skills_asked_when_over_budget (skills : dict) (max_per_category : Z)
    (service : request -> reply) :
  forallb (skill_prompt_builds skills max_per_category) categories = true ->
  requests service (llm_filter_skills skills max_per_category)
  = map FilterSkills (filter (over_budget skills max_per_category) categories).
Proof. apply requests_filter_categories. Qed.

Lemma skills_asked_when_over_budget_witness :
  forallb (skill_prompt_builds wide_skills 1) categories = true
  /\ requests (always BadJson) (llm_filter_skills wide_skills 1)
     = [FilterSkills (lit "languages"); FilterSkills (lit "concepts")].
Proof.
  assert (H : forallb (skill_prompt_builds wide_skills 1) categories = true)
    by reflexivity.
  split; [exact H|].
  apply (skills_asked_when_over_budget wide_skills 1 (always BadJson) H).
Defined.

Lemma filter_none {A : Type} (f : A -> bool) (l : list A) :
  (forall x, In x l -> f x = false) -> filter f l = [].
Proof.
  induction l as [|x l IH]; intros H; [reflexivity|].
  cbn [filter]. rewrite (H x (or_introl eq_refl)).
  apply IH. intros y Hy. apply H. now right.
Qed.

Lemma fold_left_ext_in {A B : Type} (f g : A -> B -> A) (l : list B) (a : A) :
  (forall acc x, In x l -> f acc x = g acc x) ->
  fold_left f l a = fold_left g l a.
Proof.
  revert a. induction l as [|x l IH]; intros a H; [reflexivity|].
  cbn [fold_left]. rewrite (H a x (or_introl eq_refl)).
  apply IH. intros acc y Hy. apply H. now right.
Qed.

(** What the dry run stores for one category. *)
Lemma store_category_fallback (service : request -> reply) (skills : dict)
    (max_count : Z) (acc : dict) (category : str) :
  ranking_unavailable (service (FilterSkills category)) = true ->
  store_category service skills max_count acc category
  = match dict_get category skills with
    | Some (JList skill_list) =>
        dict_set category (JList (slice_to max_count skill_list)) acc
    | _ => acc
    end.
Proof.
  intros Hbad. unfold store_category, chosen_skills.
  destruct (dict_get category skills) as [v|]; [|reflexivity].
  destruct v as [| | | | | skill_list |]; try reflexivity.
  destruct (len skill_list <=? max_count) eqn:E.
  - apply Z.leb_le in E. now rewrite slice_to_all.
  - destruct (service (FilterSkills category)) as [| | v]; try reflexivity.
    destruct v; try reflexivity. discriminate Hbad.
Qed.

(** X7: when every reply is unusable (the call raises, the text is not
    JSON, or it is not a list), [llm_filter_skills] returns exactly what the
    dry run of [main] stores, the prefix of each category, provided every
    list of languages, technologies or concepts that exceeds the budget
    holds strings only; when such a list holds anything else, building its
    prompt raises and nothing is returned. *)
Theorem skills_fallback_is_dry_run (skills : dict) (max_per_category : Z)
    (service : request -> reply) (client_is_none : bool) :
  (forall category,
     ranking_unavailable (service (FilterSkills category)) = true) ->
  exists out,
    main_skills true client_is_none skills max_per_category = Ret out
    /\ run service (llm_filter_skills skills max_per_category)
       = if forallb (skill_prompt_builds skills max_per_category)
               [lit "languages"; lit "technologies"; lit "concepts"]
         then Returned out
         else Raised.
Proof.
  intros Hbad. eexists. split; [reflexivity|].
  unfold llm_filter_skills. rewrite run_filter_categories.
  change categories
    with [lit "languages"; lit "technologies"; lit "concepts"].
  destruct (forallb _ _); [|reflexivity].
  f_equal. apply fold_left_ext_in. intros acc category _.
  now apply store_category_fallback.
Qed.

Lemma skills_fallback_is_dry_run_witness :
  (forall category,
     ranking_unavailable (always BadJson (FilterSkills category)) = true)
  /\ main_skills true false wide_skills 1
     = Ret [(lit "languages", JList [JStr (lit "Python")]);
            (lit "concepts", JList [JStr (lit "CI")])]
  /\ run (always BadJson) (llm_filter_skills wide_skills 1)
     = Returned [(lit "languages", JList [JStr (lit "Python")]);
                 (lit "concepts", JList [JStr (lit "CI")])].
Proof.
  assert (H1 : forall category,
             ranking_unavailable (always BadJson (FilterSkills category)) = true)
    by reflexivity.
  split; [exact H1|].
  destruct (skills_fallback_is_dry_run wide_skills 1 (always BadJson) false H1)
    as (out & Hdry & Hrun).
  assert (Hout : out = [(lit "languages", JList [JStr (lit "Python")]);
                        (lit "concepts", JList [JStr (lit "CI")])])
    by (cbv in Hdry; now injection Hdry as <-).
  subst out. split; [exact Hdry | exact Hrun].
Defined.

Lemma store_category_eq (service : request -> reply) (skills : dict)
    (max_count : Z) (acc : dict) (category : str) :
  store_category service skills max_count acc category
  = match dict_get category skills with
    | Some (JList skill_list) =>
        dict_set category
          (JList (chosen_skills service max_count category skill_list)) acc
    | _ => acc
    end.
Proof. reflexivity. Qed.

Lemma store_category_again (service service' : request -> reply)
    (skills : dict) (max_count : Z) (cats : list str) (acc : dict)
    (category : str) :
  0 <= max_count ->
  In category cats ->
  store_category service'
    (fold_left (store_category service skills max_count) cats []) max_count
    acc category
  = store_category service skills max_count acc category.
Proof.
  intros H0 Hin. rewrite store_category_eq, dict_get_stored.
  assert (Hmem : existsb (fun c => str_eqb c category) cats = true).
  { apply existsb_exists. exists category. split; [exact Hin|].
    apply str_eqb_refl. }
  rewrite Hmem, store_category_eq.
  destruct (dict_get category skills) as [v|]; [|reflexivity].
  destruct v as [| | | | | skill_list |]; try reflexivity.
  do 2 f_equal. unfold chosen_skills at 1.
  pose proof (chosen_skills_length service category skill_list H0) as Hle.
  apply Z.leb_le in Hle. now rewrite Hle.
Qed.

Lemma stored_prompt_builds (service : request -> reply) (skills : dict)
    (max_count : Z) (cats : list str) (category : str) :
  0 <= max_count ->
  skill_prompt_builds
    (fold_left (store_category service skills max_count) cats []) max_count
    category = true.
Proof.
  intros H0. unfold skill_prompt_builds. rewrite dict_get_stored.
  destruct (existsb (fun c => str_eqb c category) cats); [|reflexivity].
  destruct (dict_get category skills) as [v|]; [|reflexivity].
  destruct v as [| | | | | skill_list |]; try reflexivity.
  pose proof (chosen_skills_length service category skill_list H0) as Hle.
  apply Z.leb_le in Hle. now rewrite Hle.
Qed.

(** X8: for a budget [0 <= max_per_category], a skills dict that
    [llm_filter_skills] returned passes through the function unchanged and
    without a request. *)
Theorem skills_filter_idempotent (skills : dict) (max_per_category : Z)
    (service service' : request -> reply) (out : dict) :
  0 <= max_per_category ->
  run service (llm_filter_skills skills max_per_category) = Returned out ->
  run service' (llm_filter_skills out max_per_category) = Returned out
  /\ requests service' (llm_filter_skills out max_per_category) = [].
Proof.
  intros H0 Hrun. unfold llm_filter_skills in *.
  rewrite run_filter_categories in Hrun.
  destruct (forallb (skill_prompt_builds skills max_per_category) categories);
    [|discriminate].
  assert (Hout : out = fold_left (store_category service skills max_per_category)
                         categories []) by congruence.
  clear Hrun. subst out.
  set (out := fold_left (store_category service skills max_per_category)
                categories []).
  assert (Hb : forallb (skill_prompt_builds out max_per_category) categories
               = true).
  { apply forallb_forall. intros category _. now apply stored_prompt_builds. }
  split.
  - rewrite run_filter_categories, Hb. f_equal.
    apply fold_left_ext_in. intros acc category Hin.
    now apply store_category_again.
  - rewrite requests_filter_categories by exact Hb.
    rewrite filter_none; [reflexivity|].
    intros category _. unfold over_budget, out. rewrite dict_get_stored.
    destruct (existsb (fun c => str_eqb c category) categories); [|reflexivity].
    destruct (dict_get category skills) as [v|]; [|reflexivity].
    destruct v as [| | | | | skill_list |]; try reflexivity.
    pose proof (chosen_skills_length service category skill_list H0) as Hle.
    apply Z.leb_le in Hle. now rewrite Hle.
Qed.

Lemma skills_filter_idempotent_witness :
  0 <= 1
  /\ run (always BadJson)
         (llm_filter_skills
            [(lit "languages", JList [JStr (lit "Go")]);
             (lit "concepts", JList [JStr (lit "CI")])] 1)
     = Returned [(lit "languages", JList [JStr (lit "Go")]);
                 (lit "concepts", JList [JStr (lit "CI")])].
Proof.
  assert (H0 : 0 <= 1) by lia.
  split; [exact H0|].
  apply (skills_filter_idempotent wide_skills
           (always (Parsed (JList [JStr (lit "Go"); JStr (lit "CI")])))
           (always BadJson) H0).
  reflexivity.
Defined.

End Step1More.

(* ================================================================== *)
(** * Properties of sequenced calls *)
(* ================================================================== *)

Module EffectsFacts.
Import Py Effects.

Lemma run_numbered_bind {Q R A B : Type} (service : nat -> Q -> R)
    (p : prog Q R A) (f : A -> prog Q R B) (n : nat) :
  run_numbered service n (bind p f)
  = match run_numbered service n p with
    | (Returned a, m) => run_numbered service m (f a)
    | (Raised, m) => (Raised, m)
    end.
Proof.
  revert n. induction p as [a | | q k IH]; intros n; cbn; [reflexivity ..|].
  apply IH.
Qed.

End EffectsFacts.

(* ================================================================== *)
(** * The bullets the optimizer accepts *)
(* ================================================================== *)

Module BulletFacts.
Import Py Step2 Bullets BulletShape.

Lemma lstrip_suffix (s : str) : exists w, s = w ++ lstrip s.
Proof.
  induction s as [|c s (w & IH)]; [now exists []|].
  cbn. destruct (is_space c); [|now exists []].
  exists (c :: w). cbn. now f_equal.
Qed.

Lemma lstrip_head (s : str) (c : codepoint) (t : str) :
  lstrip s = c :: t -> is_space c = false.
Proof.
  induction s as [|d s IH]; [discriminate|].
  cbn. destruct (is_space d) eqn:E; [exact IH|].
  intros H. now injection H as <- <-.
Qed.

Lemma rstrip_prefix (s : str) : exists w, s = rstrip s ++ w.
Proof.
  unfold rstrip. destruct (lstrip_suffix (rev s)) as (w & Hw).
  exists (rev w). rewrite <- rev_app_distr, <- Hw. now rewrite rev_involutive.
Qed.

Lemma rstrip_last (s : str) (d : codepoint) :
  rstrip s <> [] -> is_space (last (rstrip s) d) = false.
Proof.
  unfold rstrip. destruct (lstrip (rev s)) as [|c t] eqn:E; [now intros []|].
  intros _. cbn [rev]. rewrite last_last. now apply lstrip_head in E.
Qed.

Lemma strip_head (s : str) (c : codepoint) (t : str) :
  strip s = c :: t -> is_space c = false.
Proof.
  unfold strip. intros H.
  destruct (rstrip_prefix (lstrip s)) as (w & Hw).
  rewrite H in Hw. cbn in Hw. now apply lstrip_head in Hw.
Qed.

(** Stripping keeps a contiguous part of the text. *)
Lemma strip_part (s : str) (c : codepoint) : In c (strip s) -> In c s.
Proof.
  unfold strip. intros H.
  destruct (rstrip_prefix (lstrip s)) as (w & Hw).
  destruct (lstrip_suffix s) as (v & Hv).
  rewrite Hv, Hw. apply in_or_app. right. apply in_or_app. now left.
Qed.

Lemma split_no_separator (sep : codepoint) (s line : str) :
  In line (split sep s) -> ~ In sep line.
Proof.
  revert line. induction s as [|c s IH]; intros line; cbn.
  - intros [<- | []]. intros [].
  - destruct (N.eqb c sep) eqn:E.
    + intros [<- | H]; [intros [] | now apply IH].
    + destruct (split sep s) as [|w ws]; cbn.
      * intros [<- | []]. intros [-> | []]. now rewrite N.eqb_refl in E.
      * intros [<- | H].
        -- intros [-> | H']; [now rewrite N.eqb_refl in E|].
           now apply (IH w (or_introl eq_refl)).
        -- apply IH. now right.
Qed.

Lemma strip_tidy (s : str) :
  ~ In newline s -> strip s <> [] -> tidy (strip s) = true.
Proof.
  intros Hnl Hne. unfold tidy.
  destruct (strip s) as [|c t] eqn:E; [now destruct Hne|].
  rewrite (strip_head s E).
  assert (Hlast : is_space (last (c :: t) c) = false).
  { rewrite <- E. unfold strip. apply rstrip_last.
    unfold strip in E. rewrite E. discriminate. }
  rewrite Hlast. cbn [negb andb].
  destruct (existsb (N.eqb newline) (c :: t)) eqn:Ex; [|reflexivity].
  apply existsb_exists in Ex as (x & Hx & Heq). apply N.eqb_eq in Heq.
  subst x. rewrite <- E in Hx. apply strip_part in Hx. contradiction.
Qed.

Lemma keep_line_tidy (acc : list str) (line : str) :
  ~ In newline line -> forallb tidy acc = true ->
  forallb tidy (keep_line acc line) = true.
Proof.
  intros Hnl Hacc. unfold keep_line.
  destruct (negb (Nat.eqb (length (strip line)) 0)
            && (startswith bullet_dot (strip line)
                || startswith hyphen (strip line)
                || startswith asterisk (strip line))); [|exact Hacc].
  destruct (Nat.eqb (length (strip (slice_from 1 (strip line)))) 0) eqn:E;
    [exact Hacc|].
  cbn [negb]. rewrite forallb_app, Hacc. cbn [forallb andb].
  rewrite andb_true_r. apply strip_tidy.
  - intros H. apply Hnl. apply strip_part.
    unfold slice_from in H. destruct (strip line); [destruct H | now right].
  - intros H. rewrite H in E. discriminate.
Qed.

Lemma parsed_bullets_tidy (text : str) :
  forallb tidy (parsed_bullets text) = true.
Proof.
  unfold parsed_bullets.
  assert (Hlines : forall line, In line (split newline (strip text)) ->
                     ~ In newline line).
  { intros line. apply split_no_separator. }
  assert (Hgen : forall lines acc,
             (forall line, In line lines -> ~ In newline line) ->
             forallb tidy acc = true ->
             forallb tidy (fold_left keep_line lines acc) = true).
  { induction lines as [|line lines IH]; intros acc Hl Hacc; [exact Hacc|].
    cbn [fold_left]. apply IH.
    - intros l Hin. apply Hl. now right.
    - apply keep_line_tidy; [apply Hl; now left | exact Hacc]. }
  now apply Hgen.
Qed.

(** X15: the list [optimize_bullet_points] returns is either the input
    list itself or a list of bullets each of which is non-empty, has no
    whitespace at either end and holds no newline character (U+000A): an
    accepted optimization never contains a blank or unstripped bullet. *)
Theorem accepted_bullets_tidy (bullets : list str)
    (job_description context : str) (concise : bool) (priority : option str)
    (service : request -> reply) :
  exists out,
    run service
        (optimize_bullet_points bullets job_description context concise priority)
    = Returned out
    /\ (out = bullets \/ forallb tidy out = true).
Proof.
  unfold optimize_bullet_points. cbn [run].
  destruct (service _) as [|text]; [now exists bullets; auto|].
  change (fold_left _ (split newline (strip text)) [])
    with (parsed_bullets text).
  destruct (negb (Nat.eqb (length (parsed_bullets text)) (length bullets))).
  - exists bullets. auto.
  - exists (parsed_bullets text). split; [reflexivity|].
    right. apply parsed_bullets_tidy.
Qed.

End BulletFacts.

(* ================================================================== *)
(** * Properties of the resume optimizer *)
(* ================================================================== *)

Module Step2More.
Import Py Step2 Bullets Effects Step2Content PyFacts EffectsFacts.

Lemma dict_set_keys {V : Type} (key : str) (v : V) (d : list (str * V)) :
  dict_has key d = true -> map fst (dict_set key v d) = map fst d.
Proof.
  unfold dict_has.
  induction d as [|[k w] d IH]; cbn; [discriminate|].
  destruct (str_eqb k key); [reflexivity|].
  intros H. cbn. f_equal. now apply IH.
Qed.

Lemma dict_set_same {V : Type} (key : str) (v : V) (d : list (str * V)) :
  dict_get key d = Some v -> dict_set key v d = d.
Proof.
  induction d as [|[k w] d IH]; cbn; [discriminate|].
  destruct (str_eqb k key).
  - intros H. now injection H as ->.
  - intros H. f_equal. now apply IH.
Qed.

Lemma entry_kept_refl (e : dict) : entry_kept e e.
Proof.
  repeat split. destruct (dict_get (lit "bullets") e) as [[]|]; try reflexivity.
  eexists. now split.
Qed.

Lemma entry_kept_set (e : dict) (bullets optimized : list json) :
  dict_get (lit "bullets") e = Some (JList bullets) ->
  length optimized = length bullets ->
  entry_kept e (dict_set (lit "bullets") (JList optimized) e).
Proof.
  intros Hb Hlen. split; [|split].
  - apply dict_set_keys. unfold dict_has. now rewrite Hb.
  - intros key Hkey. rewrite dict_get_set.
    destruct (str_eqb (lit "bullets") key) eqn:E; [|reflexivity].
    apply str_eqb_eq in E. congruence.
  - rewrite Hb. exists optimized. split; [|exact Hlen].
    now rewrite dict_get_set, str_eqb_refl.
Qed.

Section Optimizer.

Variable py_format : json -> str.

(** The count is kept whatever the reply; a failed call keeps the list. *)
Lemma run_bullets_any (service : nat -> request -> reply) (n : nat)
    (bullets : list json) (job_description context : str) (concise : bool)
    (priority : json) :
  exists out,
    run_numbered service n
      (optimize_bullet_points_any py_format bullets job_description context
         concise priority)
    = (Returned out, S n)
    /\ length out = length bullets
    /\ ((forall k q, service k q = ServiceError) -> out = bullets).
Proof.
  unfold optimize_bullet_points_any. cbn [run_numbered].
  destruct (service n _) as [|text] eqn:E.
  - exists bullets. repeat split.
  - destruct (Nat.eqb (length (parsed_bullets text)) (length bullets)) eqn:El.
    + eexists. split; [reflexivity|]. split.
      * rewrite length_map. now apply Nat.eqb_eq.
      * intros Hfail. rewrite Hfail in E. discriminate.
    + exists bullets. repeat split.
Qed.

Lemma run_experience_entry (service : nat -> request -> reply) (n : nat)
    (e : dict) (job_description : str) (concise : bool) :
  exists out,
    run_numbered service n
      (optimize_experience_entry py_format e job_description concise)
    = (Returned out, n + cost (JDict e))
    /\ entry_kept e out
    /\ ((forall k q, service k q = ServiceError) -> out = e).
Proof.
  unfold optimize_experience_entry, cost, has_bullet_list.
  destruct (dict_get (lit "bullets") e) as [v|] eqn:Eb.
  2:{ exists e. rewrite Nat.add_0_r. repeat split. apply entry_kept_refl. }
  destruct v as [| | | | | bullets |];
    try (exists e; rewrite Nat.add_0_r; repeat split; apply entry_kept_refl).
  rewrite run_numbered_bind.
  match goal with
  | |- context [optimize_bullet_points_any _ _ ?jd ?ctx ?c ?p] =>
      destruct (run_bullets_any service n bullets jd ctx c p)
        as (out & -> & Hlen & Hfail)
  end.
  cbn [run_numbered]. eexists. split; [f_equal; lia|]. split.
  - now apply entry_kept_set with (bullets := bullets).
  - intros H. rewrite (Hfail H). now apply dict_set_same.
Qed.

Lemma run_project_entry (service : nat -> request -> reply) (n : nat)
    (p : dict) (job_description : str) (concise : bool) :
  if project_ok (JDict p) then
    exists out,
      run_numbered service n
        (optimize_project_entry py_format p job_description concise)
      = (Returned out, n + cost (JDict p))
      /\ entry_kept p out
      /\ ((forall k q, service k q = ServiceError) -> out = p)
  else
    run_numbered service n
      (optimize_project_entry py_format p job_description concise)
    = (Raised, n).
Proof.
  unfold optimize_project_entry, project_ok, cost, has_bullet_list.
  destruct (dict_get (lit "bullets") p) as [v|] eqn:Eb.
  2:{ cbn. exists p. rewrite Nat.add_0_r. repeat split. apply entry_kept_refl. }
  destruct v as [| | | | | bullets |];
    try (cbn; exists p; rewrite Nat.add_0_r; repeat split;
         apply entry_kept_refl).
  cbn [negb orb].
  destruct (joined (dict_get_default (lit "tech") (JList []) p)) as [tech|];
    [|reflexivity].
  rewrite run_numbered_bind.
  match goal with
  | |- context [optimize_bullet_points_any _ _ ?jd ?ctx ?c ?pr] =>
      destruct (run_bullets_any service n bullets jd ctx c pr)
        as (out & -> & Hlen & Hfail)
  end.
  cbn [run_numbered]. eexists. split; [f_equal; lia|]. split.
  - now apply entry_kept_set with (bullets := bullets).
  - intros H. rewrite (Hfail H). now apply dict_set_same.
Qed.

(** X9: an optimized entry has the keys of the entry it came from, in the
    same order, the same value under every key but ['bullets'], and as many
    bullets; an experience entry is always returned. *)
Theorem entry_fields_kept (service : nat -> request -> reply) (n : nat)
    (entry : dict) (job_description : str) (concise : bool) :
  (exists out m,
     run_numbered service n
       (optimize_experience_entry py_format entry job_description concise)
     = (Returned out, m)
     /\ entry_kept entry out)
  /\ (forall out m,
        run_numbered service n
          (optimize_project_entry py_format entry job_description concise)
        = (Returned out, m) ->
        entry_kept entry out).
Proof.
  split.
  - destruct (run_experience_entry service n entry job_description concise)
      as (out & Hrun & Hkept & _).
    now exists out, (n + cost (JDict entry)).
  - intros out m Hrun.
    pose proof (run_project_entry service n entry job_description concise) as H.
    destruct (project_ok (JDict entry)).
    + destruct H as (out' & Hrun' & Hkept & _). congruence.
    + congruence.
Qed.

(** ** The two loops *)

(** A loop over items whose body either returns a kept item at a known
    cost or raises. *)
Lemma run_items (service : nat -> request -> reply)
    (optimize : json -> prog request reply json) (ok : json -> bool)
    (items : list json) :
  (forall x n,
     if ok x then
       exists y, run_numbered service n (optimize x) = (Returned y, n + cost x)
                 /\ item_kept x y
                 /\ ((forall k q, service k q = ServiceError) -> y = x)
     else run_numbered service n (optimize x) = (Raised, n)) ->
  forall n,
    if forallb ok items then
      exists ys,
        run_numbered service n (for_each optimize items)
        = (Returned ys, n + list_sum (map cost items))
        /\ Forall2 item_kept items ys
        /\ ((forall k q, service k q = ServiceError) -> ys = items)
    else exists m, run_numbered service n (for_each optimize items) = (Raised, m).
Proof.
  intros Hitem. induction items as [|x items IH]; intros n.
  - cbn. exists []. rewrite Nat.add_0_r. repeat split. constructor.
  - cbn [forallb for_each]. rewrite run_numbered_bind.
    specialize (Hitem x n). destruct (ok x); cbn [andb].
    + destruct Hitem as (y & -> & Hkept & Hfail).
      rewrite run_numbered_bind. specialize (IH (n + cost x)).
      destruct (forallb ok items).
      * destruct IH as (ys & -> & Hall & Hfails). cbn [run_numbered].
        exists (y :: ys). split; [|split].
        -- f_equal. change (list_sum (map cost (x :: items)))
             with (cost x + list_sum (map cost items)). lia.
        -- now constructor.
        -- intros H. now rewrite (Hfail H), (Hfails H).
      * destruct IH as (m & ->). now exists m.
    + rewrite Hitem. now exists n.
Qed.

Lemma run_experience_item (service : nat -> request -> reply)
    (job_description : str) (concise : bool) (x : json) (n : nat) :
  if is_dict x then
    exists y,
      run_numbered service n
        match x with
        | JDict e =>
            bind (optimize_experience_entry py_format e job_description concise)
                 (fun optimized_exp => Ret (JDict optimized_exp))
        | _ => Raise
        end
      = (Returned y, n + cost x)
      /\ item_kept x y
      /\ ((forall k q, service k q = ServiceError) -> y = x)
  else
    run_numbered service n
      match x with
      | JDict e =>
          bind (optimize_experience_entry py_format e job_description concise)
               (fun optimized_exp => Ret (JDict optimized_exp))
      | _ => Raise
      end
    = (Raised, n).
Proof.
  destruct x as [| | | | | |e]; try reflexivity.
  cbn [is_dict]. rewrite run_numbered_bind.
  destruct (run_experience_entry service n e job_description concise)
    as (out & -> & Hkept & Hfail).
  exists (JDict out). split; [reflexivity|]. split; [exact Hkept|].
  intros H. now rewrite (Hfail H).
Qed.

Lemma run_project_item (service : nat -> request -> reply)
    (job_description : str) (concise : bool) (x : json) (n : nat) :
  if project_ok x then
    exists y,
      run_numbered service n
        match x with
        | JDict p =>
            bind (optimize_project_entry py_format p job_description concise)
                 (fun optimized_proj => Ret (JDict optimized_proj))
        | _ => Raise
        end
      = (Returned y, n + cost x)
      /\ item_kept x y
      /\ ((forall k q, service k q = ServiceError) -> y = x)
  else
    run_numbered service n
      match x with
      | JDict p =>
          bind (optimize_project_entry py_format p job_description concise)
               (fun optimized_proj => Ret (JDict optimized_proj))
      | _ => Raise
      end
    = (Raised, n).
Proof.
  destruct x as [| | | | | |p]; try reflexivity.
  rewrite run_numbered_bind.
  pose proof (run_project_entry service n p job_description concise) as H.
  destruct (project_ok (JDict p)).
  - destruct H as (out & -> & Hkept & Hfail).
    exists (JDict out). split; [reflexivity|]. split; [exact Hkept|].
    intros Hf. now rewrite (Hfail Hf).
  - now rewrite H.
Qed.

(** One block: the section goes through the loop and is stored back. *)
Lemma run_block (service : nat -> request -> reply) (key : string)
    (optimize : json -> prog request reply json) (ok : json -> bool)
    (resume_data acc : dict) :
  (forall x n,
     if ok x then
       exists y, run_numbered service n (optimize x) = (Returned y, n + cost x)
                 /\ item_kept x y
                 /\ ((forall k q, service k q = ServiceError) -> y = x)
     else run_numbered service n (optimize x) = (Raised, n)) ->
  forall n,
    if forallb ok (section_items key resume_data) then
      exists ys,
        run_numbered service n (block key optimize resume_data acc)
        = (Returned match dict_get (lit key) resume_data with
                    | Some (JList _) => dict_set (lit key) (JList ys) acc
                    | _ => acc
                    end,
           n + list_sum (map cost (section_items key resume_data)))
        /\ Forall2 item_kept (section_items key resume_data) ys
        /\ ((forall k q, service k q = ServiceError) ->
            ys = section_items key resume_data)
    else exists m,
      run_numbered service n (block key optimize resume_data acc) = (Raised, m).
Proof.
  intros Hitem n. unfold block, section_items.
  destruct (dict_get (lit key) resume_data) as [v|];
    [|cbn; exists []; rewrite Nat.add_0_r; repeat split; constructor].
  destruct v as [| | | | | items |];
    try (cbn; exists []; rewrite Nat.add_0_r; repeat split; constructor).
  rewrite run_numbered_bind.
  pose proof (run_items service optimize ok items Hitem n) as H.
  destruct (forallb ok items).
  - destruct H as (ys & -> & Hall & Hfail). now exists ys.
  - destruct H as (m & ->). now exists m.
Qed.

Lemma section_kept_stored (key : string) (r acc : dict) (ys : list json) :
  Forall2 item_kept (section_items key r) ys ->
  dict_get (lit key) acc = dict_get (lit key) r ->
  section_kept key r
    match dict_get (lit key) r with
    | Some (JList _) => dict_set (lit key) (JList ys) acc
    | _ => acc
    end.
Proof.
  unfold section_kept, section_items. intros Hall Hacc.
  destruct (dict_get (lit key) r) as [v|]; [|exact Hacc].
  destruct v; try exact Hacc.
  exists ys. split; [|exact Hall]. now rewrite dict_get_set, str_eqb_refl.
Qed.

(** The outcome of [optimize_resume_content]. *)
Lemma run_content (service : nat -> request -> reply) (r : dict)
    (job_description : str) (concise : bool) (n : nat) :
  if content_ok r then
    exists out,
      run_numbered service n
        (optimize_resume_content py_format r job_description concise)
      = (Returned out, n + bullet_lists r)
      /\ resume_kept r out
      /\ ((forall k q, service k q = ServiceError) -> out = r)
  else exists m,
    run_numbered service n
      (optimize_resume_content py_format r job_description concise)
    = (Raised, m).
Proof.
  unfold content_ok, bullet_lists.
  change (optimize_resume_content py_format r job_description concise)
    with (bind (block "experience"
                  (fun exp => match exp with
                     | JDict e =>
                         bind (optimize_experience_entry py_format e
                                 job_description concise)
                              (fun optimized_exp => Ret (JDict optimized_exp))
                     | _ => Raise
                     end) r r)
               (fun acc =>
                  block "projects"
                    (fun proj => match proj with
                       | JDict p =>
                           bind (optimize_project_entry py_format p
                                   job_description concise)
                                (fun optimized_proj => Ret (JDict optimized_proj))
                       | _ => Raise
                       end) r acc)).
  rewrite run_numbered_bind.
  pose proof (run_block service "experience" _ is_dict r r
                (run_experience_item service job_description concise) n) as He.
  destruct (forallb is_dict (section_items "experience" r)); cbn [andb].
  2:{ destruct He as (m & ->). now exists m. }
  destruct He as (es & -> & Hes & Hefail).
  set (acc := match dict_get (lit "experience") r with
              | Some (JList _) => dict_set (lit "experience") (JList es) r
              | _ => r
              end).
  pose proof (run_block service "projects" _ project_ok r acc
                (run_project_item service job_description concise)
                (n + list_sum (map cost (section_items "experience" r)))) as Hp.
  destruct (forallb project_ok (section_items "projects" r)).
  2:{ destruct Hp as (m & ->). now exists m. }
  destruct Hp as (ps & -> & Hps & Hpfail).
  eexists. split; [f_equal; lia|].
  assert (Hacc_keys : map fst acc = map fst r).
  { unfold acc. destruct (dict_get (lit "experience") r) as [v|] eqn:E;
      [|reflexivity].
    destruct v; try reflexivity.
    apply dict_set_keys. unfold dict_has. now rewrite E. }
  assert (Hacc_get : forall key, key <> lit "experience" ->
                       dict_get key acc = dict_get key r).
  { intros key Hkey. unfold acc.
    destruct (dict_get (lit "experience") r) as [v|]; [|reflexivity].
    destruct v; try reflexivity.
    rewrite dict_get_set.
    destruct (str_eqb (lit "experience") key) eqn:E; [|reflexivity].
    apply str_eqb_eq in E. congruence. }
  assert (Hpe : lit "projects" <> lit "experience") by discriminate.
  split; [split; [|split; [|split]]|].
  - destruct (dict_get (lit "projects") r) as [v|] eqn:E; [|exact Hacc_keys].
    destruct v; try exact Hacc_keys.
    rewrite dict_set_keys; [exact Hacc_keys|].
    unfold dict_has. now rewrite (Hacc_get _ Hpe), E.
  - intros key Hk1 Hk2.
    destruct (dict_get (lit "projects") r) as [v|]; [|now apply Hacc_get].
    destruct v; try now apply Hacc_get.
    rewrite dict_get_set.
    destruct (str_eqb (lit "projects") key) eqn:E; [|now apply Hacc_get].
    apply str_eqb_eq in E. congruence.
  - assert (Hse : section_kept "experience" r acc).
    { apply section_kept_stored; [exact Hes | reflexivity]. }
    unfold section_kept in *.
    destruct (dict_get (lit "projects") r) as [v|]; [|exact Hse].
    destruct v; try exact Hse.
    rewrite dict_get_set.
    replace (str_eqb (lit "projects") (lit "experience")) with false
      by reflexivity.
    exact Hse.
  - apply section_kept_stored; [exact Hps|]. now apply Hacc_get.
  - intros H. rewrite (Hpfail H).
    assert (Hacc : acc = r).
    { unfold acc. rewrite (Hefail H). unfold section_items.
      destruct (dict_get (lit "experience") r) as [v|] eqn:E; [|reflexivity].
      destruct v; try reflexivity. now apply dict_set_same. }
    rewrite Hacc. unfold section_items.
    destruct (dict_get (lit "projects") r) as [v|] eqn:E; [|reflexivity].
    destruct v; try reflexivity. now apply dict_set_same.
Qed.

(** X10: the resume [optimize_resume_content] returns has the keys of its
    input in the same order; every section but the experiences and the
    projects is untouched; and those two hold as many items as before, each
    with its keys, its fields other than the bullets and its number of
    bullets. *)
Theorem resume_shape_kept (service : nat -> request -> reply)
    (resume_data : dict) (job_description : str) (concise : bool)
    (out : dict) :
  result service
    (optimize_resume_content py_format resume_data job_description concise)
  = Returned out ->
  resume_kept resume_data out.
Proof.
  unfold result. intros Hrun.
  pose proof (run_content service resume_data job_description concise 0) as H.
  destruct (content_ok resume_data).
  - destruct H as (out' & Hrun' & Hkept & _).
    rewrite Hrun' in Hrun. cbn in Hrun. congruence.
  - destruct H as (m & Hrun'). rewrite Hrun' in Hrun. discriminate.
Qed.

(** X11: [optimize_resume_content] raises exactly when an experience is not
    a dict, or a project is not a dict or has a bullet list next to a [tech]
    that cannot be joined; what the service replies plays no part. *)
Theorem content_raises_iff (service : nat -> request -> reply)
    (resume_data : dict) (job_description : str) (concise : bool) :
  result service
    (optimize_resume_content py_format resume_data job_description concise)
  = Raised
  <-> content_ok resume_data = false.
Proof.
  unfold result.
  pose proof (run_content service resume_data job_description concise 0) as H.
  destruct (content_ok resume_data).
  - destruct H as (out & -> & _). split; discriminate.
  - destruct H as (m & ->). split; reflexivity.
Qed.

(** X12: when nothing raises, the service is called once for every
    experience and every project that holds a list under ['bullets'], and
    for nothing else. *)
Theorem one_call_per_bullet_list (service : nat -> request -> reply)
    (resume_data : dict) (job_description : str) (concise : bool) :
  content_ok resume_data = true ->
  calls service
    (optimize_resume_content py_format resume_data job_description concise)
  = bullet_lists resume_data.
Proof.
  unfold calls. intros Hok.
  pose proof (run_content service resume_data job_description concise 0) as H.
  rewrite Hok in H. destruct H as (out & -> & _). reflexivity.
Qed.

(** X13: with the two files present, a dry run of [main] exits with 0
    and saves the resume it read.  A real run with a key at hand in which
    every call to the service fails does the same when every experience is
    a dict and every project is a dict whose [tech] can be joined where it
    holds a bullet list; on any other content it raises. *)
Theorem failed_calls_save_input (service : nat -> request -> reply)
    (args : inputs) (resume_data : dict) (text : str) :
  filtered_resume args = Some resume_data ->
  job_description args = Some text ->
  (dry_run args = true ->
   result service (main py_format args) = Returned (0%Z, Some resume_data))
  /\ (dry_run args = false ->
      setup_openai_client (api_key args) (env_key args) = true ->
      (forall k q, service k q = ServiceError) ->
      result service (main py_format args)
      = if content_ok resume_data
        then Returned (0%Z, Some resume_data)
        else Raised).
Proof.
  intros Hr Hj. unfold result, main. rewrite Hr, Hj. split.
  - now intros ->.
  - intros -> Hkey Hfail. rewrite Hkey. cbn [negb]. rewrite run_numbered_bind.
    pose proof (run_content service resume_data text (concise args) 0) as H.
    destruct (content_ok resume_data).
    + destruct H as (out & -> & _ & Hrev). now rewrite (Hrev Hfail).
    + destruct H as (m & ->). reflexivity.
Qed.


End Optimizer.

Lemma resume_shape_kept_witness :
  exists out,
    result two_bullets
      (optimize_resume_content Drafts.format_str sample_content (lit "job") false)
    = Returned out
    /\ resume_kept sample_content out.
Proof.
  eexists. split; [reflexivity|].
  apply (resume_shape_kept Drafts.format_str two_bullets sample_content
           (lit "job") false).
  reflexivity.
Defined.

Lemma one_call_per_bullet_list_witness :
  content_ok sample_content = true
  /\ calls two_bullets
       (optimize_resume_content Drafts.format_str sample_content (lit "job") true)
     = 2%nat.
Proof.
  assert (H : content_ok sample_content = true) by reflexivity.
  split; [exact H|].
  apply (one_call_per_bullet_list Drafts.format_str two_bullets sample_content
           (lit "job") true H).
Defined.

Lemma failed_calls_save_input_witness :
  content_ok sample_content = true
  /\ result failing
       (main Drafts.format_str
          {| filtered_resume := Some sample_content;
             job_description := Some (lit "job");
             api_key := Some (lit "sk-test"); env_key := None;
             dry_run := false; concise := false |})
     = Returned (0%Z, Some sample_content)
  /\ content_ok broken_content = false
  /\ result failing
       (main Drafts.format_str
          {| filtered_resume := Some broken_content;
             job_description := Some (lit "job");
             api_key := Some (lit "sk-test"); env_key := None;
             dry_run := false; concise := false |})
     = Raised.
Proof.
  split; [reflexivity|]. split; [|split; [reflexivity|]].
  - apply (proj2 (@failed_calls_save_input Drafts.format_str failing
                    {| filtered_resume := Some sample_content;
                       job_description := Some (lit "job");
                       api_key := Some (lit "sk-test"); env_key := None;
                       dry_run := false; concise := false |}
                    sample_content (lit "job") eq_refl eq_refl)
             eq_refl eq_refl (fun _ _ => eq_refl)).
  - apply (proj2 (@failed_calls_save_input Drafts.format_str failing
                    {| filtered_resume := Some broken_content;
                       job_description := Some (lit "job");
                       api_key := Some (lit "sk-test"); env_key := None;
                       dry_run := false; concise := false |}
                    broken_content (lit "job") eq_refl eq_refl)
             eq_refl eq_refl (fun _ _ => eq_refl)).
Defined.


Lemma entry_fields_kept_witness :
  exists out,
    run_numbered two_bullets 0
      (optimize_project_entry Drafts.format_str sample_project (lit "job") false)
    = (Returned out, 1)
    /\ entry_kept sample_project out.
Proof.
  eexists. split; [reflexivity|].
  apply (entry_fields_kept Drafts.format_str two_bullets 0 sample_project
           (lit "job") false) with (m := 1).
  reflexivity.
Defined.

Lemma content_raises_iff_witness :
  content_ok broken_content = false
  /\ result failing
       (optimize_resume_content Drafts.format_str broken_content (lit "job") false)
     = Raised.
Proof.
  assert (H : content_ok broken_content = false) by reflexivity.
  split; [exact H|].
  apply (proj2 (content_raises_iff Drafts.format_str failing broken_content
                  (lit "job") false) H).
Defined.

End Step2More.

(* ================================================================== *)
(** * Further properties of the cover-letter synthesizer *)
(* ================================================================== *)

Module Step4More.
Import Py Step4 Drafts Effects Step4Render PyFacts EffectsFacts Step4Facts.

Local Open Scope Z_scope.

Lemma dict_has_set (key k : str) (v : json) (d : dict) :
  dict_has k d = true -> dict_has k (dict_set key v d) = true.
Proof.
  unfold dict_has. rewrite dict_get_set.
  now destruct (str_eqb key k).
Qed.

Lemma has_five_fields_set (key : str) (v : json) (d : dict) :
  has_five_fields d = true ->
  has_five_fields (dict_set key v d) = true.
Proof.
  unfold has_five_fields. rewrite !forallb_forall.
  intros H f Hf. apply dict_has_set. now apply H.
Qed.

Lemma exception_fallback_shaped (company_name : str) :
  well_shaped (exception_fallback company_name).
Proof. do 2 eexists. repeat split. Qed.

Lemma dry_run_draft_shaped (company_name : option str) :
  well_shaped (dry_run_draft company_name).
Proof. do 2 eexists. repeat split. Qed.

Section Synthesizer.

Variable py_format : json -> str.

Lemma on_invalid_shaped (resume_data : dict) (company_name : option str) :
  well_shaped (on_invalid py_format resume_data company_name).
Proof.
  unfold on_invalid, validation_fallback.
  destruct (background_paragraph _); [|apply exception_fallback_shaped].
  destruct (role_paragraph _ _); [|apply exception_fallback_shaped].
  do 2 eexists. repeat split.
Qed.

Lemma draft_shaped (resume_data : dict) (company_name : option str)
    (service : unit -> reply) :
  summary_builds resume_data = true ->
  exists draft,
    run service
        (generate_cover_letter_content py_format resume_data company_name)
    = Returned draft
    /\ well_shaped draft.
Proof.
  intros Hb.
  rewrite run_generate by exact Hb. eexists. split; [reflexivity|].
  pose proof (exception_fallback_shaped (effective_company company_name))
    as Hexc.
  pose proof (on_invalid_shaped resume_data company_name) as Hinv.
  destruct (service tt) as [| | v]; [exact Hexc | exact Hinv |].
  destruct v as [| | | | | |d];
    try (destruct (validate required_fields _); assumption).
  destruct (has_five_fields d) eqn:Hall; [|exact Hinv].
  destruct (dict_get (lit "body_paragraphs") d) as [body|] eqn:Hbody;
    [|exact Hexc].
  destruct body as [| | | | | l |];
    try (do 2 eexists; split; [reflexivity|]; split;
         [now apply has_five_fields_set
         |cbn [isinstance_list]; now rewrite dict_get_set, str_eqb_refl]).
  exists d, l. repeat split; assumption.
Qed.

(** X16: whatever the service replies, the draft
    [generate_cover_letter_content] returns is a dict that holds [intro],
    [body_paragraphs], [closing], [company_name] and [recipient_name], with
    a list under [body_paragraphs]; the function returns whenever the
    resume summary can be built, and it asks the service exactly once. *)
Theorem draft_always_well_shaped (resume_data : dict)
    (company_name : option str) (service : unit -> reply) :
  summary_builds resume_data = true ->
  (exists draft,
     run service
         (generate_cover_letter_content py_format resume_data company_name)
     = Returned draft
     /\ well_shaped draft)
  /\ requests service
       (generate_cover_letter_content py_format resume_data company_name)
     = [tt].
Proof.
  intros Hb. split.
  - now apply draft_shaped.
  - unfold generate_cover_letter_content. rewrite Hb. cbn [negb requests].
    destruct (service tt) as [| | v]; try reflexivity.
    destruct (validate required_fields v); try reflexivity.
    destruct v as [| | | | | |d]; try reflexivity.
    destruct (dict_get (lit "body_paragraphs") d) as [[]|]; reflexivity.
Qed.

Variable latex : dict -> bool.

Lemma template_data_fields (d p : dict) (field : str) :
  In field five_fields ->
  dict_has field d = true ->
  dict_get field (template_data d p) = dict_get field d.
Proof.
  unfold dict_has, five_fields. intros Hin Hhas.
  destruct Hin as [<- | [<- | [<- | [<- | [<- | []]]]]];
    cbn [template_data dict_get]; unfold dict_get_default;
    match goal with
    | |- context [dict_get ?f d] =>
        destruct (dict_get f d); [|discriminate]
    end; reflexivity.
Qed.

(** The synthesizer makes its one call and returns. *)
Lemma run_numbered_generate (service : nat -> unit -> reply) (n : nat)
    (resume_data : dict) (company_name : option str) :
  run_numbered service n
    (generate_cover_letter_content py_format resume_data company_name)
  = match run (service n)
            (generate_cover_letter_content py_format resume_data company_name)
    with
    | Returned draft => (Returned draft, S n)
    | Raised => (Raised, n)
    end.
Proof.
  unfold generate_cover_letter_content.
  destruct (summary_builds resume_data); [|reflexivity].
  cbn [negb run run_numbered].
  destruct (service n tt) as [| | v]; try reflexivity.
  destruct (validate required_fields v); try reflexivity.
  destruct v as [| | | | | |d]; try reflexivity.
  destruct (dict_get (lit "body_paragraphs") d) as [[]|]; reflexivity.
Qed.

(** The draft that reaches the renderer. *)
Lemma main_draft_shaped (service : nat -> unit -> reply) (args : inputs)
    (code : Z) (draft : json) :
  result service (main py_format latex args) = Returned (code, Some draft) ->
  well_shaped draft.
Proof.
  unfold result, main.
  destruct (optimized_resume args) as [r|]; [|discriminate].
  destruct (job_description args); [|discriminate].
  destruct (template_exists args); [|discriminate]. cbn [negb].
  destruct (dry_run args).
  { cbn. intros H. injection H as _ <-. apply dry_run_draft_shaped. }
  destruct (Step2Content.setup_openai_client _ _); [|discriminate].
  cbn [negb]. rewrite run_numbered_bind, run_numbered_generate.
  destruct (summary_builds r) eqn:Hb.
  - destruct (draft_shaped r (company_name args) (service 0%nat) Hb)
      as (d0 & -> & Hshape).
    cbn. intros H. injection H as _ <-. exact Hshape.
  - unfold generate_cover_letter_content. rewrite Hb. discriminate.
Qed.

(** X17: the draft [main] hands to the renderer, in a dry run and after any
    reply, holds [intro], [body_paragraphs], [closing], [company_name] and
    [recipient_name]; the template data built from it carries the draft's
    own value for each of the five, so none of the renderer's defaults is
    used, and [body_paragraphs] is a list. *)
Theorem renderer_gets_draft_fields (service : nat -> unit -> reply)
    (args : inputs) (code : Z) (draft : json) :
  result service (main py_format latex args) = Returned (code, Some draft) ->
  exists d paragraphs,
    draft = JDict d
    /\ dict_get (lit "body_paragraphs") d = Some (JList paragraphs)
    /\ forall personal_info field,
         In field five_fields ->
         exists v, dict_get field d = Some v
                   /\ dict_get field (template_data d personal_info) = Some v.
Proof.
  intros Hrun.
  destruct (main_draft_shaped service args Hrun) as (d & l & -> & Hall & Hbody).
  exists d, l. split; [reflexivity|]. split; [exact Hbody|].
  intros p field Hin.
  assert (Hhas : dict_has field d = true).
  { unfold has_five_fields in Hall. rewrite forallb_forall in Hall.
    now apply Hall. }
  rewrite template_data_fields by assumption.
  unfold dict_has in Hhas. destruct (dict_get field d) as [v|]; [|discriminate].
  now exists v.
Qed.



End Synthesizer.

Lemma draft_always_well_shaped_witness :
  summary_builds sample_resume = true
  /\ exists draft,
       run (fun _ => Parsed draft_without_closing)
           (generate_cover_letter_content format_str sample_resume None)
       = Returned draft
       /\ well_shaped draft.
Proof.
  assert (H : summary_builds sample_resume = true) by reflexivity.
  split; [exact H|].
  apply (draft_always_well_shaped format_str sample_resume None
           (fun _ => Parsed draft_without_closing) H).
Defined.

Lemma renderer_gets_draft_fields_witness :
  result without_closing (main format_str compiles real_inputs)
  = Returned (0, Some (on_invalid format_str sample_resume
                         (Some (lit "Initech"))))
  /\ exists d paragraphs,
       on_invalid format_str sample_resume (Some (lit "Initech")) = JDict d
       /\ dict_get (lit "body_paragraphs") d = Some (JList paragraphs)
       /\ forall personal_info field,
            In field five_fields ->
            exists v, dict_get field d = Some v
                      /\ dict_get field (template_data d personal_info) = Some v.
Proof.
  assert (H : result without_closing (main format_str compiles real_inputs)
              = Returned (0, Some (on_invalid format_str sample_resume
                                     (Some (lit "Initech")))))
    by reflexivity.
  split; [exact H|].
  apply (renderer_gets_draft_fields format_str compiles without_closing
           real_inputs H).
Defined.


End Step4More.

(* ================================================================== *)
(** * More about [build_resume.py] *)
(* ================================================================== *)

Module EscapeFacts.
Import Py BuildResume Escaping PyFacts.

Lemma replace_app (char : codepoint) (r a b : str) :
  replace char r (a ++ b) = replace char r a ++ replace char r b.
Proof. unfold replace. apply flat_map_app. Qed.

Lemma replace_other (char c : codepoint) (r : str) :
  N.eqb c char = false -> replace char r [c] = [c].
Proof. intros H. unfold replace. cbn. now rewrite H. Qed.

Lemma escape_app (a b : str) : escape (a ++ b) = escape a ++ escape b.
Proof.
  unfold escape, replacements. cbn [fold_left fst snd].
  now rewrite !replace_app.
Qed.

Lemma escape_one (c : codepoint) : escape [c] = escape_char c.
Proof.
  unfold escape_char.
  repeat match goal with
         | |- context [N.eqb c ?k] =>
             destruct (N.eqb_spec c k) as [->|];
             [reflexivity|]
         end.
  unfold escape, replacements. cbn [fold_left fst snd].
  rewrite !replace_other; [reflexivity| | | | | | | | | |];
    now apply N.eqb_neq.
Qed.

Lemma escape_flat_map (s : str) : escape s = flat_map escape_char s.
Proof.
  induction s as [|c s IH]; [reflexivity|].
  change (c :: s) with ([c] ++ s).
  now rewrite escape_app, escape_one, IH.
Qed.

Ltac by_character c :=
  repeat match goal with
         | |- context [N.eqb c ?k] => destruct (N.eqb_spec c k) as [->|]
         end.

Lemma escape_char_plain (c : codepoint) :
  special c = false -> escape_char c = [c].
Proof.
  unfold special, escape_char, replacements. cbn [existsb fst].
  by_character c; cbn; congruence.
Qed.

Lemma escape_char_special (c : codepoint) :
  special c = true -> (2 <= length (escape_char c))%nat.
Proof.
  unfold special, escape_char, replacements. cbn [existsb fst].
  by_character c; cbn; try discriminate; intros _; lia.
Qed.

Lemma escape_char_length (c : codepoint) : (1 <= length (escape_char c))%nat.
Proof.
  destruct (special c) eqn:E.
  - apply escape_char_special in E. lia.
  - now rewrite escape_char_plain.
Qed.

Lemma flat_map_escape_length (s : str) :
  (length s <= length (flat_map escape_char s))%nat.
Proof.
  induction s as [|c s IH]; [reflexivity|].
  cbn [flat_map]. rewrite length_app. pose proof (escape_char_length c).
  cbn [length]. lia.
Qed.

Lemma flat_map_escape_plain (s : str) :
  forallb (fun c => negb (special c)) s = true ->
  flat_map escape_char s = s.
Proof.
  induction s as [|c s IH]; [reflexivity|].
  cbn [forallb flat_map]. intros H. apply andb_prop in H as [Hc Hs].
  apply negb_true_iff in Hc.
  now rewrite escape_char_plain, IH.
Qed.

Lemma flat_map_escape_same_length (s : str) :
  length (flat_map escape_char s) = length s ->
  forallb (fun c => negb (special c)) s = true.
Proof.
  induction s as [|c s IH]; [reflexivity|].
  cbn [forallb flat_map length]. rewrite length_app. intros H.
  pose proof (flat_map_escape_length s) as Hs.
  pose proof (escape_char_length c) as Hc.
  destruct (special c) eqn:E.
  - apply escape_char_special in E. lia.
  - cbn [negb andb]. apply IH. lia.
Qed.

Lemma guarded_app (a b : str) :
  forall prev,
    guarded prev a = true ->
    (forall q, guarded q b = true) ->
    guarded prev (a ++ b) = true.
Proof.
  induction a as [|c a IH]; intros prev Ha Hb; [apply Hb|].
  cbn [app guarded] in *. apply andb_prop in Ha as [Hc Ha].
  rewrite Hc. cbn [andb]. now apply IH.
Qed.

Lemma escape_char_guarded (c : codepoint) (prev : option codepoint) :
  guarded prev (escape_char c) = true.
Proof.
  unfold escape_char.
  by_character c; try reflexivity.
  unfold guarded, active. cbn [existsb].
  repeat match goal with
         | H : c <> ?k |- _ => apply N.eqb_neq in H; rewrite ?H; clear H
         end.
  reflexivity.
Qed.

Lemma flat_map_escape_guarded (s : str) :
  forall prev, guarded prev (flat_map escape_char s) = true.
Proof.
  induction s as [|c s IH]; intros prev; [reflexivity|].
  cbn [flat_map]. apply guarded_app; [apply escape_char_guarded | exact IH].
Qed.

(** X19: the ten replacements of [handle_latex_chars] amount to one pass
    that maps each character on its own: a backslash comes out as
    [\textbackslash\{\}], with its braces escaped by the later
    replacements, every other replaced character as the source lists it,
    and every other character as itself. *)
Theorem latex_escape_one_pass (s : str) :
  handle_latex_chars (JStr s) = JStr (flat_map escape_char s).
Proof.
  cbn [handle_latex_chars]. f_equal. apply escape_flat_map.
Qed.

(** X20: [handle_latex_chars] returns a string unchanged exactly when it
    holds none of the ten characters; any other string comes out longer. *)
Theorem unchanged_iff_plain (s : str) :
  (handle_latex_chars (JStr s) = JStr s
   <-> forallb (fun c => negb (special c)) s = true)
  /\ (handle_latex_chars (JStr s) <> JStr s
      <-> (length s < length (escape s))%nat).
Proof.
  cbn [handle_latex_chars]. rewrite escape_flat_map.
  pose proof (flat_map_escape_length s) as Hle.
  split; split.
  - intros H. apply flat_map_escape_same_length. congruence.
  - intros H. now rewrite flat_map_escape_plain.
  - intros H.
    destruct (Nat.eq_dec (length (flat_map escape_char s)) (length s))
      as [E|E]; [|lia].
    apply flat_map_escape_same_length, flat_map_escape_plain in E. congruence.
  - intros H E. injection E as E. rewrite E in H. lia.
Qed.

(** X21: in the text [handle_latex_chars] returns, each of the characters
    [$ % & # _] stands right after a backslash, and there is no circumflex
    and no tilde. *)
Theorem active_characters_escaped (s : str) :
  guarded None (escape s) = true.
Proof.
  rewrite escape_flat_map. apply flat_map_escape_guarded.
Qed.

End EscapeFacts.

Module DisplayFacts.
Import Py BuildResume Escaping PyFacts.

Lemma all_str_some (l : list json) :
  forallb isinstance_str l = true -> exists names, Step4.all_str l = Some names.
Proof.
  induction l as [|v l IH]; [now exists []|].
  cbn [forallb]. intros H. apply andb_prop in H as [Hv Hl].
  destruct (IH Hl) as (names & E).
  destruct v; try discriminate. cbn [Step4.all_str]. rewrite E. eauto.
Qed.

Lemma all_str_none (l : list json) :
  forallb isinstance_str l = false -> Step4.all_str l = None.
Proof.
  induction l as [|v l IH]; [discriminate|].
  cbn [forallb]. intros H.
  destruct v; try reflexivity. cbn [isinstance_str andb] in H.
  cbn [Step4.all_str]. now rewrite (IH H).
Qed.

Lemma all_str_map (l : list json) (names : list str) :
  Step4.all_str l = Some names -> l = map JStr names.
Proof.
  revert names. induction l as [|v l IH]; intros names.
  - cbn. now intros [= <-].
  - destruct v; try discriminate. cbn [Step4.all_str].
    destruct (Step4.all_str l) as [r|]; [|discriminate].
    intros [= <-]. cbn [map]. now rewrite (IH r eq_refl).
Qed.

(** [set_display] raises exactly on a list that holds something other than
    a string. *)
Lemma set_display_none (source target : string) (d : dict) :
  set_display source target d = None <-> strings_or_none source d = false.
Proof.
  unfold set_display, strings_or_none.
  destruct (dict_get (lit source) d) as [[| | | | |l|]|];
    try (split; discriminate).
  destruct (forallb isinstance_str l) eqn:E.
  - destruct (all_str_some l E) as (names & ->).
    destruct (truthy (JList l)); split; discriminate.
  - rewrite (all_str_none l E).
    destruct l as [|v l]; [discriminate|]. cbn [truthy length Nat.eqb negb].
    split; reflexivity.
Qed.

(** What [set_display] stores. *)
Lemma set_display_some (source target : string) (d d' : dict) :
  set_display source target d = Some d' ->
  match dict_get (lit source) d with
  | Some (JList l) =>
      exists names,
        l = map JStr names
        /\ d' = dict_set (lit target) (JStr (Step4.join (lit ", ") names)) d
  | _ => d' = d
  end.
Proof.
  unfold set_display.
  destruct (dict_get (lit source) d) as [[| | | | |l|]|];
    try (now intros [= <-]).
  destruct l as [|v l].
  - cbn [truthy length Nat.eqb negb]. intros [= <-]. now exists [].
  - cbn [truthy length Nat.eqb negb].
    destruct (Step4.all_str (v :: l)) as [names|] eqn:E; [|discriminate].
    intros [= <-]. exists names. split; [now apply all_str_map|reflexivity].
Qed.

Lemma set_display_get (source target : string) (d d' : dict) (key : str) :
  set_display source target d = Some d' ->
  str_eqb (lit target) key = false ->
  dict_get key d' = dict_get key d.
Proof.
  intros H Hk. apply set_display_some in H.
  destruct (dict_get (lit source) d) as [[| | | | |l|]|]; subst; try reflexivity.
  destruct H as (names & _ & ->). now rewrite dict_get_set, Hk.
Qed.

Lemma strings_or_none_set_display (source target key : string) (d d' : dict) :
  set_display source target d = Some d' ->
  str_eqb (lit target) (lit key) = false ->
  strings_or_none key d' = strings_or_none key d.
Proof.
  intros H Hk. unfold strings_or_none.
  now rewrite (@set_display_get source target d d' (lit key) H Hk).
Qed.

Lemma or_else_list (v : option json) (r : json) (body : dict -> option dict) :
  for_section body (or_else v (JList [])) = Some r ->
  exists items items',
    or_else v (JList []) = JList items
    /\ r = JList items'
    /\ for_items body items = Some items'.
Proof.
  unfold or_else.
  destruct v as [x|]; [|cbn; intros [= <-]; now exists [], []].
  destruct (truthy x) eqn:T; [|cbn; intros [= <-]; now exists [], []].
  destruct x as [| | | |s|l|d]; try discriminate.
  - destruct s; discriminate.
  - cbn [for_section].
    destruct (for_items body l) as [l'|] eqn:E; [|discriminate].
    intros [= <-]. now exists l, l'.
  - destruct d; discriminate.
Qed.

Lemma for_items_Forall2 (body : dict -> option dict) (items items' : list json) :
  for_items body items = Some items' ->
  Forall2 (fun v v' => exists d d',
             v = JDict d /\ v' = JDict d' /\ body d = Some d') items items'.
Proof.
  revert items'. induction items as [|v items IH]; intros items'.
  - intros [= <-]. constructor.
  - destruct v; try discriminate. cbn [for_items].
    destruct (body d) as [d'|] eqn:E; [|discriminate].
    destruct (for_items body items) as [rest|]; [|discriminate].
    intros [= <-]. constructor; [|now apply IH].
    now exists d, d'.
Qed.

Lemma for_items_none (body : dict -> option dict) (item_ok : dict -> bool)
    (items : list json) :
  (forall d, body d = None <-> item_ok d = false) ->
  for_items body items = None
  <-> forallb (fun v => match v with
                        | JDict d => item_ok d
                        | _ => false
                        end) items = false.
Proof.
  intros Hbody. induction items as [|v items IH]; [split; discriminate|].
  destruct v; try (split; reflexivity).
  cbn [for_items forallb]. specialize (Hbody d).
  destruct (body d) as [d'|].
  - destruct (item_ok d); [|now destruct Hbody as [_ H]; discriminate (H eq_refl)].
    cbn [andb]. destruct (for_items body items); [|tauto].
    split; [discriminate|]. intros H. apply IH in H. discriminate.
  - destruct Hbody as [H _]. rewrite (H eq_refl). split; reflexivity.
Qed.

Lemma for_section_none (body : dict -> option dict) (item_ok : dict -> bool)
    (key : string) (payload : dict) :
  (forall d, body d = None <-> item_ok d = false) ->
  for_section body (or_else (dict_get (lit key) payload) (JList [])) = None
  <-> section_ok item_ok key payload = false.
Proof.
  intros Hbody. unfold section_ok.
  destruct (or_else (dict_get (lit key) payload) (JList [])) as [| | | |s|l|d] eqn:E;
    try (split; reflexivity).
  - destruct s; [|split; reflexivity].
    unfold or_else in E.
    destruct (dict_get (lit key) payload) as [x|]; [|discriminate].
    destruct (truthy x) eqn:T; [|discriminate]. subst x. discriminate.
  - cbn [for_section]. rewrite <- (for_items_none body item_ok l Hbody).
    destruct (for_items body l); split; congruence.
  - destruct d; [|split; reflexivity].
    unfold or_else in E.
    destruct (dict_get (lit key) payload) as [x|]; [|discriminate].
    destruct (truthy x) eqn:T; [|discriminate]. subst x. discriminate.
Qed.

Lemma project_body_none (d : dict) :
  project_body d = None <-> strings_or_none "tech" d = false.
Proof.
  unfold project_body. rewrite <- set_display_none with (target := "tech_display"%string).
  destruct (set_display "tech" "tech_display" d); split; congruence.
Qed.

Lemma experience_body_none (d : dict) :
  experience_body d = None <-> (fun _ : dict => true) d = false.
Proof. split; discriminate. Qed.

Lemma education_body_none (d : dict) :
  education_body d = None <-> strings_or_none "relevant_coursework" d = false.
Proof. apply set_display_none. Qed.

(** The same function with every section read from [payload]: a section is
    stored under a key that no later step reads. *)
Lemma join_display_fields_eq (payload : dict) :
  join_display_fields payload
  = match or_else (dict_get (lit "skills") payload) (JDict []) with
    | JDict s0 =>
        match set_display "languages" "languages_display" s0 with
        | None => None
        | Some s1 =>
        match set_display "technologies" "technologies_display" s1 with
        | None => None
        | Some s2 =>
        match set_display "concepts" "concepts_display" s2 with
        | None => None
        | Some s3 =>
        match for_section project_body
                (or_else (dict_get (lit "projects") payload) (JList [])) with
        | None => None
        | Some projects =>
        match for_section experience_body
                (or_else (dict_get (lit "experience") payload) (JList [])) with
        | None => None
        | Some experience =>
        match for_section education_body
                (or_else (dict_get (lit "education") payload) (JList [])) with
        | None => None
        | Some education =>
            Some (dict_set (lit "education") education
                    (dict_set (lit "experience") experience
                       (dict_set (lit "projects") projects
                          (dict_set (lit "skills") (JDict s3) payload))))
        end end end end end end
    | _ => None
    end.
Proof.
  unfold join_display_fields. cbv zeta.
  destruct (or_else (dict_get (lit "skills") payload) (JDict []));
    try reflexivity.
  destruct (set_display "languages" "languages_display" d) as [s1|];
    [|reflexivity].
  destruct (set_display "technologies" "technologies_display" s1) as [s2|];
    [|reflexivity].
  destruct (set_display "concepts" "concepts_display" s2) as [s3|];
    [|reflexivity].
  rewrite dict_get_set.
  replace (str_eqb (lit "skills") (lit "projects")) with false by reflexivity.
  destruct (for_section project_body _) as [projects|]; [|reflexivity].
  rewrite !dict_get_set.
  replace (str_eqb (lit "skills") (lit "experience")) with false by reflexivity.
  replace (str_eqb (lit "projects") (lit "experience")) with false by reflexivity.
  destruct (for_section experience_body _) as [experience|]; [|reflexivity].
  rewrite !dict_get_set.
  replace (str_eqb (lit "skills") (lit "education")) with false by reflexivity.
  replace (str_eqb (lit "projects") (lit "education")) with false by reflexivity.
  replace (str_eqb (lit "experience") (lit "education")) with false by reflexivity.
  reflexivity.
Qed.

End DisplayFacts.

Module BuildMore.
Import Py BuildResume Escaping PyFacts DisplayFacts.

Lemma str_eqb_neq (s t : str) : s <> t -> str_eqb s t = false.
Proof.
  intros H. destruct (str_eqb s t) eqn:E; [|reflexivity].
  apply str_eqb_eq in E. contradiction.
Qed.

Lemma escape_bullets_entry (d : dict) :
  entry_escaped (JDict d) (JDict (escape_bullets d)).
Proof.
  exists d, (escape_bullets d). split; [reflexivity|]. split; [reflexivity|].
  unfold escape_bullets.
  destruct (dict_get (lit "bullets") d) as [[| | | | |l|]|] eqn:E;
    try (split; [reflexivity|]; split; [reflexivity|exact E]).
  split; [|split].
  - apply Step2More.dict_set_keys. unfold dict_has. now rewrite E.
  - intros key Hk. rewrite dict_get_set.
    rewrite str_eqb_neq; [reflexivity|congruence].
  - rewrite dict_get_set, str_eqb_refl. reflexivity.
Qed.

Lemma experience_items_escaped (items items' : list json) :
  for_items experience_body items = Some items' ->
  Forall2 entry_escaped items items'.
Proof.
  intros H. apply for_items_Forall2 in H.
  induction H as [|v v' l l' (d & d' & -> & -> & Hb) _ IH]; constructor.
  - injection Hb as <-. apply escape_bullets_entry.
  - exact IH.
Qed.

Lemma or_else_of_list (items : list json) :
  or_else (Some (JList items)) (JList []) = JList items.
Proof. now destruct items. Qed.

Lemma or_else_of_dict (d : dict) :
  or_else (Some (JDict d)) (JDict []) = JDict d.
Proof. now destruct d. Qed.

(** X22: the data [join_display_fields] returns always holds a dict under
    ['skills'] and a list under each of ['projects'], ['experience'] and
    ['education'], also when the payload lacks them; every other section is
    the payload's own, [personal_info] among them, which is not escaped. *)
Theorem display_sections_present (payload data : dict) :
  join_display_fields payload = Some data ->
  (exists skills, dict_get (lit "skills") data = Some (JDict skills))
  /\ (forall key,
        In key ["projects"; "experience"; "education"]%string ->
        exists items, dict_get (lit key) data = Some (JList items))
  /\ (forall key,
        ~ In key [lit "skills"; lit "projects"; lit "experience";
                  lit "education"] ->
        dict_get key data = dict_get key payload).
Proof.
  rewrite join_display_fields_eq.
  destruct (or_else (dict_get (lit "skills") payload) (JDict []))
    as [| | | | | |s0]; try discriminate.
  destruct (set_display "languages" "languages_display" s0) as [s1|];
    [|discriminate].
  destruct (set_display "technologies" "technologies_display" s1) as [s2|];
    [|discriminate].
  destruct (set_display "concepts" "concepts_display" s2) as [s3|];
    [|discriminate].
  destruct (for_section project_body _) as [projects|] eqn:Ep; [|discriminate].
  destruct (for_section experience_body _) as [experience|] eqn:Ex;
    [|discriminate].
  destruct (for_section education_body _) as [education|] eqn:Ed;
    [|discriminate].
  apply or_else_list in Ep as (? & lp & _ & -> & _).
  apply or_else_list in Ex as (? & lx & _ & -> & _).
  apply or_else_list in Ed as (? & le & _ & -> & _).
  intros [= <-]. split; [|split].
  - exists s3. now rewrite !dict_get_set.
  - intros key [<-|[<-|[<-|[]]]]; rewrite !dict_get_set; cbn; eauto.
  - intros key Hk. rewrite !dict_get_set.
    rewrite !str_eqb_neq; [reflexivity| | | |];
      intros <-; apply Hk; cbn; tauto.
Qed.

(** X23: each experience of the returned data is the experience at the same
    place of the payload with the same keys in the same order and the same
    value under every key but ['bullets']; under ['bullets'] every string is
    escaped and everything else is kept, so that only bullets are escaped. *)
Theorem experience_bullets_escaped (payload data : dict) (items : list json) :
  join_display_fields payload = Some data ->
  dict_get (lit "experience") payload = Some (JList items) ->
  exists items',
    dict_get (lit "experience") data = Some (JList items')
    /\ Forall2 entry_escaped items items'.
Proof.
  rewrite join_display_fields_eq. intros H Hx. rewrite Hx in H.
  rewrite or_else_of_list in H.
  destruct (or_else (dict_get (lit "skills") payload) (JDict []))
    as [| | | | | |s0]; try discriminate.
  destruct (set_display "languages" "languages_display" s0) as [s1|];
    [|discriminate].
  destruct (set_display "technologies" "technologies_display" s1) as [s2|];
    [|discriminate].
  destruct (set_display "concepts" "concepts_display" s2) as [s3|];
    [|discriminate].
  destruct (for_section project_body _) as [projects|]; [|discriminate].
  cbn [for_section] in H.
  destruct (for_items experience_body items) as [items'|] eqn:Ex;
    [|discriminate].
  destruct (for_section education_body _) as [education|]; [|discriminate].
  injection H as <-. exists items'. split.
  - now rewrite !dict_get_set.
  - now apply experience_items_escaped.
Qed.

(** X24: [join_display_fields] raises exactly when ['skills'] is truthy but
    no dict, when one of the lists it joins holds something other than a
    string, or when ['projects'], ['experience'] or ['education'] is truthy
    but not a list of dicts. *)
Theorem display_fields_raise_iff (payload : dict) :
  join_display_fields payload = None <-> payload_ok payload = false.
Proof.
  rewrite join_display_fields_eq. unfold payload_ok.
  pose proof (for_section_none project_body (strings_or_none "tech")
                "projects" payload project_body_none) as Hp.
  pose proof (for_section_none experience_body (fun _ => true)
                "experience" payload experience_body_none) as Hx.
  pose proof (for_section_none education_body
                (strings_or_none "relevant_coursework")
                "education" payload education_body_none) as He.
  destruct (or_else (dict_get (lit "skills") payload) (JDict []))
    as [| | | | | |s0]; try (split; reflexivity).
  pose proof (set_display_none "languages" "languages_display" s0) as H1.
  destruct (set_display "languages" "languages_display" s0) as [s1|] eqn:E1;
    [|rewrite (proj1 H1 eq_refl); split; reflexivity].
  pose proof (set_display_none "technologies" "technologies_display" s1) as H2.
  rewrite (@strings_or_none_set_display "languages" "languages_display"
             "technologies" s0 s1 E1 eq_refl) in H2.
  destruct (set_display "technologies" "technologies_display" s1)
    as [s2|] eqn:E2;
    [|rewrite (proj1 H2 eq_refl), andb_false_r; split; reflexivity].
  pose proof (set_display_none "concepts" "concepts_display" s2) as H3.
  rewrite (@strings_or_none_set_display "technologies" "technologies_display"
             "concepts" s1 s2 E2 eq_refl),
          (@strings_or_none_set_display "languages" "languages_display"
             "concepts" s0 s1 E1 eq_refl) in H3.
  destruct (set_display "concepts" "concepts_display" s2) as [s3|] eqn:E3;
    [|rewrite (proj1 H3 eq_refl), andb_false_r; split; reflexivity].
  destruct (strings_or_none "languages" s0);
    [|now destruct H1 as [_ H]; discriminate (H eq_refl)].
  destruct (strings_or_none "technologies" s0);
    [|now destruct H2 as [_ H]; discriminate (H eq_refl)].
  destruct (strings_or_none "concepts" s0);
    [|now destruct H3 as [_ H]; discriminate (H eq_refl)].
  cbn [andb].
  destruct (for_section project_body _) as [projects|];
    [|rewrite (proj1 Hp eq_refl); split; reflexivity].
  destruct (section_ok (strings_or_none "tech") "projects" payload);
    [|now destruct Hp as [_ H]; discriminate (H eq_refl)].
  destruct (for_section experience_body _) as [experience|];
    [|rewrite (proj1 Hx eq_refl); split; reflexivity].
  destruct (section_ok (fun _ => true) "experience" payload);
    [|now destruct Hx as [_ H]; discriminate (H eq_refl)].
  destruct (for_section education_body _) as [education|];
    [|rewrite (proj1 He eq_refl); split; reflexivity].
  destruct (section_ok (strings_or_none "relevant_coursework") "education"
              payload);
    [|now destruct He as [_ H]; discriminate (H eq_refl)].
  split; discriminate.
Qed.

(** X25: for each of the categories languages, technologies and concepts
    that holds a list in the payload's skills, the list holds only strings,
    the returned skills keep it, and they carry its items joined by a comma
    and a space under the category's [_display] key. *)
Theorem skills_display_joined (payload data skills : dict)
    (category : string) (l : list json) :
  join_display_fields payload = Some data ->
  dict_get (lit "skills") payload = Some (JDict skills) ->
  In category ["languages"; "technologies"; "concepts"]%string ->
  dict_get (lit category) skills = Some (JList l) ->
  exists names skills',
    l = map JStr names
    /\ dict_get (lit "skills") data = Some (JDict skills')
    /\ dict_get (lit (category ++ "_display")) skills'
       = Some (JStr (Step4.join (lit ", ") names))
    /\ dict_get (lit category) skills' = Some (JList l).
Proof.
  rewrite join_display_fields_eq. intros H Hs Hc Hl. rewrite Hs in H.
  rewrite or_else_of_dict in H.
  destruct (set_display "languages" "languages_display" skills) as [s1|] eqn:E1;
    [|discriminate].
  destruct (set_display "technologies" "technologies_display" s1)
    as [s2|] eqn:E2; [|discriminate].
  destruct (set_display "concepts" "concepts_display" s2) as [s3|] eqn:E3;
    [|discriminate].
  destruct (for_section project_body _) as [projects|]; [|discriminate].
  destruct (for_section experience_body _) as [experience|]; [|discriminate].
  destruct (for_section education_body _) as [education|]; [|discriminate].
  injection H as <-.
  assert (Hdata : dict_get (lit "skills")
                    (dict_set (lit "education") education
                       (dict_set (lit "experience") experience
                          (dict_set (lit "projects") projects
                             (dict_set (lit "skills") (JDict s3) payload))))
                  = Some (JDict s3)) by now rewrite !dict_get_set.
  pose proof (fun key => @set_display_get _ _ _ _ key E1) as F1.
  pose proof (fun key => @set_display_get _ _ _ _ key E2) as F2.
  pose proof (fun key => @set_display_get _ _ _ _ key E3) as F3.
  destruct Hc as [<-|[<-|[<-|[]]]].
  - apply set_display_some in E1. rewrite Hl in E1.
    destruct E1 as (names & -> & ->). exists names, s3.
    split; [reflexivity|]. split; [exact Hdata|].
    split.
    + rewrite F3, F2 by reflexivity. now rewrite dict_get_set.
    + rewrite F3, F2 by reflexivity. rewrite dict_get_set. exact Hl.
  - apply set_display_some in E2. rewrite F1, Hl in E2 by reflexivity.
    destruct E2 as (names & -> & ->). exists names, s3.
    split; [reflexivity|]. split; [exact Hdata|].
    split.
    + rewrite F3 by reflexivity. now rewrite dict_get_set.
    + rewrite F3 by reflexivity. rewrite dict_get_set.
      rewrite <- Hl. now apply F1.
  - apply set_display_some in E3. rewrite F2, F1, Hl in E3 by reflexivity.
    destruct E3 as (names & -> & E3). exists names, s3.
    split; [reflexivity|]. split; [exact Hdata|]. rewrite E3.
    split.
    + now rewrite dict_get_set.
    + rewrite dict_get_set. rewrite <- Hl.
      change (dict_get (lit "concepts") s2 = dict_get (lit "concepts") skills).
      now rewrite F2, F1.
Qed.

Lemma display_sections_present_witness :
  exists data,
    join_display_fields sample_payload = Some data
    /\ (exists skills, dict_get (lit "skills") data = Some (JDict skills))
    /\ (forall key,
          In key ["projects"; "experience"; "education"]%string ->
          exists items, dict_get (lit key) data = Some (JList items))
    /\ (forall key,
          ~ In key [lit "skills"; lit "projects"; lit "experience";
                    lit "education"] ->
          dict_get key data = dict_get key sample_payload).
Proof.
  eexists. split; [reflexivity|].
  apply (display_sections_present sample_payload). reflexivity.
Defined.

Lemma experience_bullets_escaped_witness :
  exists data items items',
    join_display_fields sample_payload = Some data
    /\ dict_get (lit "experience") sample_payload = Some (JList items)
    /\ dict_get (lit "experience") data = Some (JList items')
    /\ Forall2 entry_escaped items items'.
Proof.
  assert (H : exists data, join_display_fields sample_payload = Some data)
    by (eexists; reflexivity).
  destruct H as (data & H).
  assert (Hx : exists items,
             dict_get (lit "experience") sample_payload = Some (JList items))
    by (eexists; reflexivity).
  destruct Hx as (items & Hx).
  destruct (experience_bullets_escaped sample_payload H Hx) as (items' & H').
  exists data, items, items'. split; [exact H|]. split; [exact Hx|exact H'].
Defined.

Lemma display_fields_raise_iff_witness :
  payload_ok numeric_skill = false
  /\ join_display_fields numeric_skill = None.
Proof.
  assert (H : payload_ok numeric_skill = false) by reflexivity.
  split; [exact H|].
  apply (proj2 (display_fields_raise_iff numeric_skill) H).
Defined.

Lemma skills_display_joined_witness :
  exists data names skills',
    join_display_fields sample_payload = Some data
    /\ [JStr (lit "C#")] = map JStr names
    /\ dict_get (lit "skills") data = Some (JDict skills')
    /\ dict_get (lit "languages_display") skills'
       = Some (JStr (Step4.join (lit ", ") names))
    /\ dict_get (lit "languages") skills' = Some (JList [JStr (lit "C#")]).
Proof.
  assert (H : exists data, join_display_fields sample_payload = Some data)
    by (eexists; reflexivity).
  destruct H as (data & H).
  destruct (@skills_display_joined sample_payload data
              [(lit "languages", JList [JStr (lit "C#")])]
              "languages" [JStr (lit "C#")] H eq_refl
              (or_introl eq_refl) eq_refl)
    as (names & skills' & H').
  exists data, names, skills'. split; [exact H|exact H'].
Defined.

End BuildMore.

(* ================================================================== *)
(** * More about the orchestrator *)
(* ================================================================== *)

Module PipelineMore.
Import Py Pipeline Stages StageOrder PipelineFacts.

Local Open Scope Z_scope.

Lemma str_leb_total (s t : str) : str_leb s t = false -> str_leb t s = true.
Proof.
  revert t. induction s as [|c s IH]; intros [|d t]; cbn; try congruence.
  intros H. apply orb_false_iff in H as [Hlt H].
  apply N.ltb_ge in Hlt.
  destruct (N.eqb_spec c d) as [->|Hne].
  - cbn in H. rewrite N.eqb_refl, (IH _ H). apply orb_true_r.
  - assert (Hd : (d <? c)%N = true) by (apply N.ltb_lt; lia).
    now rewrite Hd.
Qed.

Lemma str_leb_trans (s t u : str) :
  str_leb s t = true -> str_leb t u = true -> str_leb s u = true.
Proof.
  revert t u. induction s as [|c s IH]; intros [|d t] [|e u]; cbn;
    try congruence.
  intros H1 H2.
  apply orb_true_iff in H1 as [H1|H1]; apply orb_true_iff in H2 as [H2|H2].
  - apply N.ltb_lt in H1, H2.
    assert (H : (c <? e)%N = true) by (apply N.ltb_lt; lia). now rewrite H.
  - apply andb_prop in H2 as [H2 _]. apply N.eqb_eq in H2. subst e.
    now rewrite H1.
  - apply andb_prop in H1 as [H1 _]. apply N.eqb_eq in H1. subst d.
    now rewrite H2.
  - apply andb_prop in H1 as [H1 H1']. apply andb_prop in H2 as [H2 H2'].
    apply N.eqb_eq in H1, H2. subst d e.
    rewrite N.eqb_refl, (IH _ _ H1' H2'). apply orb_true_r.
Qed.

Lemma str_leb_refl (s : str) : str_leb s s = true.
Proof.
  induction s as [|c s IH]; [reflexivity|].
  cbn. rewrite N.eqb_refl, IH. apply orb_true_r.
Qed.

Lemma fold_latest (files : list str) :
  forall best f,
    fold_left (fun best f =>
      match best with
      | None => Some f
      | Some b => if str_leb b f then Some f else Some b
      end) files (Some best) = Some f ->
    (f = best \/ In f files)
    /\ str_leb best f = true
    /\ forall g, In g files -> str_leb g f = true.
Proof.
  induction files as [|x files IH]; intros best f; cbn [fold_left].
  - intros [= <-]. split; [now left|]. split; [apply str_leb_refl|].
    intros g [].
  - destruct (str_leb best x) eqn:E; intros H;
      apply IH in H as (Hin & Hle & Hall).
    + split; [right; destruct Hin as [->|Hin]; [now left | now right]|].
      split; [now apply str_leb_trans with x|].
      intros g [<-|Hg]; [exact Hle | now apply Hall].
    + split; [destruct Hin as [->|Hin]; [now left | right; now right]|].
      split; [exact Hle|].
      intros g [<-|Hg]; [|now apply Hall].
      apply str_leb_trans with best; [now apply str_leb_total | exact Hle].
Qed.

Lemma sorted_last_latest (files : list str) (f : str) :
  sorted_last files = Some f -> latest files f.
Proof.
  destruct files as [|x files]; [discriminate|].
  unfold sorted_last. cbn [fold_left]. intros H.
  apply fold_latest in H as (Hin & Hle & Hall). split.
  - destruct Hin as [->|Hin]; [now left | now right].
  - intros g [<-|Hg]; [exact Hle | now apply Hall].
Qed.

Lemma steps_to_run_ascending (args : arguments) :
  ascending (steps_to_run args) = true.
Proof.
  unfold steps_to_run.
  destruct (step args) as [[] | | | | | |]; try reflexivity.
  now destruct (generate_cover_letter args).
Qed.

Lemma steps_to_run_first (args : arguments) :
  exists s rest,
    steps_to_run args = s :: rest
    /\ match precondition s with
       | Some a => requested (producer a) (steps_to_run args) = false
       | None => True
       end.
Proof.
  unfold steps_to_run.
  destruct (step args) as [[] | | | | | |];
    try (eexists _, _; split; [reflexivity|]; cbn; trivial; reflexivity).
Qed.

Lemma ascending_app (l l' : list stage) :
  ascending (l ++ l') = true -> ascending l = true.
Proof.
  induction l as [|s l IH]; [reflexivity|].
  destruct l as [|t l]; [reflexivity|].
  cbn [app ascending]. intros H. apply andb_prop in H as [Hs H].
  rewrite Hs. cbn [andb]. apply IH. exact H.
Qed.

Section Orchestrator.

Variable world : Type.
Variable exists_job_description : arguments -> world -> bool.
Variable glob : arguments -> artifact -> world -> list str.
Variable subprocess_run : stage -> arguments -> input -> world -> Z * world.

Lemma resolve_input_source (args : arguments) (s : stage) (w : world)
    (inp : input) (rc : Z) :
  resolve_input glob args s w = Some inp ->
  source_of_input args
    {| ev_stage := s; ev_input := inp; ev_returncode := rc |}.
Proof.
  unfold resolve_input, source_of_input. cbn [ev_stage ev_input].
  destruct (precondition s) as [a|]; [|now intros [= <-]].
  destruct (requested (producer a) (steps_to_run args)); [now intros [= <-]|].
  destruct (sorted_last (glob args a w)) as [f|]; [|discriminate].
  intros [= <-]. now exists f.
Qed.

Lemma run_stages_sources (args : arguments) (steps : list stage) :
  forall (w : world) (log : list event) code attempted w',
    Forall (source_of_input args) log ->
    run_stages glob subprocess_run args steps w log = (code, attempted, w') ->
    Forall (source_of_input args) attempted.
Proof.
  induction steps as [|s rest IH]; intros w log code attempted w' Hlog Hrun.
  - now injection Hrun as _ <- _.
  - cbn [run_stages] in Hrun.
    destruct (resolve_input glob args s w) as [inp|] eqn:Einp;
      [|now injection Hrun as _ <- _].
    destruct (subprocess_run s args inp w) as [rc w1].
    assert (Hlog' : Forall (source_of_input args)
                      (log ++ [{| ev_stage := s; ev_input := inp;
                                  ev_returncode := rc |}])).
    { apply Forall_app. split; [exact Hlog|].
      constructor; [|constructor]. now apply resolve_input_source with w. }
    destruct (rc =? 0).
    + now apply IH in Hrun.
    + now injection Hrun as _ <- _.
Qed.

Lemma run_stages_extends (args : arguments) (steps : list stage) :
  forall (w : world) (log : list event) code attempted w',
    run_stages glob subprocess_run args steps w log = (code, attempted, w') ->
    exists new, attempted = log ++ new.
Proof.
  induction steps as [|s rest IH]; intros w log code attempted w' Hrun.
  - injection Hrun as _ <- _. exists []. now rewrite app_nil_r.
  - cbn [run_stages] in Hrun.
    destruct (resolve_input glob args s w) as [inp|];
      [|injection Hrun as _ <- _; exists []; now rewrite app_nil_r].
    destruct (subprocess_run s args inp w) as [rc w1].
    destruct (rc =? 0).
    + apply IH in Hrun as (new & ->). rewrite <- app_assoc. eauto.
    + injection Hrun as _ <- _. eauto.
Qed.

Lemma main_cases (args : arguments) (w : world) :
  main exists_job_description glob subprocess_run args w = (1, [], w)
  \/ main exists_job_description glob subprocess_run args w
     = run_stages glob subprocess_run args (steps_to_run args) w [].
Proof.
  destruct (exists_job_description args w) eqn:He.
  - right. now apply main_run_stages.
  - left. unfold main. now rewrite He.
Qed.

(** X26: [main] exits with 0 exactly when every stage of [steps_to_run]
    was run, in that order, and each returned 0; in every other case it
    exits with 1. *)
Theorem exit_zero_iff_all_succeeded (args : arguments) (w w' : world)
    (code : Z) (log : list event) :
  main exists_job_description glob subprocess_run args w = (code, log, w') ->
  (code = 0
   <-> map ev_stage log = steps_to_run args /\ forallb ev_ok log = true)
  /\ (code = 0 \/ code = 1).
Proof.
  intros Hmain.
  destruct (steps_to_run_first args) as (s0 & rest0 & Hsteps & _).
  destruct (main_cases args w) as [H|H]; rewrite H in Hmain.
  - injection Hmain as <- <- <-. split; [|now right].
    split; [discriminate|]. rewrite Hsteps. intros [Hs _]. discriminate.
  - apply run_stages_halted in Hmain as (new & pending & -> & Hp & Hh);
      [|reflexivity].
    cbn [app] in *. rewrite Hp. clear H Hsteps.
    inversion Hh as [attempted Hok|succeeded failed pending' Hok Hfail
                    |attempted s pending' Hok Hmiss]; subst.
    + split; [|now left]. rewrite app_nil_r. tauto.
    + split; [|now right]. split; [discriminate|].
      intros [_ Hall]. rewrite forallb_app in Hall.
      apply andb_prop in Hall as [_ Hall]. cbn [forallb] in Hall.
      rewrite Hfail in Hall. discriminate.
    + split; [|now right]. split; [discriminate|].
      intros [Hs _]. apply (f_equal (@length stage)) in Hs.
      rewrite length_app in Hs. cbn [length] in Hs. lia.
Qed.

(** X27: the stages [main] runs are an initial part of [steps_to_run], in
    strictly ascending order, so that no stage runs twice; and each call
    takes its input from this invocation when the stage producing it is
    part of the invocation, and from a file on disk only otherwise. *)
Theorem stages_in_order_with_sources (args : arguments) (w w' : world)
    (code : Z) (log : list event) :
  main exists_job_description glob subprocess_run args w = (code, log, w') ->
  (exists pending, steps_to_run args = map ev_stage log ++ pending)
  /\ ascending (map ev_stage log) = true
  /\ Forall (source_of_input args) log.
Proof.
  intros Hmain.
  assert (Hprefix : exists pending,
             steps_to_run args = map ev_stage log ++ pending).
  { destruct (main_cases args w) as [H|H]; rewrite H in Hmain.
    - injection Hmain as _ <- _. now exists (steps_to_run args).
    - apply run_stages_halted in Hmain as (new & pending & -> & Hp & _);
        [|reflexivity].
      now exists pending. }
  split; [exact Hprefix|]. split.
  - destruct Hprefix as (pending & Hp).
    apply ascending_app with pending. rewrite <- Hp.
    apply steps_to_run_ascending.
  - destruct (main_cases args w) as [H|H]; rewrite H in Hmain.
    + injection Hmain as _ <- _. constructor.
    + eapply run_stages_sources; [|exact Hmain]. constructor.
Qed.

(** X28: the first stage [main] runs reads no artifact when it is stage 1;
    any other first stage reads, among the files on disk that match its
    input pattern when [main] starts, one that is last in the order of
    [sorted]. *)
Theorem first_stage_reads_latest (args : arguments) (w w' : world)
    (code : Z) (e : event) (rest : list event) :
  main exists_job_description glob subprocess_run args w
  = (code, e :: rest, w') ->
  match precondition (ev_stage e) with
  | None => ev_input e = NoInput
  | Some a => exists f, ev_input e = OnDisk f /\ latest (glob args a w) f
  end.
Proof.
  intros Hmain.
  destruct (main_cases args w) as [H|H]; rewrite H in Hmain;
    [discriminate|]. clear H.
  destruct (steps_to_run_first args) as (s0 & rest0 & Hsteps & Hfirst).
  rewrite Hsteps in Hmain. cbn [run_stages] in Hmain.
  unfold resolve_input in Hmain.
  destruct (precondition s0) as [a|] eqn:Ea.
  - rewrite Hfirst in Hmain.
    destruct (sorted_last (glob args a w)) as [f|] eqn:Ef; [|discriminate].
    apply sorted_last_latest in Ef.
    destruct (subprocess_run s0 args (OnDisk f) w) as [rc w1].
    destruct (rc =? 0).
    + apply run_stages_extends in Hmain as (new & Hnew).
      injection Hnew as He _. subst e. cbn [ev_stage ev_input]. rewrite Ea. eauto.
    + injection Hmain as _ He _ _. subst e. cbn [ev_stage ev_input]. rewrite Ea. eauto.
  - destruct (subprocess_run s0 args NoInput w) as [rc w1].
    destruct (rc =? 0).
    + apply run_stages_extends in Hmain as (new & Hnew).
      injection Hnew as He _. subst e. cbn [ev_stage ev_input]. now rewrite Ea.
    + injection Hmain as _ He _ _. subst e. cbn [ev_stage ev_input]. now rewrite Ea.
Qed.

End Orchestrator.

Lemma exit_zero_iff_all_succeeded_witness :
  main (fun _ _ => true) sample_glob sample_run
       (sample_args Range_1_3) step2_fails
  = (1,
     [{| ev_stage := Stage1; ev_input := NoInput; ev_returncode := 0 |};
      {| ev_stage := Stage2; ev_input := ThisRun Step1Filtered;
         ev_returncode := 2 |}],
     step2_fails)
  /\ (1 = 0 \/ 1 = 1).
Proof.
  assert (H : main (fun _ _ => true) sample_glob sample_run
                   (sample_args Range_1_3) step2_fails
              = (1,
                 [{| ev_stage := Stage1; ev_input := NoInput;
                     ev_returncode := 0 |};
                  {| ev_stage := Stage2; ev_input := ThisRun Step1Filtered;
                     ev_returncode := 2 |}],
                 step2_fails)) by reflexivity.
  split; [exact H|].
  apply (exit_zero_iff_all_succeeded (fun _ _ => true) sample_glob sample_run
           (sample_args Range_1_3) step2_fails H).
Defined.

Lemma stages_in_order_with_sources_witness :
  main (fun _ _ => true) sample_glob sample_run
       (sample_args Range_2_3) two_filtered
  = (0,
     [{| ev_stage := Stage2;
         ev_input :=
           OnDisk (lit "out/step1_filtered_resume_20240102_090000.json");
         ev_returncode := 0 |};
      {| ev_stage := Stage3; ev_input := ThisRun Step2Optimized;
         ev_returncode := 0 |}],
     two_filtered)
  /\ ascending [Stage2; Stage3] = true.
Proof.
  assert (H : main (fun _ _ => true) sample_glob sample_run
                   (sample_args Range_2_3) two_filtered
              = (0,
                 [{| ev_stage := Stage2;
                     ev_input :=
                       OnDisk
                         (lit "out/step1_filtered_resume_20240102_090000.json");
                     ev_returncode := 0 |};
                  {| ev_stage := Stage3; ev_input := ThisRun Step2Optimized;
                     ev_returncode := 0 |}],
                 two_filtered)) by reflexivity.
  split; [exact H|].
  apply (stages_in_order_with_sources (fun _ _ => true) sample_glob sample_run
           (sample_args Range_2_3) two_filtered H).
Defined.

Lemma first_stage_reads_latest_witness :
  main (fun _ _ => true) sample_glob sample_run
       (sample_args (Single Stage2)) two_filtered
  = (0,
     [{| ev_stage := Stage2;
         ev_input :=
           OnDisk (lit "out/step1_filtered_resume_20240102_090000.json");
         ev_returncode := 0 |}],
     two_filtered)
  /\ exists f,
       OnDisk (lit "out/step1_filtered_resume_20240102_090000.json") = OnDisk f
       /\ latest (sw_step1_files two_filtered) f.
Proof.
  assert (H : main (fun _ _ => true) sample_glob sample_run
                   (sample_args (Single Stage2)) two_filtered
              = (0,
                 [{| ev_stage := Stage2;
                     ev_input :=
                       OnDisk
                         (lit "out/step1_filtered_resume_20240102_090000.json");
                     ev_returncode := 0 |}],
                 two_filtered)) by reflexivity.
  split; [exact H|].
  apply (first_stage_reads_latest (fun _ _ => true) sample_glob sample_run
           (sample_args (Single Stage2)) two_filtered H).
Defined.

End PipelineMore.

(* ================================================================== *)
(** * [combine_json.py] *)
(* ================================================================== *)

Module CombineFacts.
Import Py CombineJson PyFacts.

Lemma section_bare_list (key : str) (items : list json) :
  section key (JList items) = JList items.
Proof. unfold section. now destruct (existsb (str_eqb key) array_keys). Qed.

Lemma section_wrapped (key : str) (v : json) (d : dict) :
  dict_get key d = Some v -> section key (JDict d) = v.
Proof. unfold section. now intros ->. Qed.

Lemma section_unwrapped (key : str) (data : json) :
  existsb (str_eqb key) array_keys = true ->
  wraps key data = false ->
  exists items,
    section key data = JList items
    /\ (data = JList items \/ items = [data]).
Proof.
  intros Hk Hw. unfold section. rewrite Hk.
  destruct data as [| | | | |l|d]; cbn [isinstance_list]; eauto.
  unfold wraps, dict_has in Hw.
  destruct (dict_get key d); [discriminate|]. eauto.
Qed.

Ltac by_files about_me :=
  destruct (about_me "personal_info.json"%string);
  destruct (about_me "education.json"%string);
  destruct (about_me "experience.json"%string);
  destruct (about_me "projects.json"%string);
  destruct (about_me "skills.json"%string).

Lemma main_get (about_me : string -> file) (combined : dict) (key : string) :
  main about_me = Some combined ->
  In key ["personal_info"; "education"; "experience"; "projects";
          "skills"]%string ->
  dict_get (lit key) combined
  = match about_me (key ++ ".json")%string with
    | Loaded data => Some (section (lit key) data)
    | _ => None
    end.
Proof.
  unfold main, json_files. cbn [fold_left fst snd].
  intros H [<-|[<-|[<-|[<-|[<-|[]]]]]]; cbn [String.append]; revert H;
    by_files about_me; intros [= <-] || discriminate; reflexivity.
Qed.

(** X29: [main] raises exactly when a file that exists cannot be decoded;
    otherwise the combined resume holds one key for each file of
    [about-me] that exists, in the order personal_info, education,
    experience, projects, skills, and nothing else. *)
Theorem combined_keys (about_me : string -> file) :
  (main about_me = None
   <-> existsb (fun fk => malformed (about_me (fst fk))) json_files = true)
  /\ forall combined,
       main about_me = Some combined ->
       map fst combined
       = map (fun fk => lit (snd fk))
           (filter (fun fk => present (about_me (fst fk))) json_files).
Proof.
  unfold main, json_files. cbn [fold_left filter existsb fst snd].
  by_files about_me; cbn; (split; [split; reflexivity || discriminate|]);
    intros combined; intros [= <-] || discriminate; reflexivity.
Qed.

(** X30: for education, experience and projects, a file that holds a list
    and a file that holds that list under the section's own key give the
    same section; and unless the file is a dict that holds the key, the
    section stored is a list: the file's own list, or the single value the
    file holds. *)
Theorem array_sections_listed (about_me : string -> file) (key : string)
    (data : json) (combined : dict) :
  In key ["education"; "experience"; "projects"]%string ->
  about_me (key ++ ".json")%string = Loaded data ->
  main about_me = Some combined ->
  dict_get (lit key) combined = Some (section (lit key) data)
  /\ (forall items,
        data = JList items \/ data = JDict [(lit key, JList items)] ->
        section (lit key) data = JList items)
  /\ (wraps (lit key) data = false ->
      exists items,
        section (lit key) data = JList items
        /\ (data = JList items \/ items = [data])).
Proof.
  intros Hk Hfile Hmain. split; [|split].
  - rewrite (@main_get about_me combined key Hmain), Hfile; [reflexivity|].
    cbn in Hk |- *. tauto.
  - intros items [->| ->]; [apply section_bare_list|].
    apply section_wrapped. cbn [dict_get]. now rewrite str_eqb_refl.
  - apply section_unwrapped.
    destruct Hk as [<-|[<-|[<-|[]]]]; reflexivity.
Qed.

Lemma combined_keys_witness :
  main sample_about_me
  = Some [(lit "experience",
           JList [JDict [(lit "company", JStr (lit "Initech"))]]);
          (lit "skills", JDict [(lit "languages", JList [])])]
  /\ map fst [(lit "experience",
               JList [JDict [(lit "company", JStr (lit "Initech"))]]);
              (lit "skills", JDict [(lit "languages", JList [])])]
     = [lit "experience"; lit "skills"].
Proof.
  assert (H : main sample_about_me
              = Some [(lit "experience",
                       JList [JDict [(lit "company", JStr (lit "Initech"))]]);
                      (lit "skills", JDict [(lit "languages", JList [])])])
    by reflexivity.
  split; [exact H|].
  apply (proj2 (combined_keys sample_about_me) _ H).
Defined.

Lemma array_sections_listed_witness :
  sample_about_me "experience.json"%string
  = Loaded (JDict [(lit "company", JStr (lit "Initech"))])
  /\ dict_get (lit "experience")
       [(lit "experience",
         JList [JDict [(lit "company", JStr (lit "Initech"))]]);
        (lit "skills", JDict [(lit "languages", JList [])])]
     = Some (section (lit "experience")
               (JDict [(lit "company", JStr (lit "Initech"))])).
Proof.
  assert (H : sample_about_me ("experience" ++ ".json")%string
              = Loaded (JDict [(lit "company", JStr (lit "Initech"))]))
    by reflexivity.
  assert (Hmain : main sample_about_me
                  = Some [(lit "experience",
                           JList [JDict [(lit "company",
                                          JStr (lit "Initech"))]]);
                          (lit "skills",
                           JDict [(lit "languages", JList [])])])
    by reflexivity.
  split; [exact H|].
  apply (@array_sections_listed sample_about_me "experience"
           (JDict [(lit "company", JStr (lit "Initech"))]) _
           (or_intror (or_introl eq_refl)) H Hmain).
Defined.

End CombineFacts.
